(** * llmstreamer: the SSE stream decoders of the OpenAI and Anthropic clients

    A shallow embedding of [openai/openai.go] and [anthropic/anthropic.go]
    together with the callback contract of [streamer.go].

    The two [processStream] functions read the response body line by line,
    decode every [data: ] payload and report through three caller-supplied
    callbacks.  The embedding keeps

    - the callbacks as optional closures over the caller's own state, behind
      a pointer that may itself be nil; calling through nil panics, as in Go;
    - the response body as the bytes still unread plus the error the source
      reports once they are exhausted ([io.EOF] on a clean end);
    - a log of every callback invocation, which is what the theorems speak
      about.

    Library code that is not part of the repository ([encoding/json], the
    HTTP transport, the Unicode slow path of [bytes.TrimSpace]) enters as
    section variables, so every theorem holds for whatever those do. *)

From Stdlib Require Import List String ZArith Lia Bool.
From Stdlib Require Import Strings.Byte Numbers.DecimalString.
Import ListNotations.

Local Open Scope string_scope.
Local Open Scope list_scope.

Set Implicit Arguments.
Set Warnings "-register-all,-notation-for-abbreviation".

(** ** Bytes, strings and errors *)

Definition bytes := list byte.

(** [[]byte("...")] and [string(b)]. *)
Definition b (s : string) : bytes := list_byte_of_string s.
Definition string_of_bytes (x : bytes) : string := string_of_list_byte x.

(** [len(x)] of a byte slice. *)
Definition len (x : bytes) : nat := List.length x.

Fixpoint Equal (x y : bytes) : bool :=
  match x, y with
  | [], [] => true
  | c :: x', d :: y' => Byte.eqb c d && Equal x' y'
  | _, _ => false
  end.

Fixpoint HasPrefix (s prefix : bytes) : bool :=
  match prefix, s with
  | [], _ => true
  | p :: prefix', c :: s' => Byte.eqb c p && HasPrefix s' prefix'
  | _ :: _, [] => false
  end.

(** Go's [error] values as this program builds and compares them:
    the sentinel [io.EOF], a plain message ([errors.New], [fmt.Errorf]
    without [%w]) and a message wrapping a cause ([fmt.Errorf] with [%w]). *)
Inductive error : Type :=
| EOF
| errorString (text : string)
| wrapError (msg : string) (err : error).

Definition Error (e : error) : string :=
  match e with
  | EOF => "EOF"
  | errorString text => text
  | wrapError msg _ => msg
  end.

(** [err == io.EOF] *)
Definition isEOF (e : error) : bool :=
  match e with EOF => true | _ => false end.

(** [%d] of an [int]. *)
Definition itoa (n : Z) : string := NilZero.string_of_int (Z.to_int n).

(** [fmt.Errorf(prefix + "%w", err)] *)
Definition Errorf_w (prefix : string) (err : error) : error :=
  wrapError (prefix ++ Error err)%string err.

Definition StatusOK : Z := 200.

(** ** bytes.TrimSpace

    The ASCII fast path is the library's; when a byte at or above
    [utf8.RuneSelf] is met the library hands the remaining slice to
    [TrimFunc(_, unicode.IsSpace)], which is taken as [trimUnicode]. *)

Definition asciiSpace (c : byte) : bool :=
  match c with
  | "009"%byte | "010"%byte | "011"%byte | "012"%byte | "013"%byte | " "%byte => true
  | _ => false
  end.

Definition RuneSelf : N := 128.

(** One scan direction: drops ASCII space from the front; the flag tells that
    a non-ASCII byte stopped the scan. *)
Fixpoint trimScan (s : bytes) : bool * bytes :=
  match s with
  | [] => (false, [])
  | c :: s' =>
      if (RuneSelf <=? Byte.to_N c)%N then (true, s)
      else if asciiSpace c then trimScan s'
      else (false, s)
  end.

Definition TrimSpace (trimUnicode : bytes -> bytes) (s : bytes) : bytes :=
  let '(slow, s1) := trimScan s in
  if slow then trimUnicode s1
  else
    let '(slow, r) := trimScan (rev s1) in
    if slow then trimUnicode (rev r) else rev r.

(** ** The response body and bufio.Reader.ReadBytes *)

(** What is still unread, and the error the source reports once it is
    exhausted. *)
Record Body : Type := { pending : bytes; final : error }.

(** Splits after the first [delim]: the line with its delimiter, and the rest. *)
Fixpoint cut (delim : byte) (s : bytes) : option (bytes * bytes) :=
  match s with
  | [] => None
  | c :: s' =>
      if Byte.eqb c delim then Some ([c], s')
      else match cut delim s' with
           | Some (line, rest) => Some (c :: line, rest)
           | None => None
           end
  end.

(** ** Streams as sequences of lines *)

Definition nl : byte := "010"%byte.

Definition noNewline (line : bytes) : bool :=
  negb (existsb (fun c => Byte.eqb c nl) line).

(** A line as [ReadBytes] returns it, delimiter included. *)
Definition terminate (line : bytes) : bytes := line ++ [nl].

(** The stream made of the given lines, each newline-terminated. *)
Definition frame (lines : list bytes) : bytes := List.concat (map terminate lines).

(** The payload of a line as read: what follows [data: ] once the line is
    trimmed; [None] for a blank line or any other SSE field. *)
Definition payload (trimUnicode : bytes -> bytes) (raw : bytes) : option bytes :=
  let line := TrimSpace trimUnicode raw in
  if HasPrefix line (b "data: ") then Some (skipn (len (b "data: ")) line)
  else None.

(** What a line means to the decoder. *)
Inductive Line : Type :=
| Ignored                  (* blank, or not a [data: ] line *)
| Terminator               (* [[DONE]], or a [message_stop] event *)
| Malformed (err : error)  (* the payload does not deserialize *)
| Fragment (text : string) (* a content delta with non-empty text *)
| Silent.                  (* a decoded event that carries nothing *)

Definition wellFormed (l : Line) : bool :=
  match l with Malformed _ => false | _ => true end.

(** Lines the decoder passes over without a trace. *)
Definition quiet (l : Line) : bool :=
  match l with Ignored | Silent => true | _ => false end.

(** The events of a stream: the classes of its lines, in order, with the
    quiet ones left out. *)
Definition events (classify : bytes -> Line) (lines : list bytes) : list Line :=
  flat_map (fun line =>
              let l := classify (terminate line) in
              if quiet l then [] else [l]) lines.

(** ** Requests, responses, callbacks *)

Record Client : Type := { Timeout : Z }.

Record Request : Type := {
  Method : string;
  URL : string;
  Header : list (string * string);
  Payload : bytes
}.

(** [req.Header.Set(key, value)] *)
Definition Header_Set (req : Request) (key value : string) : Request :=
  {| Method := Method req; URL := URL req;
     Header := (key, value) :: filter (fun kv => negb (fst kv =? key)) (Header req);
     Payload := Payload req |}.

Record Response : Type := { StatusCode : Z }.

(** The chat messages of the [llmstreamer] package. *)
Definition RoleUser : string := "user".
Definition RoleAdmin : string := "assistant".

Record Message : Type := { Role : string; Content : string }.

(** One invocation of a callback, with its argument. *)
Inductive Call : Type :=
| CallContent (content : string)
| CallFinish (finalMessage : string)
| CallError (err : error).

Definition nilDereference : string :=
  "runtime error: invalid memory address or nil pointer dereference".

(** The arguments of the [onContent] calls of a log, in order. *)
Definition contentsOf (log : list Call) : list string :=
  flat_map (fun c => match c with CallContent s => [s] | _ => [] end) log.

(** A call made while the stream goes on: a fragment, or the report of a
    payload that did not parse. *)
Definition duringStream (c : Call) : bool :=
  match c with
  | CallContent _ => true
  | CallError (wrapError msg cause) =>
      (msg =? "failed to parse JSON: " ++ Error cause)%string
  | _ => false
  end.

(** Go string concatenation of a sequence of fragments. *)
Definition join (fragments : list string) : string :=
  fold_right String.append "" fragments.

(** The last call of the log, when it is [onFinish], carries exactly the
    [onContent] arguments that came before it, concatenated. *)
Definition finishIsConcatenation (log : list Call) : Prop :=
  forall before s, log = before ++ [CallFinish s] -> s = join (contentsOf before).

Inductive Result (A : Type) : Type :=
| Returned (a : A)
| Panicked (reason : string)
| OutOfFuel.
Arguments Panicked {A} reason.
Arguments OutOfFuel {A}.

(** The continuation of one pass through the body of [for { ... }]. *)
Inductive Flow : Type :=
| Next (finalMessage : string)
| Exit.

Section Runtime.

(** The state the caller's closures capture. *)
Context {St : Type}.

(** streamer.go: three function-valued fields, each possibly nil. *)
Record StreamCallbacks : Type := {
  OnContent : option (string -> St -> St);
  OnFinish : option (string -> St -> St);
  OnError : option (error -> St -> St)
}.

(** Everything a call can change: the caller's state, the log of callback
    invocations, the response body on the wire, the requests handed to the
    transport, and whether the body was closed. *)
Record World : Type := {
  caller : St;
  calls : list Call;
  wire : Body;
  sent : list Request;
  closed : bool
}.

Definition Exec (A : Type) : Type := World -> Result A * World.

Definition ret {A} (a : A) : Exec A := fun w => (Returned a, w).

Definition bind {A B} (m : Exec A) (k : A -> Exec B) : Exec B :=
  fun w =>
    match m w with
    | (Returned a, w') => k a w'
    | (Panicked reason, w') => (Panicked reason, w')
    | (OutOfFuel, w') => (OutOfFuel, w')
    end.

Definition panic {A} (reason : string) : Exec A :=
  fun w => (Panicked reason, w).

(** A callback ran: the caller's state moves and the call is logged. *)
Definition record (c : Call) (f : St -> St) (w : World) : World :=
  {| caller := f (caller w); calls := calls w ++ [c];
     wire := wire w; sent := sent w; closed := closed w |}.

(** [cb.Slot(a)] with no guard: a nil [cb] or a nil slot panics. *)
Definition invoke {A} (slot : StreamCallbacks -> option (A -> St -> St))
    (log : A -> Call) (cb : option StreamCallbacks) (a : A) : Exec unit :=
  match cb with
  | None => panic nilDereference
  | Some c =>
      match slot c with
      | None => panic nilDereference
      | Some f => fun w => (Returned tt, record (log a) (f a) w)
      end
  end.

(** [cb != nil && cb.Slot != nil] *)
Definition supplied {A} (slot : StreamCallbacks -> option A)
    (cb : option StreamCallbacks) : bool :=
  match cb with
  | None => false
  | Some c => match slot c with Some _ => true | None => false end
  end.

(** The body read up to the point where [rest] is what remains. *)
Definition advance (rest : bytes) (w : World) : World :=
  {| caller := caller w; calls := calls w;
     wire := {| pending := rest; final := final (wire w) |};
     sent := sent w; closed := closed w |}.

(** [reader.ReadBytes(delim)]: the data up to and including the delimiter,
    or, when the source ends first, what was read before it and its error. *)
Definition ReadBytes (delim : byte) : Exec (bytes * option error) :=
  fun w =>
    let body := wire w in
    match cut delim (pending body) with
    | Some (line, rest) => (Returned (line, None), advance rest w)
    | None => (Returned (pending body, Some (final body)), advance [] w)
    end.

(** [io.ReadAll(resp.Body)]: reading up to [io.EOF] is not an error. *)
Definition ReadAll : Exec (bytes * option error) :=
  fun w =>
    let body := wire w in
    (Returned (pending body, if isEOF (final body) then None else Some (final body)),
     advance [] w).

(** [client.Do(req)] against a transport that answers [transport req]. *)
Definition Do (transport : Request -> error + Response) (client : Client)
    (req : Request) : Exec (error + Response) :=
  fun w =>
    (Returned (transport req),
     {| caller := caller w; calls := calls w; wire := wire w;
        sent := sent w ++ [req]; closed := closed w |}).

(** [defer resp.Body.Close()] around [m]: runs however [m] ends. *)
Definition deferClose {A} (m : Exec A) : Exec A :=
  fun w =>
    let '(r, w') := m w in
    (r, {| caller := caller w'; calls := calls w'; wire := wire w';
           sent := sent w'; closed := true |}).

(** Go's [for { ... }] around a body that ends each pass by going round
    again or by returning; [fuel] bounds the number of passes. *)
Fixpoint forLoop (fuel : nat) (body : string -> Exec Flow)
    (finalMessage : string) : Exec unit :=
  match fuel with
  | O => fun w => (OutOfFuel, w)
  | S fuel' =>
      bind (body finalMessage) (fun flow =>
        match flow with
        | Next finalMessage' => forLoop fuel' body finalMessage'
        | Exit => ret tt
        end)
  end.

(** Every pass that goes round again has consumed at least one byte, so
    one more pass than there are unread bytes is enough. *)
Definition passes (w : World) : nat := S (len (pending (wire w))).

(** What the caller can observe of a run: how it ended, the caller's own
    state, and the callbacks that were invoked. *)
Definition observable {A} (run : Result A * World) : Result A * St * list Call :=
  (fst run, caller (snd run), calls (snd run)).

End Runtime.

Arguments StreamCallbacks St : clear implicits.
Arguments World St : clear implicits.
Arguments Exec St A : clear implicits.

Declare Scope exec_scope.
Delimit Scope exec_scope with exec.
Notation "x <- m ;; k" := (bind m (fun x => k))
  (at level 100, m at next level, right associativity) : exec_scope.
Notation "' p <- m ;; k" := (bind m (fun x => let p := x in k))
  (at level 100, p pattern, m at next level, right associativity) : exec_scope.
Notation "m ;; k" := (bind m (fun _ => k))
  (at level 100, right associativity) : exec_scope.

(** * The OpenAI client (openai/openai.go, openai/models.go) *)

Module OpenAI.

Local Open Scope exec_scope.

Definition Model := string.
Definition ModelGPT4o : Model := "gpt-4o".
Definition ModelGPT4oMini : Model := "gpt-4o-mini".
Definition ModelGPT4Turbo : Model := "gpt-4-turbo".
Definition ModelGPT35Turbo : Model := "gpt-3.5-turbo".

Record RequestBody : Type := {
  RequestModel : Model;
  Messages : list Message;
  MaxTokens : Z;
  Stream : bool
}.

(** What [encoding/json] stores in an [interface{}]; a number is kept as
    its literal, nothing here reads it. *)
Inductive any : Type :=
| anyNil
| anyBool (v : bool)
| anyNumber (literal : string)
| anyString (v : string)
| anyArray (v : list any)
| anyObject (v : list (string * any)).

Record Delta : Type := {
  Role : string;
  Content : string
}.

Record Choice : Type := {
  Index : Z;
  ChoiceDelta : Delta;
  Logprobs : any;
  FinishReason : option string
}.

Record StreamEvent : Type := {
  ID : string;
  Object : string;
  Created : Z;
  EventModel : string;
  ServiceTier : string;
  SystemFingerprint : string;
  Choices : list Choice;
  Obfuscation : string
}.

Record OpenAIStreamer : Type := { ApiKey : string; StreamerModel : Model }.

Definition New (apiKey : string) (model : Model) : OpenAIStreamer :=
  {| ApiKey := apiKey; StreamerModel := model |}.

Definition url : string := "https://api.openai.com/v1/chat/completions".

Section Decoder.

Context {St : Type}.

(** [json.Unmarshal(data, &ev)] on a zero [StreamEvent]. *)
Variable Unmarshal : bytes -> error + StreamEvent.
(** [bytes.TrimFunc(_, unicode.IsSpace)] *)
Variable trimUnicode : bytes -> bytes.
(** [json.Marshal(payload)] *)
Variable Marshal : RequestBody -> error + bytes.
(** [http.NewRequestWithContext(ctx, method, url, body)] *)
Variable Context_ : Type.
Variable NewRequestWithContext :
  Context_ -> string -> string -> bytes -> error + Request.
(** The round trip behind [client.Do]. *)
Variable transport : Request -> error + Response.

Notation Callbacks := (option (StreamCallbacks St)).

(** The body of the [for] loop of [processStream] once a line was read
    without error: openai.go, [line = bytes.TrimSpace(line)] to the end
    of the loop body. *)
Definition onLine (cb : Callbacks) (finalMessage : string) (line : bytes)
    : Exec St Flow :=
  let line := TrimSpace trimUnicode line in
  if (len line =? 0)%nat then ret (Next finalMessage)
  else if HasPrefix line (b "data: ") then
    let data := skipn (len (b "data: ")) line in
    if Equal data (b "[DONE]") then
      invoke OnFinish CallFinish cb finalMessage ;; ret Exit
    else
      match Unmarshal data with
      | inl err =>
          invoke OnError CallError cb (Errorf_w "failed to parse JSON: " err) ;;
          ret (Next finalMessage)
      | inr ev =>
          match Choices ev with
          | first :: _ =>
              let content := Content (ChoiceDelta first) in
              if negb (content =? "") then
                let finalMessage := (finalMessage ++ content)%string in
                (if supplied OnContent cb
                 then invoke OnContent CallContent cb content
                 else ret tt) ;;
                ret (Next finalMessage)
              else ret (Next finalMessage)
          | [] => ret (Next finalMessage)
          end
      end
  else ret (Next finalMessage).

(** One pass through the body of the [for] loop of [processStream]. *)
Definition iteration (cb : Callbacks) (finalMessage : string) : Exec St Flow :=
  '(line, err) <- ReadBytes "010"%byte ;;
  match err with
  | Some err =>
      if isEOF err then
        invoke OnFinish CallFinish cb finalMessage ;; ret Exit
      else
        invoke OnError CallError cb (Errorf_w "read failed: " err) ;; ret Exit
  | None => onLine cb finalMessage line
  end.

Definition processLoop (fuel : nat) (cb : Callbacks) (finalMessage : string)
    : Exec St unit :=
  forLoop fuel (iteration cb) finalMessage.

Definition processStream (resp : Response) (cb : Callbacks) : Exec St unit :=
  if negb (StatusCode resp =? StatusOK)%Z then
    '(body, err) <- ReadAll ;;
    match err with
    | Some err =>
        invoke OnError CallError cb
          (wrapError ("non-200: " ++ itoa (StatusCode resp)
                      ++ ", read body failed: " ++ Error err)%string err)
    | None =>
        invoke OnError CallError cb
          (errorString ("non-200: " ++ itoa (StatusCode resp)
                        ++ ", body: " ++ string_of_bytes body)%string)
    end
  else
    fun w => processLoop (passes w) cb "" w.

Definition prepareRequest (ctx : Context_) (payload : RequestBody)
    (apiKey : string) : option Client * option Request * option error :=
  match Marshal payload with
  | inl err => (None, None, Some err)
  | inr data =>
      match NewRequestWithContext ctx "POST" url data with
      | inl err => (None, None, Some err)
      | inr req =>
          let req := Header_Set req "Authorization" ("Bearer " ++ apiKey)%string in
          let req := Header_Set req "Content-Type" "application/json" in
          let client := {| Timeout := 0 |} in
          (Some client, Some req, None)
      end
  end.

Definition streamOpenAI (ctx : Context_) (payload : RequestBody)
    (apiKey : string) (cb : Callbacks) : Exec St (option error) :=
  let '(client, req, err) := prepareRequest ctx payload apiKey in
  match err with
  | Some err => ret (Some err)
  | None =>
      match client, req with
      | Some client, Some req =>
          r <- Do transport client req ;;
          match r with
          | inl err => ret (Some err)
          | inr resp => deferClose (processStream resp cb) ;; ret None
          end
      | _, _ => ret (Some (errorString "invalid client or request"))
      end
  end.

Definition StreamChat (s : OpenAIStreamer) (ctx : Context_)
    (messages : list Message) (cb : Callbacks) : Exec St unit :=
  if ApiKey s =? "" then
    if supplied OnError cb
    then invoke OnError CallError cb (errorString "invalid apiKey")
    else ret tt
  else
    let model := if StreamerModel s =? "" then ModelGPT4o else StreamerModel s in
    let payload := {| RequestModel := model; Messages := messages;
                      MaxTokens := 1024; Stream := true |} in
    err <- streamOpenAI ctx payload (ApiKey s) cb ;;
    match err with
    | Some err =>
        if supplied OnError cb then invoke OnError CallError cb err else ret tt
    | None => ret tt
    end.

(** A line of a Shape-A stream, as read. *)
Definition classify (raw : bytes) : Line :=
  match payload trimUnicode raw with
  | None => Ignored
  | Some data =>
      if Equal data (b "[DONE]") then Terminator
      else
        match Unmarshal data with
        | inl err => Malformed err
        | inr ev =>
            match Choices ev with
            | first :: _ =>
                if Content (ChoiceDelta first) =? "" then Silent
                else Fragment (Content (ChoiceDelta first))
            | [] => Silent
            end
        end
  end.

(** The event with every choice after the first removed. *)
Definition firstChoiceOnly (ev : StreamEvent) : StreamEvent :=
  {| ID := ID ev; Object := Object ev; Created := Created ev;
     EventModel := EventModel ev; ServiceTier := ServiceTier ev;
     SystemFingerprint := SystemFingerprint ev;
     Choices := firstn 1 (Choices ev);
     Obfuscation := Obfuscation ev |}.

Definition UnmarshalFirstChoiceOnly (data : bytes) : error + StreamEvent :=
  match Unmarshal data with
  | inl err => inl err
  | inr ev => inr (firstChoiceOnly ev)
  end.

End Decoder.

End OpenAI.

(** * The Anthropic client (anthropic/anthropic.go, anthropic/models.go) *)

Module Anthropic.

Local Open Scope exec_scope.

Definition Model := string.
Definition ModelClaude35Sonnet : Model := "claude-3-5-sonnet-20241022".
Definition ModelClaude35Haiku : Model := "claude-3-5-haiku-20241022".
Definition ModelClaude3Opus : Model := "claude-3-opus-20240229".
Definition ModelClaude3Sonnet : Model := "claude-3-sonnet-20240229".
Definition ModelClaude3Haiku : Model := "claude-3-haiku-20240307".
Definition ModelClaude21 : Model := "claude-2.1".
Definition ModelClaude20 : Model := "claude-2.0".
Definition ModelClaudeInstant12 : Model := "claude-instant-1.2".
Definition ModelClaudeInstant11 : Model := "claude-instant-1.1".

Record RequestBody : Type := {
  RequestModel : Model;
  Messages : list Message;
  MaxTokens : Z;
  Stream : bool
}.

Definition Type_ := string.
Definition Start : Type_ := "message_start".
Definition ContentStart : Type_ := "content_block_start".
Definition Delta : Type_ := "content_block_delta".
Definition Stop : Type_ := "content_block_stop".
Definition Finish : Type_ := "message_stop".

Record DeltaData : Type := {
  DeltaType : string;
  Text : string
}.

Record StreamEvent : Type := {
  EventType : Type_;
  Index : Z;
  EventDelta : option DeltaData
}.

Record AnthropicStreamer : Type := { ApiKey : string; StreamerModel : Model }.

Definition New (apiKey : string) (model : Model) : AnthropicStreamer :=
  {| ApiKey := apiKey; StreamerModel := model |}.

Definition url : string := "https://api.anthropic.com/v1/messages".

Section Decoder.

Context {St : Type}.

(** [json.Unmarshal(data, &ev)] on a zero [StreamEvent]. *)
Variable Unmarshal : bytes -> error + StreamEvent.
(** [bytes.TrimFunc(_, unicode.IsSpace)] *)
Variable trimUnicode : bytes -> bytes.
(** [json.Marshal(payload)] *)
Variable Marshal : RequestBody -> error + bytes.
(** [http.NewRequestWithContext(ctx, method, url, body)] *)
Variable Context_ : Type.
Variable NewRequestWithContext :
  Context_ -> string -> string -> bytes -> error + Request.
(** The round trip behind [client.Do]. *)
Variable transport : Request -> error + Response.

Notation Callbacks := (option (StreamCallbacks St)).

(** The body of the [for] loop of [processStream] once a line was read
    without error: anthropic.go, [line = bytes.TrimSpace(line)] to the
    end of the loop body. *)
Definition onLine (cb : Callbacks) (finalMessage : string) (line : bytes)
    : Exec St Flow :=
  let line := TrimSpace trimUnicode line in
  if (len line =? 0)%nat then ret (Next finalMessage)
  else if HasPrefix line (b "data: ") then
    let data := skipn (len (b "data: ")) line in
    match Unmarshal data with
    | inl err =>
        invoke OnError CallError cb (Errorf_w "failed to parse JSON: " err) ;;
        ret (Next finalMessage)
    | inr ev =>
        if EventType ev =? Delta then
          match EventDelta ev with
          | Some delta =>
              if negb (Text delta =? "") then
                if supplied OnContent cb then
                  let finalMessage := (finalMessage ++ Text delta)%string in
                  invoke OnContent CallContent cb (Text delta) ;;
                  ret (Next finalMessage)
                else ret (Next finalMessage)
              else ret (Next finalMessage)
          | None => ret (Next finalMessage)
          end
        else if EventType ev =? Finish then
          if supplied OnFinish cb then
            invoke OnFinish CallFinish cb finalMessage ;; ret Exit
          else ret (Next finalMessage)
        else ret (Next finalMessage)
    end
  else ret (Next finalMessage).

(** One pass through the body of the [for] loop of [processStream]. *)
Definition iteration (cb : Callbacks) (finalMessage : string) : Exec St Flow :=
  '(line, err) <- ReadBytes "010"%byte ;;
  match err with
  | Some err =>
      if isEOF err then
        invoke OnFinish CallFinish cb finalMessage ;; ret Exit
      else
        invoke OnError CallError cb (Errorf_w "read failed: " err) ;; ret Exit
  | None => onLine cb finalMessage line
  end.

Definition processLoop (fuel : nat) (cb : Callbacks) (finalMessage : string)
    : Exec St unit :=
  forLoop fuel (iteration cb) finalMessage.

Definition processStream (resp : Response) (cb : Callbacks) : Exec St unit :=
  if negb (StatusCode resp =? StatusOK)%Z then
    '(body, err) <- ReadAll ;;
    match err with
    | Some err =>
        invoke OnError CallError cb
          (wrapError ("non-200: " ++ itoa (StatusCode resp)
                      ++ ", read body failed: " ++ Error err)%string err)
    | None =>
        invoke OnError CallError cb
          (errorString ("non-200: " ++ itoa (StatusCode resp)
                        ++ ", body: " ++ string_of_bytes body)%string)
    end
  else
    fun w => processLoop (passes w) cb "" w.

Definition prepareRequest (ctx : Context_) (payload : RequestBody)
    (apiKey : string) : option Client * option Request * option error :=
  match Marshal payload with
  | inl err => (None, None, Some err)
  | inr data =>
      match NewRequestWithContext ctx "POST" url data with
      | inl err => (None, None, Some err)
      | inr req =>
          let req := Header_Set req "x-api-key" apiKey in
          let req := Header_Set req "Content-Type" "application/json" in
          let req := Header_Set req "anthropic-version" "2023-06-01" in
          let client := {| Timeout := 0 |} in
          (Some client, Some req, None)
      end
  end.

Definition streamAnthropic (ctx : Context_) (payload : RequestBody)
    (apiKey : string) (cb : Callbacks) : Exec St (option error) :=
  let '(client, req, err) := prepareRequest ctx payload apiKey in
  match err with
  | Some err => ret (Some err)
  | None =>
      match client, req with
      | Some client, Some req =>
          r <- Do transport client req ;;
          match r with
          | inl err => ret (Some err)
          | inr resp => deferClose (processStream resp cb) ;; ret None
          end
      | _, _ => ret (Some (errorString "invalid client or request"))
      end
  end.

Definition StreamChat (s : AnthropicStreamer) (ctx : Context_)
    (messages : list Message) (cb : Callbacks) : Exec St unit :=
  if ApiKey s =? "" then
    if supplied OnError cb
    then invoke OnError CallError cb (errorString "invalid apiKey")
    else ret tt
  else
    let model := if StreamerModel s =? "" then ModelClaude3Opus else StreamerModel s in
    let payload := {| RequestModel := model; Messages := messages;
                      MaxTokens := 1024; Stream := true |} in
    err <- streamAnthropic ctx payload (ApiKey s) cb ;;
    match err with
    | Some err =>
        if supplied OnError cb then invoke OnError CallError cb err else ret tt
    | None => ret tt
    end.

(** A line of a Shape-B stream, as read. *)
Definition classify (raw : bytes) : Line :=
  match payload trimUnicode raw with
  | None => Ignored
  | Some data =>
      match Unmarshal data with
      | inl err => Malformed err
      | inr ev =>
          if EventType ev =? Delta then
            match EventDelta ev with
            | Some delta =>
                if Text delta =? "" then Silent else Fragment (Text delta)
            | None => Silent
            end
          else if EventType ev =? Finish then Terminator
          else Silent
      end
  end.

End Decoder.

End Anthropic.

(** * Concrete streams and callers

    Payloads as the providers send them, a caller that records what it is
    told (as the repository's tests do), and for each payload the value
    [encoding/json] decodes it to. *)

Module Samples.

(** JSON text written with ['] where the wire has the double quote. *)
Definition js (s : string) : bytes :=
  map (fun c => if Byte.eqb c "'"%byte then "034"%byte else c) (b s).

(** The line [data: <payload>\n]. *)
Definition dataLine (payload : bytes) : bytes := b "data: " ++ payload ++ [nl].

Fixpoint lookup {A} (table : list (bytes * A)) (data : bytes) : option A :=
  match table with
  | [] => None
  | (key, v) :: table' => if Equal data key then Some v else lookup table' data
  end.

(** [json.Unmarshal] on text that starts with [n] but is not [null]. *)
Definition notJSON : error :=
  errorString "invalid character 'o' in literal null (expecting 'u')".

Definition decode {A} (table : list (bytes * A)) (data : bytes) : error + A :=
  match lookup table data with
  | Some v => inr v
  | None => inl notJSON
  end.

(** What the caller's closures build up. *)
Record Transcript : Type := {
  contents : list string;
  finals : list string;
  errors : list string
}.

Definition blank : Transcript := {| contents := []; finals := []; errors := [] |}.

Definition onContent (s : string) (t : Transcript) : Transcript :=
  {| contents := contents t ++ [s]; finals := finals t; errors := errors t |}.
Definition onFinish (s : string) (t : Transcript) : Transcript :=
  {| contents := contents t; finals := finals t ++ [s]; errors := errors t |}.
Definition onError (e : error) (t : Transcript) : Transcript :=
  {| contents := contents t; finals := finals t; errors := errors t ++ [Error e] |}.

Definition listener : StreamCallbacks Transcript :=
  {| OnContent := Some onContent; OnFinish := Some onFinish;
     OnError := Some onError |}.
Definition allCallbacks : option (StreamCallbacks Transcript) := Some listener.
Definition noOnContent : option (StreamCallbacks Transcript) :=
  Some {| OnContent := None; OnFinish := Some onFinish; OnError := Some onError |}.
Definition noOnFinish : option (StreamCallbacks Transcript) :=
  Some {| OnContent := Some onContent; OnFinish := None; OnError := Some onError |}.
Definition noOnError : option (StreamCallbacks Transcript) :=
  Some {| OnContent := Some onContent; OnFinish := Some onFinish; OnError := None |}.

(** The world in which a response with the given body is about to be read. *)
Definition arriving (data : bytes) (e : error) : World Transcript :=
  {| caller := blank; calls := []; wire := {| pending := data; final := e |};
     sent := []; closed := false |}.

Definition ok : Response := {| StatusCode := 200 |}.

(** No slow path is taken on ASCII input; any function serves. *)
Definition asciiOnly (s : bytes) : bytes := s.

(** The request side, which nothing below looks into: some encoding of the
    payload, a request built as asked, and a server that answers every
    request with the given status. *)
Definition Marshal {A} (payload : A) : error + bytes := inr (b "{}").

Definition NewRequestWithContext (ctx : unit) (method url : string)
    (body : bytes) : error + Request :=
  inr {| Method := method; URL := url; Header := []; Payload := body |}.

Definition answering (status : Z) (req : Request) : error + Response :=
  inr {| StatusCode := status |}.

Module A.

Definition choice (content : string) : OpenAI.Choice :=
  {| OpenAI.Index := 0;
     OpenAI.ChoiceDelta := {| OpenAI.Role := ""; OpenAI.Content := content |};
     OpenAI.Logprobs := OpenAI.anyNil;
     OpenAI.FinishReason := None |}.

Definition event (choices : list string) : OpenAI.StreamEvent :=
  {| OpenAI.ID := ""; OpenAI.Object := ""; OpenAI.Created := 0;
     OpenAI.EventModel := ""; OpenAI.ServiceTier := "";
     OpenAI.SystemFingerprint := "";
     OpenAI.Choices := map choice choices;
     OpenAI.Obfuscation := "" |}.

Definition hi : bytes := js "{'choices':[{'delta':{'content':'Hi'}}]}".
Definition there : bytes := js "{'choices':[{'delta':{'content':' there'}}]}".
Definition twoChoices : bytes :=
  js "{'choices':[{'delta':{'content':'A'}},{'delta':{'content':'B'}}]}".
Definition garbage : bytes := b "not-a-json".
Definition done : bytes := b "[DONE]".

Definition Unmarshal : bytes -> error + OpenAI.StreamEvent :=
  decode [ (hi, event ["Hi"]); (there, event [" there"]);
           (twoChoices, event ["A"; "B"]) ].

Definition processStream (resp : Response)
    (cb : option (StreamCallbacks Transcript)) : Exec Transcript unit :=
  OpenAI.processStream Unmarshal asciiOnly resp cb.

(** A client with a key, talking to a server that answers [status]. *)
Definition StreamChat (status : Z)
    (cb : option (StreamCallbacks Transcript)) : Exec Transcript unit :=
  OpenAI.StreamChat Unmarshal asciiOnly Marshal NewRequestWithContext
    (answering status) (OpenAI.New "sk-test" "") tt [] cb.

End A.

Module B.

Definition deltaEvent (text : string) : Anthropic.StreamEvent :=
  {| Anthropic.EventType := "content_block_delta"; Anthropic.Index := 0;
     Anthropic.EventDelta :=
       Some {| Anthropic.DeltaType := ""; Anthropic.Text := text |} |}.

Definition stopEvent : Anthropic.StreamEvent :=
  {| Anthropic.EventType := "message_stop"; Anthropic.Index := 0;
     Anthropic.EventDelta := None |}.

Definition hi : bytes := js "{'type':'content_block_delta','delta':{'text':'Hi'}}".
Definition there : bytes :=
  js "{'type':'content_block_delta','delta':{'text':' there'}}".
Definition late : bytes :=
  js "{'type':'content_block_delta','delta':{'text':'late'}}".
Definition stop : bytes := js "{'type':'message_stop'}".
Definition garbage : bytes := b "not-a-json".

Definition Unmarshal : bytes -> error + Anthropic.StreamEvent :=
  decode [ (hi, deltaEvent "Hi"); (there, deltaEvent " there");
           (late, deltaEvent "late"); (stop, stopEvent) ].

Definition processStream (resp : Response)
    (cb : option (StreamCallbacks Transcript)) : Exec Transcript unit :=
  Anthropic.processStream Unmarshal asciiOnly resp cb.

(** A client with a key, talking to a server that answers [status]. *)
Definition StreamChat (status : Z)
    (cb : option (StreamCallbacks Transcript)) : Exec Transcript unit :=
  Anthropic.StreamChat Unmarshal asciiOnly Marshal NewRequestWithContext
    (answering status) (Anthropic.New "sk-test" "") tt [] cb.

End B.

End Samples.

(** * Vocabulary for whole runs *)

(** [req.Header.Get(key)]: the value set for the key, the empty string when
    there is none.  The library folds the case of a key the same way when it
    sets and when it gets; here a key is looked up as it was set. *)
Definition Header_Get (req : Request) (key : string) : string :=
  match find (fun kv => fst kv =? key)%string (Header req) with
  | Some kv => snd kv
  | None => ""%string
  end.

(** Every byte below [utf8.RuneSelf]. *)
Definition isASCII (s : bytes) : bool :=
  forallb (fun c => (Byte.to_N c <? RuneSelf)%N) s.

(** The number of newline bytes. *)
Definition newlines (s : bytes) : nat :=
  List.length (filter (fun c => Byte.eqb c nl) s).

(** The call that ends a stream: [onFinish], or the report of a read that
    failed. *)
Definition isTerminal (c : Call) : bool :=
  match c with
  | CallFinish _ => true
  | CallError (wrapError msg cause) =>
      (msg =? "read failed: " ++ Error cause)%string
  | _ => false
  end.

(** No [onContent] with the empty string. *)
Definition substantial (c : Call) : bool :=
  match c with
  | CallContent s => negb (s =? "")%string
  | _ => true
  end.

Definition isTerminator (l : Line) : bool :=
  match l with Terminator => true | _ => false end.

Section Replay.

Context {St : Type}.

(** What one logged call does to the caller's state: the closure in the
    slot, applied to the logged argument. *)
Definition replayCall (c : StreamCallbacks St) (call : Call) (s : St) : St :=
  match call with
  | CallContent x => match OnContent c with Some f => f x s | None => s end
  | CallFinish x => match OnFinish c with Some f => f x s | None => s end
  | CallError e => match OnError c with Some f => f e s | None => s end
  end.

Definition replay (cb : option (StreamCallbacks St)) (log : list Call) (s : St)
    : St :=
  match cb with
  | None => s
  | Some c => fold_left (fun s call => replayCall c call s) log s
  end.

(** What one pass of a decoder's loop may do.  [always] tells whether the
    accumulator follows the fragments whatever the callbacks (Anthropic's
    does, by accumulating only what it delivers), or only when [onContent]
    is there to make the log show them (OpenAI's). *)
Definition passSpec (always : bool) (cb : option (StreamCallbacks St))
    (fm : string) (w : World St) (run : Result Flow * World St) : Prop :=
  let w' := snd run in
  final (wire w') = final (wire w) /\ sent w' = sent w /\ closed w' = closed w
  /\ exists (line : bytes) (emitted : list Call),
       pending (wire w) = line ++ pending (wire w')
       /\ calls w' = calls w ++ emitted
       /\ caller w' = replay cb emitted (caller w)
       /\ List.length emitted <= 1
       /\ match fst run with
          | Returned (Next fm') =>
              newlines line = 1
              /\ forallb duringStream emitted = true
              /\ forallb substantial emitted = true
              /\ (always || supplied OnContent cb = true ->
                  fm' = (fm ++ join (contentsOf emitted))%string)
          | Returned Exit =>
              exists t, emitted = [t] /\ isTerminal t = true
                        /\ forall s, t = CallFinish s -> s = fm
          | Panicked _ => emitted = []
          | OutOfFuel => False
          end.

(** What a whole run of the loop comes to, from the accumulator [fm0] and
    the world [w0]. *)
Definition runSpec (always : bool) (cb : option (StreamCallbacks St))
    (fm0 : string) (w0 : World St) (run : Result unit * World St) : Prop :=
  let w' := snd run in
  final (wire w') = final (wire w0) /\ sent w' = sent w0 /\ closed w' = closed w0
  /\ exists (consumed : bytes) (before last : list Call),
       pending (wire w0) = consumed ++ pending (wire w')
       /\ calls w' = calls w0 ++ before ++ last
       /\ caller w' = replay cb (before ++ last) (caller w0)
       /\ List.length before <= newlines consumed
       /\ forallb duringStream before = true
       /\ forallb substantial before = true
       /\ match fst run with
          | Returned _ =>
              exists t, last = [t] /\ isTerminal t = true
                        /\ (always || supplied OnContent cb = true ->
                            forall s, t = CallFinish s ->
                                      s = (fm0 ++ join (contentsOf before))%string)
          | Panicked _ => last = []
          | OutOfFuel => False
          end.

(** What [processStream] does to the world, on any status. *)
Definition streamLog (cb : option (StreamCallbacks St)) (w : World St)
    (run : Result unit * World St) : Prop :=
  let w' := snd run in
  final (wire w') = final (wire w) /\ sent w' = sent w /\ closed w' = closed w
  /\ exists (consumed : bytes) (log : list Call),
       pending (wire w) = consumed ++ pending (wire w')
       /\ calls w' = calls w ++ log
       /\ caller w' = replay cb log (caller w)
       /\ List.length log <= newlines consumed + 1
       /\ forallb substantial log = true.

End Replay.

(** The payloads [StreamChat] builds: the model of the streamer, or the
    default one when it is empty; 1024 tokens at most; streaming on. *)
Definition payloadA (s : OpenAI.OpenAIStreamer) (messages : list Message)
    : OpenAI.RequestBody :=
  {| OpenAI.RequestModel :=
       if (OpenAI.StreamerModel s =? "")%string then OpenAI.ModelGPT4o
       else OpenAI.StreamerModel s;
     OpenAI.Messages := messages;
     OpenAI.MaxTokens := 1024;
     OpenAI.Stream := true |}.

Definition payloadB (s : Anthropic.AnthropicStreamer) (messages : list Message)
    : Anthropic.RequestBody :=
  {| Anthropic.RequestModel :=
       if (Anthropic.StreamerModel s =? "")%string then Anthropic.ModelClaude3Opus
       else Anthropic.StreamerModel s;
     Anthropic.Messages := messages;
     Anthropic.MaxTokens := 1024;
     Anthropic.Stream := true |}.

(** The world once [req] has been handed to the transport. *)
Definition dispatched {St : Type} (req : Request) (w : World St) : World St :=
  {| caller := caller w; calls := calls w; wire := wire w;
     sent := sent w ++ [req]; closed := closed w |}.

(** * Facts about the library models *)

Section BytesFacts.

Lemma Equal_eq (x y : bytes) : Equal x y = true <-> x = y.
Proof.
  revert y; induction x as [|c x IH]; intros [|d y]; simpl; split;
    try congruence; try reflexivity.
  - intros H. apply andb_true_iff in H as [H1 H2].
    apply byte_dec_bl in H1. apply IH in H2. congruence.
  - intros H. injection H as -> ->. apply andb_true_iff. split.
    + now apply byte_dec_lb.
    + now apply IH.
Qed.

Lemma noNewline_In (line : bytes) : noNewline line = true <-> ~ In nl line.
Proof.
  unfold noNewline. rewrite negb_true_iff. split.
  - intros H Hin.
    assert (existsb (fun c => Byte.eqb c nl) line = true) as E.
    { apply existsb_exists. exists nl. split; [assumption | now apply byte_dec_lb]. }
    congruence.
  - intros H. destruct (existsb _ line) eqn:E; [|reflexivity].
    apply existsb_exists in E as (c & Hin & Hc).
    apply byte_dec_bl in Hc. subst c. contradiction.
Qed.

Lemma cut_split (d : byte) (s line rest : bytes) :
  cut d s = Some (line, rest) -> s = line ++ rest /\ len rest < len s.
Proof.
  revert line rest; induction s as [|c s IH]; intros line rest; simpl.
  - discriminate.
  - destruct (Byte.eqb c d).
    + intros H. injection H as <- <-. simpl. unfold len. split; [reflexivity | lia].
    + destruct (cut d s) as [[l r]|]; [|discriminate].
      intros H. injection H as <- <-.
      destruct (IH l r eq_refl) as [-> Hlen]. simpl. unfold len in *. simpl.
      split; [reflexivity | lia].
Qed.

Lemma cut_None (d : byte) (s : bytes) : cut d s = None <-> ~ In d s.
Proof.
  induction s as [|c s IH]; simpl.
  - split; [intros _ [] | reflexivity].
  - destruct (Byte.eqb c d) eqn:E.
    + apply byte_dec_bl in E. subst c. split; [discriminate | intros H; exfalso; auto].
    + apply eqb_false in E.
      destruct (cut d s) as [[l r]|].
      * split; [discriminate|]. intros H. exfalso.
        assert (~ In d s) as H' by (intros Hin; apply H; now right).
        apply IH in H'. discriminate.
      * split; [|reflexivity]. intros _ [H|H]; [congruence|].
        now apply (proj1 IH eq_refl).
Qed.

Lemma noNewline_cut (tail : bytes) : noNewline tail = true -> cut nl tail = None.
Proof. intros H. apply cut_None. now apply noNewline_In. Qed.

Lemma cut_line (d : byte) (line rest : bytes) :
  ~ In d line -> cut d (line ++ d :: rest) = Some (line ++ [d], rest).
Proof.
  induction line as [|c line IH]; simpl; intros H.
  - now rewrite (byte_dec_lb (eq_refl d)).
  - destruct (Byte.eqb c d) eqn:E.
    + apply byte_dec_bl in E. exfalso. apply H. now left.
    + rewrite IH; [reflexivity|]. intros Hin. apply H. now right.
Qed.

Lemma cut_tail (d : byte) (s tail line rest : bytes) :
  cut d s = Some (line, rest) -> cut d (s ++ tail) = Some (line, rest ++ tail).
Proof.
  revert line rest; induction s as [|c s IH]; intros line rest; simpl.
  - discriminate.
  - destruct (Byte.eqb c d).
    + intros H. now injection H as <- <-.
    + destruct (cut d s) as [[l r]|]; [|discriminate].
      intros H. injection H as <- <-. now rewrite (IH l r eq_refl).
Qed.

Lemma cut_frame (line : bytes) (lines : list bytes) (tail : bytes) :
  noNewline line = true ->
  cut nl (frame (line :: lines) ++ tail)
  = Some (terminate line, frame lines ++ tail).
Proof.
  intros H. apply noNewline_In in H.
  unfold frame; simpl. unfold terminate at 1.
  rewrite <- !app_assoc. simpl. now apply cut_line.
Qed.

Lemma events_nil (classify : bytes -> Line) (lines : list bytes) :
  events classify lines = [] ->
  forallb (fun line => quiet (classify (terminate line))) lines = true.
Proof.
  induction lines as [|line lines IH]; simpl; [reflexivity|].
  destruct (quiet (classify (terminate line))); simpl;
    [assumption | discriminate].
Qed.

Lemma events_cons (classify : bytes -> Line) (lines : list bytes)
    (ev : Line) (evs : list Line) :
  events classify lines = ev :: evs ->
  exists before line after,
    lines = before ++ line :: after
    /\ forallb (fun l => quiet (classify (terminate l))) before = true
    /\ classify (terminate line) = ev
    /\ events classify after = evs.
Proof.
  induction lines as [|line lines IH]; simpl; [discriminate|].
  destruct (quiet (classify (terminate line))) eqn:Q; simpl.
  - intros H. destruct (IH H) as (before & l & after & -> & Hq & Hl & He).
    exists (line :: before), l, after. simpl. rewrite Q. auto.
  - intros H. injection H as H1 H2.
    exists [], line, lines. simpl. auto.
Qed.

Lemma frame_app (xs ys : list bytes) : frame (xs ++ ys) = frame xs ++ frame ys.
Proof. unfold frame. now rewrite map_app, concat_app. Qed.

Lemma advance_same {St} (w : World St) : advance (pending (wire w)) w = w.
Proof. destruct w as [? ? [? ?] ? ?]. reflexivity. Qed.

End BytesFacts.

(** * The loop *)

Section LoopFacts.

Context {St : Type}.
Variable body : string -> Exec St Flow.

Hypothesis progress : forall fm w fm' w',
  body fm w = (Returned (Next fm'), w') ->
  len (pending (wire w')) < len (pending (wire w)).
Hypothesis body_ends : forall fm w w', body fm w <> (OutOfFuel, w').

(** One pass of the loop, with the fuel out of the way. *)
Lemma forLoop_pass (fuel : nat) (fm : string) (w : World St) :
  len (pending (wire w)) < fuel ->
  forLoop fuel body fm w =
  match body fm w with
  | (Returned (Next fm'), w') => forLoop (passes w') body fm' w'
  | (Returned Exit, w') => (Returned tt, w')
  | (Panicked reason, w') => (Panicked reason, w')
  | (OutOfFuel, w') => (OutOfFuel, w')
  end.
Proof.
  revert fm w.
  induction fuel as [fuel IH] using lt_wf_ind. intros fm w Hlt.
  destruct fuel as [|fuel]; [lia|].
  cbn [forLoop]. unfold bind.
  destruct (body fm w) as [[[fm'|]| |] w'] eqn:E; try reflexivity.
  apply progress in E.
  rewrite (IH fuel) by lia.
  symmetry. apply IH; unfold passes; lia.
Qed.

(** Enough fuel: the loop ends by returning or panicking. *)
Lemma forLoop_ends (fuel : nat) (fm : string) (w : World St) :
  len (pending (wire w)) < fuel ->
  fst (forLoop fuel body fm w) <> OutOfFuel.
Proof.
  revert fm w. induction fuel as [|fuel IH]; intros fm w Hlt; [lia|].
  simpl. unfold bind.
  destruct (body fm w) as [[[fm'|]| |] w'] eqn:E; simpl; try discriminate.
  - apply IH. apply progress in E. lia.
  - exfalso. exact (body_ends E).
Qed.

(** An invariant of the passes that go round again yields what holds when
    the loop is left. *)
Lemma forLoop_rule (Inv : string -> World St -> Prop)
    (Post : Result unit -> World St -> Prop) :
  (forall fm w, Inv fm w ->
     match body fm w with
     | (Returned (Next fm'), w') => Inv fm' w'
     | (Returned Exit, w') => Post (Returned tt) w'
     | (Panicked reason, w') => Post (Panicked reason) w'
     | (OutOfFuel, _) => True
     end) ->
  forall fuel fm w, Inv fm w -> len (pending (wire w)) < fuel ->
    Post (fst (forLoop fuel body fm w)) (snd (forLoop fuel body fm w)).
Proof.
  intros Hstep fuel. induction fuel as [|fuel IH]; intros fm w HI Hlt; [lia|].
  simpl. unfold bind. specialize (Hstep fm w HI).
  destruct (body fm w) as [[[fm'|]| |] w'] eqn:E; simpl; try assumption.
  - apply IH; [assumption|]. apply progress in E. lia.
  - exfalso. exact (body_ends E).
Qed.

End LoopFacts.

(** * Facts shared by the two decoders *)

Section RuntimeFacts.

Context {St : Type}.

Lemma invoke_supplied {A} (slot : StreamCallbacks St -> option (A -> St -> St))
    (log : A -> Call) (c : StreamCallbacks St) (f : A -> St -> St) (a : A)
    (w : World St) :
  slot c = Some f ->
  invoke slot log (Some c) a w = (Returned tt, record (log a) (f a) w).
Proof. intros H. unfold invoke. now rewrite H. Qed.

Lemma supplied_Some {A} (slot : StreamCallbacks St -> option A)
    (c : StreamCallbacks St) (f : A) :
  slot c = Some f -> supplied slot (Some c) = true.
Proof. intros H. unfold supplied. now rewrite H. Qed.

(** A trimmed line of length zero has no [data: ] prefix. *)
Lemma HasPrefix_empty (line : bytes) :
  (len line =? 0)%nat = true -> HasPrefix line (b "data: ") = false.
Proof. destruct line; [reflexivity | discriminate]. Qed.

Lemma forLoop_ext (body1 body2 : string -> Exec St Flow) :
  (forall fm w, body1 fm w = body2 fm w) ->
  forall fuel fm w, forLoop fuel body1 fm w = forLoop fuel body2 fm w.
Proof.
  intros H fuel. induction fuel as [|fuel IH]; intros fm w; [reflexivity|].
  simpl. unfold bind. rewrite H.
  destruct (body2 fm w) as [[[fm'|]| |] w']; try reflexivity. apply IH.
Qed.

End RuntimeFacts.

Lemma append_assoc (x y z : string) : ((x ++ y) ++ z = x ++ (y ++ z))%string.
Proof. induction x as [|c x IH]; simpl; [reflexivity | now rewrite IH]. Qed.

Lemma append_empty_r (x : string) : (x ++ "")%string = x.
Proof. induction x as [|c x IH]; simpl; [reflexivity | now rewrite IH]. Qed.

Lemma join_cons (x : string) (xs : list string) :
  join (x :: xs) = (x ++ join xs)%string.
Proof. reflexivity. Qed.

Lemma join_app (xs ys : list string) :
  join (xs ++ ys) = (join xs ++ join ys)%string.
Proof.
  induction xs as [|x xs IH]; [reflexivity|].
  change ((x :: xs) ++ ys) with (x :: (xs ++ ys)).
  now rewrite !join_cons, IH, append_assoc.
Qed.

Lemma contentsOf_contents (fragments : list string) :
  contentsOf (map CallContent fragments) = fragments.
Proof.
  induction fragments as [|x xs IH]; simpl; [reflexivity | now rewrite IH].
Qed.

(** Fragments followed by the finish that carries them all. *)
Lemma finishIsConcatenation_fragments (fragments : list string) :
  finishIsConcatenation (map CallContent fragments ++ [CallFinish (join fragments)]).
Proof.
  intros before s H. apply app_inj_tail in H as [<- H].
  injection H as <-. now rewrite contentsOf_contents.
Qed.

Lemma contentsOf_app (xs ys : list Call) :
  contentsOf (xs ++ ys) = contentsOf xs ++ contentsOf ys.
Proof. unfold contentsOf. apply flat_map_app. Qed.

(** Unfolds the callback plumbing and splits on which slots are nil. *)
Ltac plumbing :=
  unfold bind, invoke, supplied, ret, panic, record, advance, observable; simpl.
Ltac slots cb := destruct cb as [[[?|] [?|] [?|]]|].

(** * Facts about the OpenAI decoder *)

Section OpenAIFacts.

Import OpenAI.
Context {St : Type}.
Variable Unmarshal : bytes -> error + StreamEvent.
Variable trimUnicode : bytes -> bytes.

Notation Callbacks := (option (StreamCallbacks St)).
Notation onLine := (OpenAI.onLine (St := St) Unmarshal trimUnicode).
Notation iteration := (OpenAI.iteration (St := St) Unmarshal trimUnicode).
Notation processLoop := (OpenAI.processLoop (St := St) Unmarshal trimUnicode).
Notation classify := (OpenAI.classify Unmarshal trimUnicode).

(** What the loop body does with a line depends on its class alone. *)
Lemma OpenAI_onLine_classify (cb : Callbacks) (fm : string) (raw : bytes) :
  onLine cb fm raw =
  match classify raw with
  | Ignored | Silent => ret (Next fm)
  | Terminator => bind (invoke OnFinish CallFinish cb fm) (fun _ => ret Exit)
  | Malformed err =>
      bind (invoke OnError CallError cb (Errorf_w "failed to parse JSON: " err))
           (fun _ => ret (Next fm))
  | Fragment text =>
      bind (if supplied OnContent cb
            then invoke OnContent CallContent cb text else ret tt)
           (fun _ => ret (Next (fm ++ text)%string))
  end.
Proof.
  unfold OpenAI.onLine, OpenAI.classify, payload.
  destruct (len (TrimSpace trimUnicode raw) =? 0)%nat eqn:E.
  - now rewrite (HasPrefix_empty _ E).
  - destruct (HasPrefix _ _); [|reflexivity].
    destruct (Equal _ _); [reflexivity|].
    destruct (Unmarshal _) as [err|ev]; [reflexivity|].
    destruct (Choices ev) as [|first rest]; [reflexivity|].
    destruct (Content (ChoiceDelta first) =? "")%string; reflexivity.
Qed.

(** The loop body touches the caller and the log, nothing else, and it
    comes to an end. *)
Lemma OpenAI_onLine_frame (cb : Callbacks) (fm : string) (raw : bytes)
    (w : World St) :
  let run := onLine cb fm raw w in
  wire (snd run) = wire w /\ sent (snd run) = sent w
  /\ closed (snd run) = closed w /\ fst run <> OutOfFuel.
Proof.
  rewrite OpenAI_onLine_classify.
  destruct (classify raw); slots cb; plumbing; repeat split; discriminate.
Qed.

(** On worlds the caller cannot tell apart, the loop body acts alike. *)
Lemma OpenAI_onLine_view (cb : Callbacks) (fm : string) (raw : bytes)
    (w1 w2 : World St) :
  caller w1 = caller w2 -> calls w1 = calls w2 ->
  let run1 := onLine cb fm raw w1 in
  let run2 := onLine cb fm raw w2 in
  fst run1 = fst run2 /\ caller (snd run1) = caller (snd run2)
  /\ calls (snd run1) = calls (snd run2).
Proof.
  intros Hc Hl. rewrite !OpenAI_onLine_classify.
  destruct (classify raw); slots cb; plumbing; rewrite ?Hc, ?Hl; auto.
Qed.

Lemma OpenAI_iteration_line (cb : Callbacks) (fm : string) (w : World St)
    (raw rest : bytes) :
  cut nl (pending (wire w)) = Some (raw, rest) ->
  iteration cb fm w = onLine cb fm raw (advance rest w).
Proof.
  intros H. unfold OpenAI.iteration, bind, ReadBytes.
  change "010"%byte with nl. now rewrite H.
Qed.

Lemma OpenAI_iteration_end (cb : Callbacks) (fm : string) (w : World St) :
  cut nl (pending (wire w)) = None ->
  iteration cb fm w =
  (if isEOF (final (wire w))
   then bind (invoke OnFinish CallFinish cb fm) (fun _ => ret Exit)
   else bind (invoke OnError CallError cb
                (Errorf_w "read failed: " (final (wire w))))
             (fun _ => ret Exit)) (advance [] w).
Proof.
  intros H. unfold OpenAI.iteration, bind at 1, ReadBytes.
  change "010"%byte with nl. now rewrite H.
Qed.

Lemma OpenAI_iteration_progress (cb : Callbacks) (fm : string) (w : World St)
    (fm' : string) (w' : World St) :
  iteration cb fm w = (Returned (Next fm'), w') ->
  len (pending (wire w')) < len (pending (wire w)).
Proof.
  destruct (cut nl (pending (wire w))) as [[raw rest]|] eqn:E.
  - rewrite (OpenAI_iteration_line _ _ _ E). intros H.
    destruct (OpenAI_onLine_frame cb fm raw (advance rest w)) as (Hw & _).
    rewrite H in Hw. simpl in Hw. rewrite Hw. simpl.
    now apply cut_split in E.
  - rewrite (OpenAI_iteration_end _ _ _ E).
    destruct (isEOF _); slots cb; plumbing; discriminate.
Qed.

Lemma OpenAI_iteration_ends (cb : Callbacks) (fm : string) (w w' : World St) :
  iteration cb fm w <> (OutOfFuel, w').
Proof.
  destruct (cut nl (pending (wire w))) as [[raw rest]|] eqn:E.
  - rewrite (OpenAI_iteration_line _ _ _ E). intros H.
    destruct (OpenAI_onLine_frame cb fm raw (advance rest w)) as (_ & _ & _ & Hn).
    rewrite H in Hn. now apply Hn.
  - rewrite (OpenAI_iteration_end _ _ _ E).
    destruct (isEOF _); slots cb; plumbing; discriminate.
Qed.

(** One pass of [processLoop] over a stream that still holds a line. *)
Lemma OpenAI_processLoop_line (cb : Callbacks) (fm : string) (w : World St)
    (raw rest : bytes) :
  cut nl (pending (wire w)) = Some (raw, rest) ->
  processLoop (passes w) cb fm w =
  match onLine cb fm raw (advance rest w) with
  | (Returned (Next fm'), w') => processLoop (passes w') cb fm' w'
  | (Returned Exit, w') => (Returned tt, w')
  | (Panicked reason, w') => (Panicked reason, w')
  | (OutOfFuel, w') => (OutOfFuel, w')
  end.
Proof.
  intros H. unfold OpenAI.processLoop.
  rewrite (forLoop_pass _ (OpenAI_iteration_progress cb)) by (unfold passes; lia).
  now rewrite (OpenAI_iteration_line _ _ _ H).
Qed.

(** The pass that finds the source exhausted. *)
Lemma OpenAI_processLoop_end (cb : Callbacks) (fm : string) (w : World St) :
  cut nl (pending (wire w)) = None ->
  processLoop (passes w) cb fm w =
  (if isEOF (final (wire w))
   then invoke OnFinish CallFinish cb fm
   else invoke OnError CallError cb (Errorf_w "read failed: " (final (wire w))))
  (advance [] w).
Proof.
  intros H. unfold OpenAI.processLoop.
  rewrite (forLoop_pass _ (OpenAI_iteration_progress cb)) by (unfold passes; lia).
  rewrite (OpenAI_iteration_end _ _ _ H).
  destruct (isEOF _); slots cb; plumbing; reflexivity.
Qed.

(** A well-formed stream up to its [[DONE]] line, read by a caller who
    listens to content and to the end: fragments, then the finish. *)
Lemma OpenAI_wellformed_run (c : StreamCallbacks St)
    (f g : string -> St -> St) :
  OnContent c = Some f -> OnFinish c = Some g ->
  forall (lines : list bytes) (last tail : bytes),
    forallb noNewline lines = true -> noNewline last = true ->
    forallb (fun l => wellFormed (classify (terminate l))) lines = true ->
    classify (terminate last) = Terminator ->
    forall fm w, pending (wire w) = frame (lines ++ [last]) ++ tail ->
    exists fragments w',
      processLoop (passes w) (Some c) fm w = (Returned tt, w')
      /\ calls w' = calls w ++ map CallContent fragments
                    ++ [CallFinish (fm ++ join fragments)%string].
Proof.
  intros Hf Hg lines last tail. induction lines as [|line lines IH];
    intros Hnl Hlast Hwf Hterm fm w Hw.
  - simpl in Hw.
    assert (cut nl (pending (wire w)) = Some (terminate last, frame [] ++ tail)) as E.
    { rewrite Hw. now apply cut_frame. }
    rewrite (OpenAI_processLoop_line _ _ _ E), OpenAI_onLine_classify, Hterm.
    unfold bind. rewrite (invoke_supplied _ _ _ _ _ Hg). simpl.
    exists [], (record (CallFinish fm) (g fm) (advance (frame [] ++ tail) w)).
    simpl. now rewrite append_empty_r.
  - simpl in Hnl, Hwf. apply andb_true_iff in Hnl as [Hl Hnl].
    apply andb_true_iff in Hwf as [Hw1 Hwf].
    assert (cut nl (pending (wire w))
            = Some (terminate line, frame (lines ++ [last]) ++ tail)) as E.
    { rewrite Hw. now apply (cut_frame line (lines ++ [last]) tail). }
    rewrite (OpenAI_processLoop_line _ _ _ E), OpenAI_onLine_classify.
    set (w1 := advance (frame (lines ++ [last]) ++ tail) w).
    destruct (classify (terminate line)) as [| |err|text|] eqn:Ec;
      try discriminate Hw1.
    + destruct (IH Hnl Hlast Hwf Hterm fm w1 eq_refl) as (fr & w' & H1 & H2).
      exists fr, w'. unfold ret. now rewrite H1, H2.
    + unfold bind. rewrite (invoke_supplied _ _ _ _ _ Hg). simpl.
      exists [], (record (CallFinish fm) (g fm) w1).
      simpl. now rewrite append_empty_r.
    + unfold bind. rewrite (supplied_Some _ _ Hf), (invoke_supplied _ _ _ _ _ Hf).
      simpl.
      destruct (IH Hnl Hlast Hwf Hterm (fm ++ text)%string
                  (record (CallContent text) (f text) w1) eq_refl)
        as (fr & w' & H1 & H2).
      exists (text :: fr), w'. rewrite H1, H2. simpl.
      rewrite <- !app_assoc. simpl. now rewrite append_assoc.
    + destruct (IH Hnl Hlast Hwf Hterm fm w1 eq_refl) as (fr & w' & H1 & H2).
      exists fr, w'. unfold ret. now rewrite H1, H2.
Qed.

(** Quiet lines are read and passed over. *)
Lemma OpenAI_skip_quiet (cb : Callbacks) (lines : list bytes) (rest : bytes) :
  forallb noNewline lines = true ->
  forallb (fun l => quiet (classify (terminate l))) lines = true ->
  forall fm w, pending (wire w) = frame lines ++ rest ->
  processLoop (passes w) cb fm w
  = processLoop (passes (advance rest w)) cb fm (advance rest w).
Proof.
  induction lines as [|line lines IH]; intros Hnl Hq fm w Hw.
  - simpl in Hw. rewrite <- Hw. now rewrite advance_same.
  - simpl in Hnl, Hq. apply andb_true_iff in Hnl as [Hl Hnl].
    apply andb_true_iff in Hq as [Hq1 Hq].
    assert (cut nl (pending (wire w)) = Some (terminate line, frame lines ++ rest))
      as E by (rewrite Hw; now apply cut_frame).
    rewrite (OpenAI_processLoop_line _ _ _ E), OpenAI_onLine_classify.
    destruct (classify (terminate line)); try discriminate Hq1;
      unfold ret;
      now rewrite (IH Hnl Hq fm (advance (frame lines ++ rest) w) eq_refl).
Qed.

(** The run up to the next event of the stream. *)
Lemma OpenAI_next_event (cb : Callbacks) (lines : list bytes) (rest : bytes)
    (ev : Line) (evs : list Line) :
  forallb noNewline lines = true ->
  events classify lines = ev :: evs ->
  exists raw after,
    forallb noNewline after = true /\ events classify after = evs
    /\ classify raw = ev
    /\ forall fm w, pending (wire w) = frame lines ++ rest ->
        processLoop (passes w) cb fm w =
        match onLine cb fm raw (advance (frame after ++ rest) w) with
        | (Returned (Next fm'), w') => processLoop (passes w') cb fm' w'
        | (Returned Exit, w') => (Returned tt, w')
        | (Panicked reason, w') => (Panicked reason, w')
        | (OutOfFuel, w') => (OutOfFuel, w')
        end.
Proof.
  intros Hnl He.
  destruct (events_cons _ _ He) as (before & line & after & -> & Hq & Hl & Hevs).
  rewrite forallb_app in Hnl. apply andb_true_iff in Hnl as [Hb Hnl].
  simpl in Hnl. apply andb_true_iff in Hnl as [Hline Hafter].
  exists (terminate line), after. repeat split; try assumption.
  intros fm w Hw. rewrite frame_app, <- app_assoc in Hw.
  rewrite (OpenAI_skip_quiet cb before _ Hb Hq fm w Hw).
  rewrite (OpenAI_processLoop_line cb fm
             (advance (frame (line :: after) ++ rest) w)
             (raw := terminate line) (rest := frame after ++ rest));
    [reflexivity | simpl; now apply cut_frame].
Qed.

(** The pass that finds no complete line left and the source cleanly
    ended: [onFinish] with the accumulator, nothing else. *)
Lemma OpenAI_clean_end (c : StreamCallbacks St) (g : string -> St -> St)
    (fm : string) (w : World St) :
  OnFinish c = Some g ->
  cut nl (pending (wire w)) = None -> final (wire w) = EOF ->
  processLoop (passes w) (Some c) fm w
  = (Returned tt, record (CallFinish fm) (g fm) (advance [] w)).
Proof.
  intros Hg Hcut Hfin. rewrite (OpenAI_processLoop_end _ _ _ Hcut), Hfin. simpl.
  now apply invoke_supplied.
Qed.

(** Fragment, malformed payload, fragment, then the end of the stream. *)
Lemma OpenAI_malformed_between (c : StreamCallbacks St)
    (f g : string -> St -> St) (h : error -> St -> St)
    (lines : list bytes) (tail : bytes) (x y : string) (e : error)
    (closing : list Line) (fm : string) (w : World St) :
  OnContent c = Some f -> OnFinish c = Some g -> OnError c = Some h ->
  forallb noNewline lines = true -> noNewline tail = true ->
  events classify lines = [Fragment x; Malformed e; Fragment y] ++ closing ->
  closing = [] \/ closing = [Terminator] ->
  pending (wire w) = frame lines ++ tail -> final (wire w) = EOF ->
  let err := Errorf_w "failed to parse JSON: " e in
  exists w',
    processLoop (passes w) (Some c) fm w = (Returned tt, w')
    /\ calls w' = calls w ++ [CallContent x; CallError err; CallContent y;
                              CallFinish (fm ++ x ++ y)%string]
    /\ caller w' = g (fm ++ x ++ y)%string (f y (h err (f x (caller w)))).
Proof.
  intros Hf Hg Hh Hnl Htail He Hclosing Hw Hfin err.
  destruct (OpenAI_next_event (Some c) lines tail Hnl He)
    as (raw1 & after1 & Hnl1 & He1 & Hc1 & Hrun1).
  rewrite (Hrun1 fm w Hw), OpenAI_onLine_classify, Hc1. unfold bind.
  rewrite (supplied_Some _ _ Hf), (invoke_supplied _ _ _ _ _ Hf). cbn [ret].
  destruct (OpenAI_next_event (Some c) after1 tail Hnl1 He1)
    as (raw2 & after2 & Hnl2 & He2 & Hc2 & Hrun2).
  rewrite Hrun2 by reflexivity. rewrite OpenAI_onLine_classify, Hc2. unfold bind.
  rewrite (invoke_supplied _ _ _ _ _ Hh). cbn [ret].
  destruct (OpenAI_next_event (Some c) after2 tail Hnl2 He2)
    as (raw3 & after3 & Hnl3 & He3 & Hc3 & Hrun3).
  rewrite Hrun3 by reflexivity. rewrite OpenAI_onLine_classify, Hc3. unfold bind.
  rewrite (supplied_Some _ _ Hf), (invoke_supplied _ _ _ _ _ Hf). cbn [ret].
  destruct Hclosing as [-> | ->].
  - rewrite (OpenAI_skip_quiet (Some c) after3 tail Hnl3 (events_nil _ _ He3))
      by reflexivity.
    rewrite (@OpenAI_clean_end c g _ _ Hg)
      by (simpl; auto using noNewline_cut).
    eexists. split; [reflexivity|]. simpl.
    rewrite <- !app_assoc, !append_assoc. simpl. auto.
  - destruct (OpenAI_next_event (Some c) after3 tail Hnl3 He3)
      as (raw4 & after4 & Hnl4 & He4 & Hc4 & Hrun4).
    rewrite Hrun4 by reflexivity. rewrite OpenAI_onLine_classify, Hc4. unfold bind.
    rewrite (invoke_supplied _ _ _ _ _ Hg). cbn [ret].
    eexists. split; [reflexivity|]. simpl.
    rewrite <- !app_assoc, !append_assoc. simpl. auto.
Qed.

(** Any stream at all, as long as the source ends cleanly and the caller
    supplied all three callbacks: the run returns, its last call is
    [onFinish] with the fragments delivered so far, and nothing before it
    is anything but a fragment or a parse report. *)
Lemma OpenAI_every_clean_stream (c : StreamCallbacks St)
    (f g : string -> St -> St) (h : error -> St -> St) (fm0 : string)
    (w0 : World St) :
  OnContent c = Some f -> OnFinish c = Some g -> OnError c = Some h ->
  final (wire w0) = EOF ->
  exists before w',
    processLoop (passes w0) (Some c) fm0 w0 = (Returned tt, w')
    /\ calls w' = calls w0 ++ before
                  ++ [CallFinish (fm0 ++ join (contentsOf before))%string]
    /\ forallb duringStream before = true.
Proof.
  intros Hf Hg Hh Hfin.
  pose (Inv := fun (fm : string) (w : World St) =>
    final (wire w) = EOF /\
    exists before, calls w = calls w0 ++ before
      /\ fm = (fm0 ++ join (contentsOf before))%string
      /\ forallb duringStream before = true).
  pose (Post := fun (r : Result unit) (w' : World St) =>
    r = Returned tt /\
    exists before, calls w' = calls w0 ++ before
          ++ [CallFinish (fm0 ++ join (contentsOf before))%string]
      /\ forallb duringStream before = true).
  assert (Post (fst (processLoop (passes w0) (Some c) fm0 w0))
               (snd (processLoop (passes w0) (Some c) fm0 w0))) as HP.
  { unfold OpenAI.processLoop.
    apply (forLoop_rule (iteration (Some c)) (OpenAI_iteration_progress (Some c))
             (OpenAI_iteration_ends (Some c)) Inv Post).
    - intros fm w (HE & before & Hc & Hfm & Hd).
      destruct (cut nl (pending (wire w))) as [[raw rest]|] eqn:E.
      + rewrite (OpenAI_iteration_line _ _ _ E), OpenAI_onLine_classify.
        destruct (classify raw) as [| |err|text|]; unfold bind;
          rewrite ?(supplied_Some _ _ Hf), ?(invoke_supplied _ _ _ _ _ Hf),
                  ?(invoke_supplied _ _ _ _ _ Hg), ?(invoke_supplied _ _ _ _ _ Hh);
          cbn [ret].
        * split; [exact HE|]. exists before. auto.
        * split; [reflexivity|]. exists before. simpl.
          rewrite Hc, Hfm, <- app_assoc. auto.
        * split; [exact HE|]. exists (before ++ [CallError (Errorf_w "failed to parse JSON: " err)]).
          simpl. rewrite Hc, <- app_assoc, contentsOf_app, forallb_app, Hd.
          simpl. rewrite app_nil_r, String.eqb_refl. auto.
        * split; [exact HE|]. exists (before ++ [CallContent text]).
          simpl. rewrite Hc, <- app_assoc, contentsOf_app, forallb_app, Hd, join_app.
          simpl. rewrite Hfm, append_assoc. unfold join at 2. simpl.
          rewrite append_empty_r. auto.
        * split; [exact HE|]. exists before. auto.
      + rewrite (OpenAI_iteration_end _ _ _ E), HE. cbn [isEOF]. unfold bind.
        rewrite (invoke_supplied _ _ _ _ _ Hg). cbn [ret].
        split; [reflexivity|]. exists before. simpl.
        rewrite Hc, Hfm, <- app_assoc. auto.
    - split; [exact Hfin|]. exists []. simpl.
      rewrite app_nil_r, append_empty_r. auto.
    - unfold passes. lia. }
  destruct (processLoop (passes w0) (Some c) fm0 w0) as [r w'].
  unfold Post in HP. simpl in HP.
  destruct HP as (-> & before & Hc & Hd). exists before, w'. auto.
Qed.

(** Bytes after the last newline never reach the decoder. *)
Lemma OpenAI_tail_discarded (cb : Callbacks) (tail : bytes) :
  noNewline tail = true ->
  forall (lines : list bytes) (fm : string) (w1 w2 : World St),
    forallb noNewline lines = true ->
    pending (wire w1) = frame lines ++ tail -> pending (wire w2) = frame lines ->
    final (wire w1) = final (wire w2) ->
    caller w1 = caller w2 -> calls w1 = calls w2 ->
    observable (processLoop (passes w1) cb fm w1)
    = observable (processLoop (passes w2) cb fm w2).
Proof.
  intros Htail lines. induction lines as [|line lines IH];
    intros fm w1 w2 Hnl H1 H2 Hfin Hc Hl.
  - simpl in H1, H2.
    rewrite (OpenAI_processLoop_end cb fm w1)
      by (rewrite H1; now apply noNewline_cut).
    rewrite (OpenAI_processLoop_end cb fm w2) by now rewrite H2.
    rewrite Hfin. destruct (isEOF _); slots cb; plumbing;
      now rewrite ?Hc, ?Hl.
  - simpl in Hnl. apply andb_true_iff in Hnl as [Hline Hnl].
    assert (cut nl (pending (wire w1)) = Some (terminate line, frame lines ++ tail))
      as E1 by (rewrite H1; now apply cut_frame).
    assert (cut nl (pending (wire w2)) = Some (terminate line, frame lines ++ []))
      as E2 by (rewrite H2, <- (app_nil_r (frame (line :: lines)));
                now apply cut_frame).
    rewrite app_nil_r in E2.
    rewrite (OpenAI_processLoop_line _ _ _ E1), (OpenAI_processLoop_line _ _ _ E2).
    set (v1 := advance (frame lines ++ tail) w1).
    set (v2 := advance (frame lines) w2).
    destruct (OpenAI_onLine_view cb fm (terminate line) v1 v2 Hc Hl)
      as (Hr & Hc' & Hl').
    destruct (OpenAI_onLine_frame cb fm (terminate line) v1) as (Hw1 & _).
    destruct (OpenAI_onLine_frame cb fm (terminate line) v2) as (Hw2 & _).
    destruct (onLine cb fm (terminate line) v1) as [r1 u1].
    destruct (onLine cb fm (terminate line) v2) as [r2 u2].
    simpl in Hr, Hc', Hl', Hw1, Hw2. subst r2.
    destruct r1 as [[fm'|]| |]; unfold observable; simpl;
      try (now rewrite Hc', Hl').
    apply IH; try assumption.
    + now rewrite Hw1.
    + now rewrite Hw2.
    + rewrite Hw1, Hw2. exact Hfin.
Qed.

(** Choices after the first never matter to the loop body. *)
Lemma OpenAI_onLine_firstChoice (cb : Callbacks) (fm : string) (raw : bytes)
    (w : World St) :
  onLine cb fm raw w
  = OpenAI.onLine (UnmarshalFirstChoiceOnly Unmarshal) trimUnicode cb fm raw w.
Proof.
  unfold OpenAI.onLine, UnmarshalFirstChoiceOnly.
  destruct (len _ =? 0)%nat; [reflexivity|].
  destruct (HasPrefix _ _); [|reflexivity].
  destruct (Equal _ _); [reflexivity|].
  destruct (Unmarshal _) as [err|ev]; [reflexivity|].
  simpl. destruct (Choices ev) as [|first rest]; reflexivity.
Qed.

Lemma OpenAI_processLoop_firstChoice (fuel : nat) (cb : Callbacks)
    (fm : string) (w : World St) :
  processLoop fuel cb fm w
  = OpenAI.processLoop (UnmarshalFirstChoiceOnly Unmarshal) trimUnicode
      fuel cb fm w.
Proof.
  unfold OpenAI.processLoop. apply forLoop_ext. clear. intros fm w.
  unfold OpenAI.iteration, bind.
  destruct (ReadBytes "010"%byte w) as [[[line [err|]]| |] w']; try reflexivity.
  apply OpenAI_onLine_firstChoice.
Qed.

End OpenAIFacts.

(** * Facts about the Anthropic decoder *)

Section AnthropicFacts.

Import Anthropic.
Context {St : Type}.
Variable Unmarshal : bytes -> error + StreamEvent.
Variable trimUnicode : bytes -> bytes.

Notation Callbacks := (option (StreamCallbacks St)).
Notation onLine := (Anthropic.onLine (St := St) Unmarshal trimUnicode).
Notation iteration := (Anthropic.iteration (St := St) Unmarshal trimUnicode).
Notation processLoop := (Anthropic.processLoop (St := St) Unmarshal trimUnicode).
Notation classify := (Anthropic.classify Unmarshal trimUnicode).

(** What the loop body does with a line depends on its class alone. *)
Lemma Anthropic_onLine_classify (cb : Callbacks) (fm : string) (raw : bytes) :
  onLine cb fm raw =
  match classify raw with
  | Ignored | Silent => ret (Next fm)
  | Terminator =>
      if supplied OnFinish cb
      then bind (invoke OnFinish CallFinish cb fm) (fun _ => ret Exit)
      else ret (Next fm)
  | Malformed err =>
      bind (invoke OnError CallError cb (Errorf_w "failed to parse JSON: " err))
           (fun _ => ret (Next fm))
  | Fragment text =>
      if supplied OnContent cb
      then bind (invoke OnContent CallContent cb text)
                (fun _ => ret (Next (fm ++ text)%string))
      else ret (Next fm)
  end.
Proof.
  unfold Anthropic.onLine, Anthropic.classify, payload.
  destruct (len (TrimSpace trimUnicode raw) =? 0)%nat eqn:E.
  - now rewrite (HasPrefix_empty _ E).
  - destruct (HasPrefix _ _); [|reflexivity].
    destruct (Unmarshal _) as [err|ev]; [reflexivity|].
    destruct (EventType ev =? Delta)%string.
    + destruct (EventDelta ev) as [delta|]; [|reflexivity].
      destruct (Text delta =? "")%string; simpl; [reflexivity|].
      destruct (supplied OnContent cb); reflexivity.
    + destruct (EventType ev =? Finish)%string; [|reflexivity].
      destruct (supplied OnFinish cb); reflexivity.
Qed.

(** The loop body touches the caller and the log, nothing else, and it
    comes to an end. *)
Lemma Anthropic_onLine_frame (cb : Callbacks) (fm : string) (raw : bytes)
    (w : World St) :
  let run := onLine cb fm raw w in
  wire (snd run) = wire w /\ sent (snd run) = sent w
  /\ closed (snd run) = closed w /\ fst run <> OutOfFuel.
Proof.
  rewrite Anthropic_onLine_classify.
  destruct (classify raw); slots cb; plumbing; repeat split; discriminate.
Qed.

(** On worlds the caller cannot tell apart, the loop body acts alike. *)
Lemma Anthropic_onLine_view (cb : Callbacks) (fm : string) (raw : bytes)
    (w1 w2 : World St) :
  caller w1 = caller w2 -> calls w1 = calls w2 ->
  let run1 := onLine cb fm raw w1 in
  let run2 := onLine cb fm raw w2 in
  fst run1 = fst run2 /\ caller (snd run1) = caller (snd run2)
  /\ calls (snd run1) = calls (snd run2).
Proof.
  intros Hc Hl. rewrite !Anthropic_onLine_classify.
  destruct (classify raw); slots cb; plumbing; rewrite ?Hc, ?Hl; auto.
Qed.

Lemma Anthropic_iteration_line (cb : Callbacks) (fm : string) (w : World St)
    (raw rest : bytes) :
  cut nl (pending (wire w)) = Some (raw, rest) ->
  iteration cb fm w = onLine cb fm raw (advance rest w).
Proof.
  intros H. unfold Anthropic.iteration, bind, ReadBytes.
  change "010"%byte with nl. now rewrite H.
Qed.

Lemma Anthropic_iteration_end (cb : Callbacks) (fm : string) (w : World St) :
  cut nl (pending (wire w)) = None ->
  iteration cb fm w =
  (if isEOF (final (wire w))
   then bind (invoke OnFinish CallFinish cb fm) (fun _ => ret Exit)
   else bind (invoke OnError CallError cb
                (Errorf_w "read failed: " (final (wire w))))
             (fun _ => ret Exit)) (advance [] w).
Proof.
  intros H. unfold Anthropic.iteration, bind at 1, ReadBytes.
  change "010"%byte with nl. now rewrite H.
Qed.

Lemma Anthropic_iteration_progress (cb : Callbacks) (fm : string) (w : World St)
    (fm' : string) (w' : World St) :
  iteration cb fm w = (Returned (Next fm'), w') ->
  len (pending (wire w')) < len (pending (wire w)).
Proof.
  destruct (cut nl (pending (wire w))) as [[raw rest]|] eqn:E.
  - rewrite (Anthropic_iteration_line _ _ _ E). intros H.
    destruct (Anthropic_onLine_frame cb fm raw (advance rest w)) as (Hw & _).
    rewrite H in Hw. simpl in Hw. rewrite Hw. simpl.
    now apply cut_split in E.
  - rewrite (Anthropic_iteration_end _ _ _ E).
    destruct (isEOF _); slots cb; plumbing; discriminate.
Qed.

Lemma Anthropic_iteration_ends (cb : Callbacks) (fm : string) (w w' : World St) :
  iteration cb fm w <> (OutOfFuel, w').
Proof.
  destruct (cut nl (pending (wire w))) as [[raw rest]|] eqn:E.
  - rewrite (Anthropic_iteration_line _ _ _ E). intros H.
    destruct (Anthropic_onLine_frame cb fm raw (advance rest w)) as (_ & _ & _ & Hn).
    rewrite H in Hn. now apply Hn.
  - rewrite (Anthropic_iteration_end _ _ _ E).
    destruct (isEOF _); slots cb; plumbing; discriminate.
Qed.

(** One pass of [processLoop] over a stream that still holds a line. *)
Lemma Anthropic_processLoop_line (cb : Callbacks) (fm : string) (w : World St)
    (raw rest : bytes) :
  cut nl (pending (wire w)) = Some (raw, rest) ->
  processLoop (passes w) cb fm w =
  match onLine cb fm raw (advance rest w) with
  | (Returned (Next fm'), w') => processLoop (passes w') cb fm' w'
  | (Returned Exit, w') => (Returned tt, w')
  | (Panicked reason, w') => (Panicked reason, w')
  | (OutOfFuel, w') => (OutOfFuel, w')
  end.
Proof.
  intros H. unfold Anthropic.processLoop.
  rewrite (forLoop_pass _ (Anthropic_iteration_progress cb)) by (unfold passes; lia).
  now rewrite (Anthropic_iteration_line _ _ _ H).
Qed.

(** The pass that finds the source exhausted. *)
Lemma Anthropic_processLoop_end (cb : Callbacks) (fm : string) (w : World St) :
  cut nl (pending (wire w)) = None ->
  processLoop (passes w) cb fm w =
  (if isEOF (final (wire w))
   then invoke OnFinish CallFinish cb fm
   else invoke OnError CallError cb (Errorf_w "read failed: " (final (wire w))))
  (advance [] w).
Proof.
  intros H. unfold Anthropic.processLoop.
  rewrite (forLoop_pass _ (Anthropic_iteration_progress cb)) by (unfold passes; lia).
  rewrite (Anthropic_iteration_end _ _ _ H).
  destruct (isEOF _); slots cb; plumbing; reflexivity.
Qed.

(** A well-formed stream up to its [message_stop] event, read by a caller
    who listens to the end: the fragments delivered, then the finish. *)
Lemma Anthropic_wellformed_run (c : StreamCallbacks St)
    (g : string -> St -> St) :
  OnFinish c = Some g ->
  forall (lines : list bytes) (last tail : bytes),
    forallb noNewline lines = true -> noNewline last = true ->
    forallb (fun l => wellFormed (classify (terminate l))) lines = true ->
    classify (terminate last) = Terminator ->
    forall fm w, pending (wire w) = frame (lines ++ [last]) ++ tail ->
    exists fragments w',
      processLoop (passes w) (Some c) fm w = (Returned tt, w')
      /\ calls w' = calls w ++ map CallContent fragments
                    ++ [CallFinish (fm ++ join fragments)%string].
Proof.
  intros Hg lines last tail. induction lines as [|line lines IH];
    intros Hnl Hlast Hwf Hterm fm w Hw.
  - simpl in Hw.
    assert (cut nl (pending (wire w)) = Some (terminate last, frame [] ++ tail)) as E.
    { rewrite Hw. now apply cut_frame. }
    rewrite (Anthropic_processLoop_line _ _ _ E), Anthropic_onLine_classify, Hterm.
    rewrite (supplied_Some _ _ Hg). unfold bind.
    rewrite (invoke_supplied _ _ _ _ _ Hg). simpl.
    exists [], (record (CallFinish fm) (g fm) (advance (frame [] ++ tail) w)).
    simpl. now rewrite append_empty_r.
  - simpl in Hnl, Hwf. apply andb_true_iff in Hnl as [Hl Hnl].
    apply andb_true_iff in Hwf as [Hw1 Hwf].
    assert (cut nl (pending (wire w))
            = Some (terminate line, frame (lines ++ [last]) ++ tail)) as E.
    { rewrite Hw. now apply (cut_frame line (lines ++ [last]) tail). }
    rewrite (Anthropic_processLoop_line _ _ _ E), Anthropic_onLine_classify.
    set (w1 := advance (frame (lines ++ [last]) ++ tail) w).
    destruct (classify (terminate line)) as [| |err|text|] eqn:Ec;
      try discriminate Hw1.
    + destruct (IH Hnl Hlast Hwf Hterm fm w1 eq_refl) as (fr & w' & H1 & H2).
      exists fr, w'. unfold ret. now rewrite H1, H2.
    + rewrite (supplied_Some _ _ Hg). unfold bind.
      rewrite (invoke_supplied _ _ _ _ _ Hg). simpl.
      exists [], (record (CallFinish fm) (g fm) w1).
      simpl. now rewrite append_empty_r.
    + destruct (OnContent c) as [f|] eqn:Hf.
      * rewrite (supplied_Some _ _ Hf). unfold bind.
        rewrite (invoke_supplied _ _ _ _ _ Hf). simpl.
        destruct (IH Hnl Hlast Hwf Hterm (fm ++ text)%string
                    (record (CallContent text) (f text) w1) eq_refl)
          as (fr & w' & H1 & H2).
        exists (text :: fr), w'. rewrite H1, H2. simpl.
        rewrite <- !app_assoc. simpl. now rewrite append_assoc.
      * unfold supplied. rewrite Hf.
        destruct (IH Hnl Hlast Hwf Hterm fm w1 eq_refl) as (fr & w' & H1 & H2).
        exists fr, w'. unfold ret. now rewrite H1, H2.
    + destruct (IH Hnl Hlast Hwf Hterm fm w1 eq_refl) as (fr & w' & H1 & H2).
      exists fr, w'. unfold ret. now rewrite H1, H2.
Qed.

(** Quiet lines are read and passed over. *)
Lemma Anthropic_skip_quiet (cb : Callbacks) (lines : list bytes) (rest : bytes) :
  forallb noNewline lines = true ->
  forallb (fun l => quiet (classify (terminate l))) lines = true ->
  forall fm w, pending (wire w) = frame lines ++ rest ->
  processLoop (passes w) cb fm w
  = processLoop (passes (advance rest w)) cb fm (advance rest w).
Proof.
  induction lines as [|line lines IH]; intros Hnl Hq fm w Hw.
  - simpl in Hw. rewrite <- Hw. now rewrite advance_same.
  - simpl in Hnl, Hq. apply andb_true_iff in Hnl as [Hl Hnl].
    apply andb_true_iff in Hq as [Hq1 Hq].
    assert (cut nl (pending (wire w)) = Some (terminate line, frame lines ++ rest))
      as E by (rewrite Hw; now apply cut_frame).
    rewrite (Anthropic_processLoop_line _ _ _ E), Anthropic_onLine_classify.
    destruct (classify (terminate line)); try discriminate Hq1;
      unfold ret;
      now rewrite (IH Hnl Hq fm (advance (frame lines ++ rest) w) eq_refl).
Qed.

(** The run up to the next event of the stream. *)
Lemma Anthropic_next_event (cb : Callbacks) (lines : list bytes) (rest : bytes)
    (ev : Line) (evs : list Line) :
  forallb noNewline lines = true ->
  events classify lines = ev :: evs ->
  exists raw after,
    forallb noNewline after = true /\ events classify after = evs
    /\ classify raw = ev
    /\ forall fm w, pending (wire w) = frame lines ++ rest ->
        processLoop (passes w) cb fm w =
        match onLine cb fm raw (advance (frame after ++ rest) w) with
        | (Returned (Next fm'), w') => processLoop (passes w') cb fm' w'
        | (Returned Exit, w') => (Returned tt, w')
        | (Panicked reason, w') => (Panicked reason, w')
        | (OutOfFuel, w') => (OutOfFuel, w')
        end.
Proof.
  intros Hnl He.
  destruct (events_cons _ _ He) as (before & line & after & -> & Hq & Hl & Hevs).
  rewrite forallb_app in Hnl. apply andb_true_iff in Hnl as [Hb Hnl].
  simpl in Hnl. apply andb_true_iff in Hnl as [Hline Hafter].
  exists (terminate line), after. repeat split; try assumption.
  intros fm w Hw. rewrite frame_app, <- app_assoc in Hw.
  rewrite (Anthropic_skip_quiet cb before _ Hb Hq fm w Hw).
  rewrite (Anthropic_processLoop_line cb fm
             (advance (frame (line :: after) ++ rest) w)
             (raw := terminate line) (rest := frame after ++ rest));
    [reflexivity | simpl; now apply cut_frame].
Qed.

(** The pass that finds no complete line left and the source cleanly
    ended: [onFinish] with the accumulator, nothing else. *)
Lemma Anthropic_clean_end (c : StreamCallbacks St) (g : string -> St -> St)
    (fm : string) (w : World St) :
  OnFinish c = Some g ->
  cut nl (pending (wire w)) = None -> final (wire w) = EOF ->
  processLoop (passes w) (Some c) fm w
  = (Returned tt, record (CallFinish fm) (g fm) (advance [] w)).
Proof.
  intros Hg Hcut Hfin. rewrite (Anthropic_processLoop_end _ _ _ Hcut), Hfin. simpl.
  now apply invoke_supplied.
Qed.

(** Fragment, malformed payload, fragment, then the end of the stream. *)
Lemma Anthropic_malformed_between (c : StreamCallbacks St)
    (f g : string -> St -> St) (h : error -> St -> St)
    (lines : list bytes) (tail : bytes) (x y : string) (e : error)
    (closing : list Line) (fm : string) (w : World St) :
  OnContent c = Some f -> OnFinish c = Some g -> OnError c = Some h ->
  forallb noNewline lines = true -> noNewline tail = true ->
  events classify lines = [Fragment x; Malformed e; Fragment y] ++ closing ->
  closing = [] \/ closing = [Terminator] ->
  pending (wire w) = frame lines ++ tail -> final (wire w) = EOF ->
  let err := Errorf_w "failed to parse JSON: " e in
  exists w',
    processLoop (passes w) (Some c) fm w = (Returned tt, w')
    /\ calls w' = calls w ++ [CallContent x; CallError err; CallContent y;
                              CallFinish (fm ++ x ++ y)%string]
    /\ caller w' = g (fm ++ x ++ y)%string (f y (h err (f x (caller w)))).
Proof.
  intros Hf Hg Hh Hnl Htail He Hclosing Hw Hfin err.
  destruct (Anthropic_next_event (Some c) lines tail Hnl He)
    as (raw1 & after1 & Hnl1 & He1 & Hc1 & Hrun1).
  rewrite (Hrun1 fm w Hw), Anthropic_onLine_classify, Hc1.
  rewrite (supplied_Some _ _ Hf). unfold bind.
  rewrite (invoke_supplied _ _ _ _ _ Hf). cbn [ret].
  destruct (Anthropic_next_event (Some c) after1 tail Hnl1 He1)
    as (raw2 & after2 & Hnl2 & He2 & Hc2 & Hrun2).
  rewrite Hrun2 by reflexivity. rewrite Anthropic_onLine_classify, Hc2. unfold bind.
  rewrite (invoke_supplied _ _ _ _ _ Hh). cbn [ret].
  destruct (Anthropic_next_event (Some c) after2 tail Hnl2 He2)
    as (raw3 & after3 & Hnl3 & He3 & Hc3 & Hrun3).
  rewrite Hrun3 by reflexivity. rewrite Anthropic_onLine_classify, Hc3.
  rewrite (supplied_Some _ _ Hf). unfold bind.
  rewrite (invoke_supplied _ _ _ _ _ Hf). cbn [ret].
  destruct Hclosing as [-> | ->].
  - rewrite (Anthropic_skip_quiet (Some c) after3 tail Hnl3 (events_nil _ _ He3))
      by reflexivity.
    rewrite (@Anthropic_clean_end c g _ _ Hg)
      by (simpl; auto using noNewline_cut).
    eexists. split; [reflexivity|]. simpl.
    rewrite <- !app_assoc, !append_assoc. simpl. auto.
  - destruct (Anthropic_next_event (Some c) after3 tail Hnl3 He3)
      as (raw4 & after4 & Hnl4 & He4 & Hc4 & Hrun4).
    rewrite Hrun4 by reflexivity. rewrite Anthropic_onLine_classify, Hc4.
    rewrite (supplied_Some _ _ Hg). unfold bind.
    rewrite (invoke_supplied _ _ _ _ _ Hg). cbn [ret].
    eexists. split; [reflexivity|]. simpl.
    rewrite <- !app_assoc, !append_assoc. simpl. auto.
Qed.

(** Any stream at all, as long as the source ends cleanly and the caller
    supplied [onFinish] and [onError]: the run returns, its last call is
    [onFinish] with the fragments delivered so far, and nothing before it
    is anything but a fragment or a parse report. *)
Lemma Anthropic_every_clean_stream (c : StreamCallbacks St)
    (g : string -> St -> St) (h : error -> St -> St) (fm0 : string)
    (w0 : World St) :
  OnFinish c = Some g -> OnError c = Some h ->
  final (wire w0) = EOF ->
  exists before w',
    processLoop (passes w0) (Some c) fm0 w0 = (Returned tt, w')
    /\ calls w' = calls w0 ++ before
                  ++ [CallFinish (fm0 ++ join (contentsOf before))%string]
    /\ forallb duringStream before = true.
Proof.
  intros Hg Hh Hfin.
  pose (Inv := fun (fm : string) (w : World St) =>
    final (wire w) = EOF /\
    exists before, calls w = calls w0 ++ before
      /\ fm = (fm0 ++ join (contentsOf before))%string
      /\ forallb duringStream before = true).
  pose (Post := fun (r : Result unit) (w' : World St) =>
    r = Returned tt /\
    exists before, calls w' = calls w0 ++ before
          ++ [CallFinish (fm0 ++ join (contentsOf before))%string]
      /\ forallb duringStream before = true).
  assert (Post (fst (processLoop (passes w0) (Some c) fm0 w0))
               (snd (processLoop (passes w0) (Some c) fm0 w0))) as HP.
  { unfold Anthropic.processLoop.
    apply (forLoop_rule (iteration (Some c)) (Anthropic_iteration_progress (Some c))
             (Anthropic_iteration_ends (Some c)) Inv Post).
    - intros fm w (HE & before & Hc & Hfm & Hd).
      destruct (cut nl (pending (wire w))) as [[raw rest]|] eqn:E.
      + rewrite (Anthropic_iteration_line _ _ _ E), Anthropic_onLine_classify.
        destruct (classify raw) as [| |err|text|];
          rewrite ?(supplied_Some _ _ Hg); unfold bind;
          rewrite ?(invoke_supplied _ _ _ _ _ Hg), ?(invoke_supplied _ _ _ _ _ Hh);
          cbn [ret].
        * split; [exact HE|]. exists before. auto.
        * split; [reflexivity|]. exists before. simpl.
          rewrite Hc, Hfm, <- app_assoc. auto.
        * split; [exact HE|]. exists (before ++ [CallError (Errorf_w "failed to parse JSON: " err)]).
          simpl. rewrite Hc, <- app_assoc, contentsOf_app, forallb_app, Hd.
          simpl. rewrite app_nil_r, String.eqb_refl. auto.
        * destruct (OnContent c) as [f|] eqn:Hf.
          -- rewrite (supplied_Some _ _ Hf), (invoke_supplied _ _ _ _ _ Hf).
             split; [exact HE|]. exists (before ++ [CallContent text]).
             simpl. rewrite Hc, <- app_assoc, contentsOf_app, forallb_app, Hd, join_app.
             simpl. rewrite Hfm, append_assoc. unfold join at 2. simpl.
             rewrite append_empty_r. auto.
          -- unfold supplied. rewrite Hf. cbn [ret].
             split; [exact HE|]. exists before. auto.
        * split; [exact HE|]. exists before. auto.
      + rewrite (Anthropic_iteration_end _ _ _ E), HE. cbn [isEOF]. unfold bind.
        rewrite (invoke_supplied _ _ _ _ _ Hg). cbn [ret].
        split; [reflexivity|]. exists before. simpl.
        rewrite Hc, Hfm, <- app_assoc. auto.
    - split; [exact Hfin|]. exists []. simpl.
      rewrite app_nil_r, append_empty_r. auto.
    - unfold passes. lia. }
  destruct (processLoop (passes w0) (Some c) fm0 w0) as [r w'].
  unfold Post in HP. simpl in HP.
  destruct HP as (-> & before & Hc & Hd). exists before, w'. auto.
Qed.

(** Bytes after the last newline never reach the decoder. *)
Lemma Anthropic_tail_discarded (cb : Callbacks) (tail : bytes) :
  noNewline tail = true ->
  forall (lines : list bytes) (fm : string) (w1 w2 : World St),
    forallb noNewline lines = true ->
    pending (wire w1) = frame lines ++ tail -> pending (wire w2) = frame lines ->
    final (wire w1) = final (wire w2) ->
    caller w1 = caller w2 -> calls w1 = calls w2 ->
    observable (processLoop (passes w1) cb fm w1)
    = observable (processLoop (passes w2) cb fm w2).
Proof.
  intros Htail lines. induction lines as [|line lines IH];
    intros fm w1 w2 Hnl H1 H2 Hfin Hc Hl.
  - simpl in H1, H2.
    rewrite (Anthropic_processLoop_end cb fm w1)
      by (rewrite H1; now apply noNewline_cut).
    rewrite (Anthropic_processLoop_end cb fm w2) by now rewrite H2.
    rewrite Hfin. destruct (isEOF _); slots cb; plumbing;
      now rewrite ?Hc, ?Hl.
  - simpl in Hnl. apply andb_true_iff in Hnl as [Hline Hnl].
    assert (cut nl (pending (wire w1)) = Some (terminate line, frame lines ++ tail))
      as E1 by (rewrite H1; now apply cut_frame).
    assert (cut nl (pending (wire w2)) = Some (terminate line, frame lines ++ []))
      as E2 by (rewrite H2, <- (app_nil_r (frame (line :: lines)));
                now apply cut_frame).
    rewrite app_nil_r in E2.
    rewrite (Anthropic_processLoop_line _ _ _ E1), (Anthropic_processLoop_line _ _ _ E2).
    set (v1 := advance (frame lines ++ tail) w1).
    set (v2 := advance (frame lines) w2).
    destruct (Anthropic_onLine_view cb fm (terminate line) v1 v2 Hc Hl)
      as (Hr & Hc' & Hl').
    destruct (Anthropic_onLine_frame cb fm (terminate line) v1) as (Hw1 & _).
    destruct (Anthropic_onLine_frame cb fm (terminate line) v2) as (Hw2 & _).
    destruct (onLine cb fm (terminate line) v1) as [r1 u1].
    destruct (onLine cb fm (terminate line) v2) as [r2 u2].
    simpl in Hr, Hc', Hl', Hw1, Hw2. subst r2.
    destruct r1 as [[fm'|]| |]; unfold observable; simpl;
      try (now rewrite Hc', Hl').
    apply IH; try assumption.
    + now rewrite Hw1.
    + now rewrite Hw2.
    + rewrite Hw1, Hw2. exact Hfin.
Qed.

End AnthropicFacts.

(** * The status branch of processStream *)

Section StatusFacts.

Context {St : Type}.
Variable UnmarshalA : bytes -> error + OpenAI.StreamEvent.
Variable UnmarshalB : bytes -> error + Anthropic.StreamEvent.
Variable trimUnicode : bytes -> bytes.

Lemma OpenAI_processStream_ok (resp : Response)
    (cb : option (StreamCallbacks St)) (w : World St) :
  StatusCode resp = StatusOK ->
  OpenAI.processStream UnmarshalA trimUnicode resp cb w
  = OpenAI.processLoop UnmarshalA trimUnicode (passes w) cb "" w.
Proof. intros H. unfold OpenAI.processStream. now rewrite H. Qed.

Lemma Anthropic_processStream_ok (resp : Response)
    (cb : option (StreamCallbacks St)) (w : World St) :
  StatusCode resp = StatusOK ->
  Anthropic.processStream UnmarshalB trimUnicode resp cb w
  = Anthropic.processLoop UnmarshalB trimUnicode (passes w) cb "" w.
Proof. intros H. unfold Anthropic.processStream. now rewrite H. Qed.

(** [processStream] always comes to an end: the fuel it gives the loop is
    never used up. *)
Lemma processStream_ends (resp : Response) (cb : option (StreamCallbacks St))
    (w : World St) :
  fst (OpenAI.processStream UnmarshalA trimUnicode resp cb w) <> OutOfFuel
  /\ fst (Anthropic.processStream UnmarshalB trimUnicode resp cb w) <> OutOfFuel.
Proof.
  unfold OpenAI.processStream, Anthropic.processStream.
  destruct (negb (StatusCode resp =? StatusOK)%Z).
  - unfold bind, ReadAll. destruct (isEOF _); slots cb; plumbing;
      split; discriminate.
  - split.
    + apply (forLoop_ends _ (OpenAI_iteration_progress UnmarshalA trimUnicode cb)
               (OpenAI_iteration_ends UnmarshalA trimUnicode cb)).
      unfold passes. lia.
    + apply (forLoop_ends _ (Anthropic_iteration_progress UnmarshalB trimUnicode cb)
               (Anthropic_iteration_ends UnmarshalB trimUnicode cb)).
      unfold passes. lia.
Qed.

End StatusFacts.

Unset Implicit Arguments.

(** * Where the two decoders part ways *)

(** The OpenAI decoder adds every fragment to the accumulator, whether or
    not there is an [onContent] to hear it. *)
Lemma OpenAI_accumulates_regardless (St : Type)
    (Unmarshal : bytes -> error + OpenAI.StreamEvent)
    (trimUnicode : bytes -> bytes)
    (cb : option (StreamCallbacks St)) (fm : string) (raw : bytes)
    (text : string) (w : World St) :
  OpenAI.classify Unmarshal trimUnicode raw = Fragment text ->
  fst (OpenAI.onLine Unmarshal trimUnicode cb fm raw w)
  = Returned (Next (fm ++ text)%string).
Proof.
  intros H. rewrite OpenAI_onLine_classify, H. slots cb; reflexivity.
Qed.

(** The Anthropic decoder does so only when [onContent] was supplied. *)
Lemma Anthropic_accumulates_when_listened_to (St : Type)
    (Unmarshal : bytes -> error + Anthropic.StreamEvent)
    (trimUnicode : bytes -> bytes)
    (cb : option (StreamCallbacks St)) (fm : string) (raw : bytes)
    (text : string) (w : World St) :
  Anthropic.classify Unmarshal trimUnicode raw = Fragment text ->
  fst (Anthropic.onLine Unmarshal trimUnicode cb fm raw w)
  = Returned (Next (if supplied OnContent cb then (fm ++ text)%string else fm)).
Proof.
  intros H. rewrite Anthropic_onLine_classify, H. slots cb; reflexivity.
Qed.

(** Without [onFinish], the Anthropic decoder passes over a [message_stop]
    event as it would over a blank line. *)
Lemma Anthropic_message_stop_unheard (St : Type)
    (Unmarshal : bytes -> error + Anthropic.StreamEvent)
    (trimUnicode : bytes -> bytes)
    (cb : option (StreamCallbacks St)) (fm : string) (raw : bytes)
    (w : World St) :
  supplied OnFinish cb = false ->
  Anthropic.classify Unmarshal trimUnicode raw = Terminator ->
  Anthropic.onLine Unmarshal trimUnicode cb fm raw w = (Returned (Next fm), w).
Proof.
  intros Hg H. now rewrite Anthropic_onLine_classify, H, Hg.
Qed.

(** The calls to [cb.OnFinish] at the end of the input and to [cb.OnError]
    on a non-success status carry no nil check: without the callback, either
    decoder panics there. *)
Lemma processStream_panics_on_nil_callback (St : Type)
    (UnmarshalA : bytes -> error + OpenAI.StreamEvent)
    (UnmarshalB : bytes -> error + Anthropic.StreamEvent)
    (trimUnicode : bytes -> bytes)
    (resp : Response) (cb : option (StreamCallbacks St)) (w : World St) :
  (StatusCode resp = StatusOK -> noNewline (pending (wire w)) = true ->
   final (wire w) = EOF -> supplied OnFinish cb = false ->
   fst (OpenAI.processStream UnmarshalA trimUnicode resp cb w)
   = Panicked nilDereference
   /\ fst (Anthropic.processStream UnmarshalB trimUnicode resp cb w)
      = Panicked nilDereference)
  /\
  (StatusCode resp <> StatusOK -> supplied OnError cb = false ->
   fst (OpenAI.processStream UnmarshalA trimUnicode resp cb w)
   = Panicked nilDereference
   /\ fst (Anthropic.processStream UnmarshalB trimUnicode resp cb w)
      = Panicked nilDereference).
Proof.
  split.
  - intros Hok Hnl Hfin Hg. apply noNewline_cut in Hnl.
    rewrite (OpenAI_processStream_ok _ _ _ _ _ Hok),
            (Anthropic_processStream_ok _ _ _ _ _ Hok).
    rewrite (OpenAI_processLoop_end _ _ _ _ _ Hnl),
            (Anthropic_processLoop_end _ _ _ _ _ Hnl), Hfin.
    revert Hg. slots cb; plumbing; intros; try discriminate; auto.
  - intros Hcode Hh.
    assert (negb (StatusCode resp =? StatusOK)%Z = true) as E.
    { apply negb_true_iff. now apply Z.eqb_neq. }
    unfold OpenAI.processStream, Anthropic.processStream. rewrite E.
    unfold ReadAll. revert Hh.
    slots cb; plumbing; intros; try discriminate;
      destruct (isEOF (final (wire w))); split; reflexivity.
Qed.

(** With an empty API key and no [onError] to tell, [StreamChat] returns
    having done nothing at all. *)
Lemma StreamChat_empty_credential_unheard (St : Type)
    (UnmarshalA : bytes -> error + OpenAI.StreamEvent)
    (UnmarshalB : bytes -> error + Anthropic.StreamEvent)
    (trimUnicode : bytes -> bytes)
    (MarshalA : OpenAI.RequestBody -> error + bytes)
    (MarshalB : Anthropic.RequestBody -> error + bytes)
    (Context_ : Type)
    (NewRequestWithContext : Context_ -> string -> string -> bytes -> error + Request)
    (transport : Request -> error + Response)
    (sA : OpenAI.OpenAIStreamer) (sB : Anthropic.AnthropicStreamer)
    (ctx : Context_) (messages : list Message)
    (cb : option (StreamCallbacks St)) (w : World St) :
  OpenAI.ApiKey sA = ""%string -> Anthropic.ApiKey sB = ""%string ->
  supplied OnError cb = false ->
  OpenAI.StreamChat UnmarshalA trimUnicode MarshalA NewRequestWithContext
    transport sA ctx messages cb w = (Returned tt, w)
  /\ Anthropic.StreamChat UnmarshalB trimUnicode MarshalB NewRequestWithContext
       transport sB ctx messages cb w = (Returned tt, w).
Proof.
  intros HA HB Hh. unfold OpenAI.StreamChat, Anthropic.StreamChat.
  now rewrite HA, HB, String.eqb_refl, Hh.
Qed.

(** * The claims *)

(** C1, as stated, fails on the OpenAI decoder: a caller who supplies no
    [onContent] still gets the whole text in [onFinish], although no
    fragment was ever delivered.  The stream is [data: {..."Hi"...}] then
    [data: [DONE]], well-formed and read to its end without error. *)
Lemma C1_counterexample :
  let lines := [b "data: " ++ Samples.A.hi] in
  let last := b "data: [DONE]" in
  let classify := OpenAI.classify Samples.A.Unmarshal Samples.asciiOnly in
  let run := Samples.A.processStream Samples.ok Samples.noOnContent
               (Samples.arriving (frame (lines ++ [last])) EOF) in
  forallb noNewline (lines ++ [last]) = true
  /\ forallb (fun l => wellFormed (classify (terminate l))) lines = true
  /\ classify (terminate last) = Terminator
  /\ fst run = Returned tt
  /\ calls (snd run) = [CallFinish "Hi"]
  /\ ~ finishIsConcatenation (calls (snd run)).
Proof.
  repeat split; try (vm_compute; reflexivity).
  intros H. specialize (H [] "Hi"%string eq_refl). discriminate H.
Qed.

(** C1 (amended): for every well-formed Shape-A stream ending in the
    [data: [DONE]] line and every well-formed Shape-B stream ending in a
    [message_stop] event, read for a caller who supplied [onFinish] (and, for
    Shape A, [onContent]), the run returns normally and the callbacks invoked
    are the fragments, in order, followed by one [onFinish] whose argument is
    their concatenation. *)
Theorem C1_finish_is_concatenation (St : Type)
    (UnmarshalA : bytes -> error + OpenAI.StreamEvent)
    (UnmarshalB : bytes -> error + Anthropic.StreamEvent)
    (trimUnicode : bytes -> bytes)
    (c : StreamCallbacks St) (g : string -> St -> St)
    (resp : Response) (lines : list bytes) (last : bytes) (w : World St) :
  OnFinish c = Some g ->
  StatusCode resp = StatusOK ->
  forallb noNewline (lines ++ [last]) = true ->
  pending (wire w) = frame (lines ++ [last]) ->
  (OnContent c <> None ->
   forallb (fun l => wellFormed (OpenAI.classify UnmarshalA trimUnicode (terminate l)))
           lines = true ->
   OpenAI.classify UnmarshalA trimUnicode (terminate last) = Terminator ->
   exists fragments w',
     OpenAI.processStream UnmarshalA trimUnicode resp (Some c) w = (Returned tt, w')
     /\ calls w' = calls w ++ map CallContent fragments
                   ++ [CallFinish (join fragments)])
  /\
  (forallb (fun l => wellFormed (Anthropic.classify UnmarshalB trimUnicode (terminate l)))
           lines = true ->
   Anthropic.classify UnmarshalB trimUnicode (terminate last) = Terminator ->
   exists fragments w',
     Anthropic.processStream UnmarshalB trimUnicode resp (Some c) w = (Returned tt, w')
     /\ calls w' = calls w ++ map CallContent fragments
                   ++ [CallFinish (join fragments)]).
Proof.
  intros Hg Hok Hnl Hw.
  rewrite forallb_app in Hnl. apply andb_true_iff in Hnl as [Hnl Hlast].
  simpl in Hlast. rewrite andb_true_r in Hlast.
  rewrite <- (app_nil_r (frame (lines ++ [last]))) in Hw.
  split.
  - intros Hf Hwf Hterm. destruct (OnContent c) as [f|] eqn:Ef; [|congruence].
    rewrite (OpenAI_processStream_ok _ _ _ _ _ Hok).
    exact (OpenAI_wellformed_run UnmarshalA trimUnicode c Ef Hg lines last []
             Hnl Hlast Hwf Hterm "" w Hw).
  - intros Hwf Hterm.
    rewrite (Anthropic_processStream_ok _ _ _ _ _ Hok).
    exact (Anthropic_wellformed_run UnmarshalB trimUnicode c Hg lines last []
             Hnl Hlast Hwf Hterm "" w Hw).
Qed.

Lemma C1_witness :
  let lines := [b "data: " ++ Samples.A.hi; []; b "data: " ++ Samples.A.there] in
  exists fragments w',
    Samples.A.processStream Samples.ok Samples.allCallbacks
      (Samples.arriving (frame (lines ++ [b "data: [DONE]"])) EOF)
    = (Returned tt, w')
    /\ calls w' = [] ++ map CallContent fragments ++ [CallFinish (join fragments)].
Proof.
  refine (proj1 (C1_finish_is_concatenation Samples.Transcript
                   Samples.A.Unmarshal Samples.B.Unmarshal Samples.asciiOnly
                   Samples.listener Samples.onFinish Samples.ok
                   [b "data: " ++ Samples.A.hi; []; b "data: " ++ Samples.A.there]
                   (b "data: [DONE]")
                   (Samples.arriving _ EOF)
                   eq_refl eq_refl eq_refl eq_refl) _ eq_refl eq_refl).
  discriminate.
Defined.

(** With [onFinish] supplied, the [[DONE]] line ends the OpenAI run on the
    spot, whatever [json.Unmarshal] would have made of it: the finish is
    called with the accumulator and the rest of the body stays unread. *)
Lemma OpenAI_DONE_stops_reading (St : Type)
    (Unmarshal : bytes -> error + OpenAI.StreamEvent)
    (trimUnicode : bytes -> bytes)
    (c : StreamCallbacks St) (g : string -> St -> St)
    (line rest : bytes) (fm : string) (w : World St) :
  OnFinish c = Some g ->
  noNewline line = true ->
  payload trimUnicode (terminate line) = Some (b "[DONE]") ->
  pending (wire w) = terminate line ++ rest ->
  OpenAI.processLoop Unmarshal trimUnicode (passes w) (Some c) fm w
  = (Returned tt, record (CallFinish fm) (g fm) (advance rest w)).
Proof.
  intros Hg Hnl Hp Hw.
  assert (cut nl (pending (wire w)) = Some (terminate line, rest)) as E.
  { rewrite Hw. unfold terminate. rewrite <- app_assoc. simpl.
    apply cut_line. now apply noNewline_In. }
  assert (OpenAI.classify Unmarshal trimUnicode (terminate line) = Terminator)
    as Hc by (unfold OpenAI.classify; now rewrite Hp).
  rewrite (OpenAI_processLoop_line _ _ _ _ _ E), OpenAI_onLine_classify, Hc.
  unfold bind. now rewrite (invoke_supplied _ _ _ _ _ Hg).
Qed.

(** With [onFinish] supplied, a [message_stop] event ends the Anthropic run
    on the spot. *)
Lemma Anthropic_message_stop_stops_reading (St : Type)
    (Unmarshal : bytes -> error + Anthropic.StreamEvent)
    (trimUnicode : bytes -> bytes)
    (c : StreamCallbacks St) (g : string -> St -> St)
    (line rest : bytes) (fm : string) (w : World St) :
  OnFinish c = Some g ->
  noNewline line = true ->
  Anthropic.classify Unmarshal trimUnicode (terminate line) = Terminator ->
  pending (wire w) = terminate line ++ rest ->
  Anthropic.processLoop Unmarshal trimUnicode (passes w) (Some c) fm w
  = (Returned tt, record (CallFinish fm) (g fm) (advance rest w)).
Proof.
  intros Hg Hnl Hp Hw.
  assert (cut nl (pending (wire w)) = Some (terminate line, rest)) as E.
  { rewrite Hw. unfold terminate. rewrite <- app_assoc. simpl.
    apply cut_line. now apply noNewline_In. }
  rewrite (Anthropic_processLoop_line _ _ _ _ _ E), Anthropic_onLine_classify, Hp.
  rewrite (supplied_Some _ _ Hg). unfold bind.
  now rewrite (invoke_supplied _ _ _ _ _ Hg).
Qed.

(** C2 fails on the Anthropic decoder when the caller supplied no
    [onFinish]: the [message_stop] event is seen, yet the loop goes on
    reading, delivers the fragment that follows it, and only at the end of
    the input runs into the nil [onFinish]. *)
Theorem C2_message_stop_without_onFinish_reads_on :
  let stop := Samples.dataLine Samples.B.stop in
  let stream := stop ++ Samples.dataLine Samples.B.late in
  let run := Samples.B.processStream Samples.ok Samples.noOnFinish
               (Samples.arriving stream EOF) in
  Anthropic.classify Samples.B.Unmarshal Samples.asciiOnly stop = Terminator
  /\ calls (snd run) = [CallContent "late"]
  /\ pending (wire (snd run)) = []
  /\ fst run = Panicked nilDereference.
Proof. repeat split; vm_compute; reflexivity. Qed.

(** C3: a stream whose events are a fragment, a payload that does not
    deserialize, and another fragment (blank and other quiet lines anywhere
    between them), ending cleanly with or without a terminator, read for a
    caller who supplied the three callbacks: [onContent], [onError] once for
    the malformed payload, [onContent], and then [onFinish] with both
    fragments. *)
Theorem C3_malformed_payload_between_fragments (St : Type)
    (UnmarshalA : bytes -> error + OpenAI.StreamEvent)
    (UnmarshalB : bytes -> error + Anthropic.StreamEvent)
    (trimUnicode : bytes -> bytes)
    (c : StreamCallbacks St) (f g : string -> St -> St) (h : error -> St -> St)
    (resp : Response) (lines : list bytes) (tail : bytes)
    (x y : string) (e : error) (closing : list Line) (w : World St) :
  OnContent c = Some f -> OnFinish c = Some g -> OnError c = Some h ->
  StatusCode resp = StatusOK ->
  forallb noNewline lines = true -> noNewline tail = true ->
  closing = [] \/ closing = [Terminator] ->
  pending (wire w) = frame lines ++ tail -> final (wire w) = EOF ->
  let err := Errorf_w "failed to parse JSON: " e in
  let log := [CallContent x; CallError err; CallContent y;
              CallFinish (x ++ y)%string] in
  (events (OpenAI.classify UnmarshalA trimUnicode) lines
   = [Fragment x; Malformed e; Fragment y] ++ closing ->
   exists w',
     OpenAI.processStream UnmarshalA trimUnicode resp (Some c) w = (Returned tt, w')
     /\ calls w' = calls w ++ log
     /\ caller w' = g (x ++ y)%string (f y (h err (f x (caller w)))))
  /\
  (events (Anthropic.classify UnmarshalB trimUnicode) lines
   = [Fragment x; Malformed e; Fragment y] ++ closing ->
   exists w',
     Anthropic.processStream UnmarshalB trimUnicode resp (Some c) w = (Returned tt, w')
     /\ calls w' = calls w ++ log
     /\ caller w' = g (x ++ y)%string (f y (h err (f x (caller w))))).
Proof.
  intros Hf Hg Hh Hok Hnl Htail Hclosing Hw Hfin err log. split; intros He.
  - rewrite (OpenAI_processStream_ok _ _ _ _ _ Hok).
    exact (OpenAI_malformed_between UnmarshalA trimUnicode c lines tail "" w
             Hf Hg Hh Hnl Htail He Hclosing Hw Hfin).
  - rewrite (Anthropic_processStream_ok _ _ _ _ _ Hok).
    exact (Anthropic_malformed_between UnmarshalB trimUnicode c lines tail "" w
             Hf Hg Hh Hnl Htail He Hclosing Hw Hfin).
Qed.

Lemma C3_witness :
  let lines := [b "data: " ++ Samples.A.hi; []; b "data: " ++ Samples.A.garbage;
                b "data: " ++ Samples.A.there; b "data: [DONE]"] in
  let err := Errorf_w "failed to parse JSON: " Samples.notJSON in
  exists w',
    Samples.A.processStream Samples.ok Samples.allCallbacks
      (Samples.arriving (frame lines ++ []) EOF) = (Returned tt, w')
    /\ calls w' = [] ++ [CallContent "Hi"; CallError err; CallContent " there";
                         CallFinish "Hi there"]
    /\ caller w' = Samples.onFinish "Hi there"
                     (Samples.onContent " there"
                        (Samples.onError err
                           (Samples.onContent "Hi" Samples.blank))).
Proof.
  refine (proj1 (C3_malformed_payload_between_fragments Samples.Transcript
                   Samples.A.Unmarshal Samples.B.Unmarshal Samples.asciiOnly
                   Samples.listener Samples.onContent Samples.onFinish
                   Samples.onError Samples.ok
                   [b "data: " ++ Samples.A.hi; []; b "data: " ++ Samples.A.garbage;
                    b "data: " ++ Samples.A.there; b "data: [DONE]"] []
                   "Hi" " there" Samples.notJSON [Terminator]
                   (Samples.arriving _ EOF)
                   eq_refl eq_refl eq_refl eq_refl eq_refl eq_refl
                   (or_intror eq_refl) eq_refl eq_refl) _).
  vm_compute. reflexivity.
Defined.

(** C4: when the read finds the source at its end with no complete line
    left, the decoder calls [onFinish] with the text accumulated so far and
    returns, with no [onError]; and for every stream whose source ends that
    way, read for a caller who supplied the callbacks, the run returns
    normally, its last call is [onFinish] carrying the fragments delivered,
    and every call before it is a fragment or the report of a payload that
    did not parse. *)
Theorem C4_end_of_input_is_completion (St : Type)
    (UnmarshalA : bytes -> error + OpenAI.StreamEvent)
    (UnmarshalB : bytes -> error + Anthropic.StreamEvent)
    (trimUnicode : bytes -> bytes)
    (c : StreamCallbacks St) (g : string -> St -> St)
    (resp : Response) (w : World St) :
  OnFinish c = Some g ->
  final (wire w) = EOF ->
  (noNewline (pending (wire w)) = true ->
   forall fm : string,
     OpenAI.processLoop UnmarshalA trimUnicode (passes w) (Some c) fm w
     = (Returned tt, record (CallFinish fm) (g fm) (advance [] w))
     /\ Anthropic.processLoop UnmarshalB trimUnicode (passes w) (Some c) fm w
        = (Returned tt, record (CallFinish fm) (g fm) (advance [] w)))
  /\
  (OnError c <> None -> StatusCode resp = StatusOK ->
   (OnContent c <> None ->
    exists before w',
      OpenAI.processStream UnmarshalA trimUnicode resp (Some c) w = (Returned tt, w')
      /\ calls w' = calls w ++ before ++ [CallFinish (join (contentsOf before))]
      /\ forallb duringStream before = true)
   /\
   (exists before w',
      Anthropic.processStream UnmarshalB trimUnicode resp (Some c) w = (Returned tt, w')
      /\ calls w' = calls w ++ before ++ [CallFinish (join (contentsOf before))]
      /\ forallb duringStream before = true)).
Proof.
  intros Hg Hfin. split.
  - intros Hnl fm. apply noNewline_cut in Hnl. split.
    + now apply OpenAI_clean_end.
    + now apply Anthropic_clean_end.
  - intros Hh Hok. destruct (OnError c) as [h|] eqn:Eh; [|congruence]. split.
    + intros Hf. destruct (OnContent c) as [f|] eqn:Ef; [|congruence].
      rewrite (OpenAI_processStream_ok _ _ _ _ _ Hok).
      exact (OpenAI_every_clean_stream UnmarshalA trimUnicode c "" w Ef Hg Eh Hfin).
    + rewrite (Anthropic_processStream_ok _ _ _ _ _ Hok).
      exact (Anthropic_every_clean_stream UnmarshalB trimUnicode c "" w Hg Eh Hfin).
Qed.

Lemma C4_witness :
  let stream := Samples.dataLine Samples.B.hi ++ Samples.dataLine Samples.B.there in
  exists before w',
    Samples.B.processStream Samples.ok Samples.allCallbacks
      (Samples.arriving stream EOF) = (Returned tt, w')
    /\ calls w' = [] ++ before ++ [CallFinish (join (contentsOf before))]
    /\ forallb duringStream before = true.
Proof.
  refine (proj2 (proj2 (C4_end_of_input_is_completion Samples.Transcript
                          Samples.A.Unmarshal Samples.B.Unmarshal Samples.asciiOnly
                          Samples.listener Samples.onFinish Samples.ok
                          (Samples.arriving _ EOF) eq_refl eq_refl) _ eq_refl)).
  discriminate.
Defined.

(** C5 fails: [processStream] calls [cb.OnFinish] and [cb.OnError] with no
    nil check, so a caller who left one of them out (or passed a nil [cb])
    has a nil-dereference panic come out of [StreamChat]: at the end of the
    input, on a non-success status, on a read failure, on a payload that
    does not parse.  Both clients behave alike. *)
Theorem C5_panic_crosses_the_call_boundary :
  let garbage := Samples.dataLine (b "not-a-json") in
  let boom := errorString "boom" in
  (fst (Samples.A.StreamChat 200 Samples.noOnFinish (Samples.arriving [] EOF))
   = Panicked nilDereference
   /\ fst (Samples.A.StreamChat 500 Samples.noOnError (Samples.arriving (b "oops") EOF))
      = Panicked nilDereference
   /\ fst (Samples.A.StreamChat 200 Samples.noOnError (Samples.arriving [] boom))
      = Panicked nilDereference
   /\ fst (Samples.A.StreamChat 200 Samples.noOnError (Samples.arriving garbage EOF))
      = Panicked nilDereference
   /\ fst (Samples.A.StreamChat 200 None (Samples.arriving [] EOF))
      = Panicked nilDereference)
  /\
  (fst (Samples.B.StreamChat 200 Samples.noOnFinish (Samples.arriving [] EOF))
   = Panicked nilDereference
   /\ fst (Samples.B.StreamChat 500 Samples.noOnError (Samples.arriving (b "oops") EOF))
      = Panicked nilDereference
   /\ fst (Samples.B.StreamChat 200 Samples.noOnError (Samples.arriving [] boom))
      = Panicked nilDereference
   /\ fst (Samples.B.StreamChat 200 Samples.noOnError (Samples.arriving garbage EOF))
      = Panicked nilDereference
   /\ fst (Samples.B.StreamChat 200 None (Samples.arriving [] EOF))
      = Panicked nilDereference).
Proof. repeat split; vm_compute; reflexivity. Qed.

(** C6 fails on the Anthropic decoder: the append to the accumulator sits
    inside the [cb.OnContent != nil] guard, so for a caller without
    [onContent] the fragment ["Hi"] is never accumulated and [onFinish]
    receives the empty string.  The OpenAI decoder, on the same exchange,
    hands ["Hi"] to [onFinish]. *)
Theorem C6_anthropic_accumulates_only_with_onContent :
  let hi := Samples.dataLine Samples.B.hi in
  let run := Samples.B.processStream Samples.ok Samples.noOnContent
               (Samples.arriving (hi ++ Samples.dataLine Samples.B.stop) EOF) in
  let sibling := Samples.A.processStream Samples.ok Samples.noOnContent
                   (Samples.arriving (Samples.dataLine Samples.A.hi
                                      ++ Samples.dataLine Samples.A.done) EOF) in
  Anthropic.classify Samples.B.Unmarshal Samples.asciiOnly hi = Fragment "Hi"
  /\ fst run = Returned tt
  /\ calls (snd run) = [CallFinish ""]
  /\ calls (snd sibling) = [CallFinish "Hi"].
Proof. repeat split; vm_compute; reflexivity. Qed.

(** C7: with an empty API key, [StreamChat] of either client invokes the
    caller's [onError] once, with "invalid apiKey", and returns: nothing is
    handed to the transport, the body is not touched, and no other callback
    is invoked. *)
Theorem C7_empty_credential (St : Type)
    (UnmarshalA : bytes -> error + OpenAI.StreamEvent)
    (UnmarshalB : bytes -> error + Anthropic.StreamEvent)
    (trimUnicode : bytes -> bytes)
    (MarshalA : OpenAI.RequestBody -> error + bytes)
    (MarshalB : Anthropic.RequestBody -> error + bytes)
    (Context_ : Type)
    (NewRequestWithContext : Context_ -> string -> string -> bytes -> error + Request)
    (transport : Request -> error + Response)
    (sA : OpenAI.OpenAIStreamer) (sB : Anthropic.AnthropicStreamer)
    (ctx : Context_) (messages : list Message)
    (c : StreamCallbacks St) (h : error -> St -> St) (w : World St) :
  OpenAI.ApiKey sA = ""%string -> Anthropic.ApiKey sB = ""%string ->
  OnError c = Some h ->
  let err := errorString "invalid apiKey" in
  (exists w',
     OpenAI.StreamChat UnmarshalA trimUnicode MarshalA NewRequestWithContext
       transport sA ctx messages (Some c) w = (Returned tt, w')
     /\ calls w' = calls w ++ [CallError err]
     /\ caller w' = h err (caller w)
     /\ sent w' = sent w /\ wire w' = wire w)
  /\
  (exists w',
     Anthropic.StreamChat UnmarshalB trimUnicode MarshalB NewRequestWithContext
       transport sB ctx messages (Some c) w = (Returned tt, w')
     /\ calls w' = calls w ++ [CallError err]
     /\ caller w' = h err (caller w)
     /\ sent w' = sent w /\ wire w' = wire w).
Proof.
  intros HA HB Hh err. split.
  - unfold OpenAI.StreamChat. rewrite HA, String.eqb_refl.
    rewrite (supplied_Some _ _ Hh), (invoke_supplied _ _ _ _ _ Hh).
    eexists. split; [reflexivity|]. simpl. auto.
  - unfold Anthropic.StreamChat. rewrite HB, String.eqb_refl.
    rewrite (supplied_Some _ _ Hh), (invoke_supplied _ _ _ _ _ Hh).
    eexists. split; [reflexivity|]. simpl. auto.
Qed.

Lemma C7_witness :
  exists w',
    OpenAI.StreamChat Samples.A.Unmarshal Samples.asciiOnly Samples.Marshal
      Samples.NewRequestWithContext (Samples.answering 200)
      (OpenAI.New "" OpenAI.ModelGPT4o) tt [] Samples.allCallbacks
      (Samples.arriving (Samples.dataLine Samples.A.hi) EOF) = (Returned tt, w')
    /\ calls w' = [] ++ [CallError (errorString "invalid apiKey")]
    /\ caller w' = Samples.onError (errorString "invalid apiKey") Samples.blank
    /\ sent w' = [] /\ wire w' = {| pending := Samples.dataLine Samples.A.hi;
                                    final := EOF |}.
Proof.
  exact (proj1 (C7_empty_credential Samples.Transcript
                  Samples.A.Unmarshal Samples.B.Unmarshal Samples.asciiOnly
                  Samples.Marshal Samples.Marshal unit
                  Samples.NewRequestWithContext (Samples.answering 200)
                  (OpenAI.New "" OpenAI.ModelGPT4o)
                  (Anthropic.New "" Anthropic.ModelClaude3Opus) tt []
                  Samples.listener Samples.onError
                  (Samples.arriving (Samples.dataLine Samples.A.hi) EOF)
                  eq_refl eq_refl eq_refl)).
Defined.

(** C8: on a status other than 200, [processStream] of either client reads
    the body to its end and invokes [onError] once, then returns: with the
    status code and the whole body when the body could be read, with the
    status code and the read error when it could not.  Neither is the report
    of a parse failure, no line is decoded, and no other callback is
    invoked. *)
Theorem C8_non_success_status (St : Type)
    (UnmarshalA : bytes -> error + OpenAI.StreamEvent)
    (UnmarshalB : bytes -> error + Anthropic.StreamEvent)
    (trimUnicode : bytes -> bytes)
    (resp : Response) (c : StreamCallbacks St) (h : error -> St -> St)
    (w : World St) :
  StatusCode resp <> StatusOK ->
  OnError c = Some h ->
  let code := itoa (StatusCode resp) in
  let err :=
    if isEOF (final (wire w))
    then errorString ("non-200: " ++ code ++ ", body: "
                      ++ string_of_bytes (pending (wire w)))%string
    else wrapError ("non-200: " ++ code ++ ", read body failed: "
                    ++ Error (final (wire w)))%string (final (wire w)) in
  let after := record (CallError err) (h err) (advance [] w) in
  OpenAI.processStream UnmarshalA trimUnicode resp (Some c) w = (Returned tt, after)
  /\ Anthropic.processStream UnmarshalB trimUnicode resp (Some c) w = (Returned tt, after)
  /\ calls after = calls w ++ [CallError err]
  /\ duringStream (CallError err) = false.
Proof.
  intros Hcode Hh code err after.
  assert (negb (StatusCode resp =? StatusOK)%Z = true) as E.
  { apply negb_true_iff. now apply Z.eqb_neq. }
  unfold OpenAI.processStream, Anthropic.processStream. rewrite E.
  unfold bind, ReadAll. subst after err code.
  destruct (isEOF (final (wire w))); rewrite (invoke_supplied _ _ _ _ _ Hh);
    repeat split; reflexivity.
Qed.

Lemma C8_witness :
  let w := Samples.arriving (b "bad request") EOF in
  let err := errorString "non-200: 400, body: bad request" in
  Samples.A.processStream {| StatusCode := 400 |} Samples.allCallbacks w
  = (Returned tt, record (CallError err) (Samples.onError err) (advance [] w))
  /\ Samples.B.processStream {| StatusCode := 400 |} Samples.allCallbacks w
     = (Returned tt, record (CallError err) (Samples.onError err) (advance [] w))
  /\ calls (record (CallError err) (Samples.onError err) (advance [] w))
     = [] ++ [CallError err]
  /\ duringStream (CallError err) = false.
Proof.
  refine (C8_non_success_status Samples.Transcript
            Samples.A.Unmarshal Samples.B.Unmarshal Samples.asciiOnly
            {| StatusCode := 400 |} Samples.listener Samples.onError
            (Samples.arriving (b "bad request") EOF) _ eq_refl).
  vm_compute. discriminate.
Defined.

(** C9: bytes that follow the last newline of the body are read and
    dropped.  A body of newline-terminated lines followed by an
    unterminated one gives the caller the very run that the body without
    that last line gives: same outcome, same callbacks with the same
    arguments, same caller state; for any callbacks, either client, and
    however the source ends. *)
Theorem C9_unterminated_last_line_is_discarded (St : Type)
    (UnmarshalA : bytes -> error + OpenAI.StreamEvent)
    (UnmarshalB : bytes -> error + Anthropic.StreamEvent)
    (trimUnicode : bytes -> bytes)
    (resp : Response) (cb : option (StreamCallbacks St))
    (lines : list bytes) (tail : bytes) (w1 w2 : World St) :
  StatusCode resp = StatusOK ->
  forallb noNewline lines = true ->
  noNewline tail = true ->
  pending (wire w1) = frame lines ++ tail ->
  pending (wire w2) = frame lines ->
  final (wire w1) = final (wire w2) ->
  caller w1 = caller w2 -> calls w1 = calls w2 ->
  observable (OpenAI.processStream UnmarshalA trimUnicode resp cb w1)
  = observable (OpenAI.processStream UnmarshalA trimUnicode resp cb w2)
  /\
  observable (Anthropic.processStream UnmarshalB trimUnicode resp cb w1)
  = observable (Anthropic.processStream UnmarshalB trimUnicode resp cb w2).
Proof.
  intros Hok Hnl Htail H1 H2 Hfin Hc Hl. split.
  - rewrite !(OpenAI_processStream_ok _ _ _ _ _ Hok).
    now apply (OpenAI_tail_discarded UnmarshalA trimUnicode cb tail Htail lines).
  - rewrite !(Anthropic_processStream_ok _ _ _ _ _ Hok).
    now apply (Anthropic_tail_discarded UnmarshalB trimUnicode cb tail Htail lines).
Qed.

Lemma C9_witness :
  let lines := [b "data: " ++ Samples.A.hi] in
  let tail := b "data: " ++ Samples.A.there in
  observable (Samples.A.processStream Samples.ok Samples.allCallbacks
                (Samples.arriving (frame lines ++ tail) EOF))
  = observable (Samples.A.processStream Samples.ok Samples.allCallbacks
                  (Samples.arriving (frame lines) EOF))
  /\ observable (Samples.A.processStream Samples.ok Samples.allCallbacks
                   (Samples.arriving (frame lines ++ tail) EOF))
     = (Returned tt,
        {| Samples.contents := ["Hi"%string]; Samples.finals := ["Hi"%string];
           Samples.errors := [] |},
        [CallContent "Hi"; CallFinish "Hi"]).
Proof.
  split.
  - exact (proj1 (C9_unterminated_last_line_is_discarded Samples.Transcript
                    Samples.A.Unmarshal Samples.B.Unmarshal Samples.asciiOnly
                    Samples.ok Samples.allCallbacks
                    [b "data: " ++ Samples.A.hi] (b "data: " ++ Samples.A.there)
                    (Samples.arriving _ EOF) (Samples.arriving _ EOF)
                    eq_refl eq_refl eq_refl eq_refl eq_refl eq_refl eq_refl
                    eq_refl)).
  - vm_compute. reflexivity.
Defined.

(** C10: of an event with several choices the OpenAI decoder uses the first
    one only.  The pass over such a line adds the first choice's content,
    and nothing else, to the accumulator and delivers that content, and
    nothing else, to [onContent]; and a whole run is unchanged when every
    event is cut down to its first choice. *)
Theorem C10_only_the_first_choice (St : Type)
    (Unmarshal : bytes -> error + OpenAI.StreamEvent)
    (trimUnicode : bytes -> bytes)
    (cb : option (StreamCallbacks St)) (resp : Response)
    (raw data : bytes) (ev : OpenAI.StreamEvent)
    (first second : OpenAI.Choice) (more : list OpenAI.Choice)
    (fm : string) (w : World St) :
  payload trimUnicode raw = Some data ->
  Equal data (b "[DONE]") = false ->
  Unmarshal data = inr ev ->
  OpenAI.Choices ev = first :: second :: more ->
  let content := OpenAI.Content (OpenAI.ChoiceDelta first) in
  let run := OpenAI.onLine Unmarshal trimUnicode cb fm raw w in
  fst run = Returned (Next (fm ++ content)%string)
  /\ calls (snd run)
     = calls w ++ (if negb (content =? "")%string && supplied OnContent cb
                   then [CallContent content] else [])
  /\ OpenAI.processStream Unmarshal trimUnicode resp cb w
     = OpenAI.processStream (OpenAI.UnmarshalFirstChoiceOnly Unmarshal)
         trimUnicode resp cb w.
Proof.
  intros Hp Hdone Hev Hch content run.
  assert (OpenAI.classify Unmarshal trimUnicode raw
          = if (content =? "")%string then Silent else Fragment content) as Hc.
  { unfold OpenAI.classify. now rewrite Hp, Hdone, Hev, Hch. }
  split; [|split].
  - subst run. rewrite OpenAI_onLine_classify, Hc.
    destruct (content =? "")%string eqn:E.
    + apply String.eqb_eq in E. rewrite E, append_empty_r. reflexivity.
    + slots cb; plumbing; reflexivity.
  - subst run. rewrite OpenAI_onLine_classify, Hc.
    destruct (content =? "")%string eqn:E.
    + simpl. now rewrite app_nil_r.
    + slots cb; plumbing; now rewrite ?app_nil_r.
  - unfold OpenAI.processStream.
    destruct (negb (StatusCode resp =? StatusOK)%Z); [reflexivity|].
    apply OpenAI_processLoop_firstChoice.
Qed.

Lemma C10_witness :
  let raw := Samples.dataLine Samples.A.twoChoices in
  let w := Samples.arriving [] EOF in
  let run := OpenAI.onLine Samples.A.Unmarshal Samples.asciiOnly
               Samples.allCallbacks "" raw w in
  fst run = Returned (Next "A")
  /\ calls (snd run) = [] ++ [CallContent "A"]
  /\ Samples.A.processStream Samples.ok Samples.allCallbacks w
     = OpenAI.processStream (OpenAI.UnmarshalFirstChoiceOnly Samples.A.Unmarshal)
         Samples.asciiOnly Samples.ok Samples.allCallbacks w.
Proof.
  exact (C10_only_the_first_choice Samples.Transcript
           Samples.A.Unmarshal Samples.asciiOnly Samples.allCallbacks Samples.ok
           (Samples.dataLine Samples.A.twoChoices) Samples.A.twoChoices
           (Samples.A.event ["A"%string; "B"%string])
           (Samples.A.choice "A") (Samples.A.choice "B") []
           "" (Samples.arriving [] EOF)
           eq_refl eq_refl eq_refl eq_refl).
Defined.

(** * Whole runs of the decoders *)

Lemma newlines_app (x y : bytes) : newlines (x ++ y) = newlines x + newlines y.
Proof. unfold newlines. now rewrite filter_app, length_app. Qed.

Lemma replay_app (St : Type) (cb : option (StreamCallbacks St))
    (xs ys : list Call) (s : St) :
  replay cb (xs ++ ys) s = replay cb ys (replay cb xs s).
Proof. destruct cb as [c|]; [apply fold_left_app | reflexivity]. Qed.

Lemma replay_nil (St : Type) (cb : option (StreamCallbacks St)) (s : St) :
  replay cb [] s = s.
Proof. now destruct cb. Qed.

Section RunFacts.

Context {St : Type}.
Variable body : string -> Exec St Flow.
Variable always : bool.
Variable cb : option (StreamCallbacks St).

Hypothesis progress : forall fm w fm' w',
  body fm w = (Returned (Next fm'), w') ->
  len (pending (wire w')) < len (pending (wire w)).
Hypothesis body_ends : forall fm w w', body fm w <> (OutOfFuel, w').
Hypothesis pass : forall fm w, passSpec always cb fm w (body fm w).

(** Passes that each keep to [passSpec] add up to a run that keeps to
    [runSpec]. *)
Lemma forLoop_runSpec (fm0 : string) (w0 : World St) :
  runSpec always cb fm0 w0 (forLoop (passes w0) body fm0 w0).
Proof.
  pose (Inv := fun (fm : string) (w : World St) =>
    final (wire w) = final (wire w0) /\ sent w = sent w0 /\ closed w = closed w0
    /\ exists (consumed : bytes) (before : list Call),
         pending (wire w0) = consumed ++ pending (wire w)
         /\ calls w = calls w0 ++ before
         /\ caller w = replay cb before (caller w0)
         /\ List.length before <= newlines consumed
         /\ forallb duringStream before = true
         /\ forallb substantial before = true
         /\ (always || supplied OnContent cb = true ->
             fm = (fm0 ++ join (contentsOf before))%string)).
  pose (Post := fun (r : Result unit) (w' : World St) =>
    runSpec always cb fm0 w0 (r, w')).
  assert (Post (fst (forLoop (passes w0) body fm0 w0))
               (snd (forLoop (passes w0) body fm0 w0))) as HP.
  { apply (forLoop_rule body progress body_ends Inv Post).
    - intros fm w (Hfin & Hsent & Hclosed & consumed & before
                   & Hpend & Hcalls & Hcaller & Hlen & Hdur & Hsub & Hfm).
      specialize (pass fm w). unfold passSpec in pass.
      destruct (body fm w) as [r w1]. simpl in pass.
      destruct pass as (Pfin & Psent & Pclosed & line & emitted
                        & Ppend & Pcalls & Pcaller & Plen & Pcase).
      destruct r as [[fm'|]|reason|]; [| | |exact I].
      + destruct Pcase as (Pnl & Pdur & Psub & Pfm).
        repeat split; try congruence.
        exists (consumed ++ line), (before ++ emitted).
        rewrite newlines_app, length_app, replay_app, !forallb_app,
                contentsOf_app, join_app, Hdur, Hsub, Pdur, Psub.
        repeat split; auto.
        * rewrite Hpend, Ppend. now rewrite app_assoc.
        * rewrite Pcalls, Hcalls. now rewrite app_assoc.
        * rewrite Pcaller, Hcaller. reflexivity.
        * lia.
        * intros Hc. rewrite (Pfm Hc), (Hfm Hc). now rewrite append_assoc.
      + destruct Pcase as (t & -> & Pterm & Pfinish).
        unfold Post, runSpec. simpl. repeat split; try congruence.
        exists (consumed ++ line), before, [t].
        rewrite newlines_app, replay_app.
        repeat split; auto.
        * rewrite Hpend, Ppend. now rewrite app_assoc.
        * rewrite Pcalls, Hcalls. now rewrite app_assoc.
        * rewrite Pcaller, Hcaller. reflexivity.
        * lia.
        * exists t. repeat split; auto.
          intros Hc s Hs. rewrite (Pfinish s Hs). now apply Hfm.
      + subst emitted.
        unfold Post, runSpec. simpl. repeat split; try congruence.
        exists (consumed ++ line), before, [].
        rewrite newlines_app, app_nil_r.
        repeat split; auto.
        * rewrite Hpend, Ppend. now rewrite app_assoc.
        * rewrite Pcalls, Hcalls. now rewrite app_nil_r.
        * rewrite Pcaller, Hcaller. now rewrite replay_nil.
        * lia.
    - repeat split. exists [], []. simpl.
      rewrite app_nil_r, append_empty_r, replay_nil. repeat split; auto.
    - unfold passes. lia. }
  unfold Post in HP. unfold runSpec in *. simpl in HP. exact HP.
Qed.

End RunFacts.

Lemma cut_newlines (s line rest : bytes) :
  cut nl s = Some (line, rest) -> newlines line = 1.
Proof.
  revert line rest. induction s as [|c s IH]; intros line rest; simpl.
  - discriminate.
  - destruct (Byte.eqb c nl) eqn:E.
    + intros H. injection H as <- <-. unfold newlines. simpl. now rewrite E.
    + destruct (cut nl s) as [[l r]|]; [|discriminate].
      intros H. injection H as <- <-. unfold newlines. simpl. rewrite E.
      exact (IH l r eq_refl).
Qed.

Lemma OpenAI_fragment_substantial
    (Unmarshal : bytes -> error + OpenAI.StreamEvent)
    (trimUnicode : bytes -> bytes) (raw : bytes) (text : string) :
  OpenAI.classify Unmarshal trimUnicode raw = Fragment text ->
  (text =? "")%string = false.
Proof.
  unfold OpenAI.classify. destruct (payload trimUnicode raw); [|discriminate].
  destruct (Equal _ _); [discriminate|].
  destruct (Unmarshal _) as [err|ev]; [discriminate|].
  destruct (OpenAI.Choices ev) as [|first rest]; [discriminate|].
  destruct (OpenAI.Content (OpenAI.ChoiceDelta first) =? "")%string eqn:E;
    [discriminate|].
  intros H. injection H as <-. exact E.
Qed.

Lemma Anthropic_fragment_substantial
    (Unmarshal : bytes -> error + Anthropic.StreamEvent)
    (trimUnicode : bytes -> bytes) (raw : bytes) (text : string) :
  Anthropic.classify Unmarshal trimUnicode raw = Fragment text ->
  (text =? "")%string = false.
Proof.
  unfold Anthropic.classify. destruct (payload trimUnicode raw); [|discriminate].
  destruct (Unmarshal _) as [err|ev]; [discriminate|].
  destruct (Anthropic.EventType ev =? Anthropic.Delta)%string.
  - destruct (Anthropic.EventDelta ev) as [delta|]; [|discriminate].
    destruct (Anthropic.Text delta =? "")%string eqn:E; [discriminate|].
    intros H. injection H as <-. exact E.
  - destruct (Anthropic.EventType ev =? Anthropic.Finish)%string; discriminate.
Qed.

(** Closes one case of a pass: the bytes read and the calls made. *)
Ltac pass_case line emitted :=
  solve [ exists line, emitted; simpl;
          rewrite ?app_nil_r, ?append_empty_r, ?String.eqb_refl;
          try match goal with
              | H : (_ =? "")%string = false |- _ => rewrite H
              end;
          repeat split; auto; try (intros; discriminate);
          try (eexists; repeat split; simpl; rewrite ?String.eqb_refl;
               try reflexivity; try (intros ? [=]; congruence)) ].

Section PassFacts.

Context {St : Type}.
Variable UnmarshalA : bytes -> error + OpenAI.StreamEvent.
Variable UnmarshalB : bytes -> error + Anthropic.StreamEvent.
Variable trimUnicode : bytes -> bytes.

(** Every pass of the OpenAI loop keeps to [passSpec]. *)
Lemma OpenAI_pass (cb : option (StreamCallbacks St)) (fm : string)
    (w : World St) :
  passSpec false cb fm w (OpenAI.iteration UnmarshalA trimUnicode cb fm w).
Proof.
  unfold passSpec.
  destruct (cut nl (pending (wire w))) as [[raw rest]|] eqn:E.
  - rewrite (OpenAI_iteration_line _ _ _ _ _ E), OpenAI_onLine_classify.
    pose proof (cut_newlines _ _ _ E) as Hnl.
    apply cut_split in E as [Hs _].
    destruct (OpenAI.classify UnmarshalA trimUnicode raw) as [| |err|text|] eqn:Ec.
    + slots cb; plumbing; repeat split; pass_case raw (@nil Call).
    + slots cb; plumbing; repeat split;
        try pass_case raw (@nil Call);
        pass_case raw [CallFinish fm].
    + slots cb; plumbing; repeat split;
        try pass_case raw (@nil Call);
        pass_case raw [CallError (Errorf_w "failed to parse JSON: " err)].
    + pose proof (OpenAI_fragment_substantial _ _ _ _ Ec) as Hne.
      slots cb; plumbing; repeat split;
        try pass_case raw (@nil Call);
        pass_case raw [CallContent text].
    + slots cb; plumbing; repeat split; pass_case raw (@nil Call).
  - rewrite (OpenAI_iteration_end _ _ _ _ _ E).
    destruct (isEOF (final (wire w))).
    + slots cb; plumbing; repeat split;
        try pass_case (pending (wire w)) (@nil Call);
        pass_case (pending (wire w)) [CallFinish fm].
    + slots cb; plumbing; repeat split;
        try pass_case (pending (wire w)) (@nil Call);
        pass_case (pending (wire w)) [CallError (Errorf_w "read failed: " (final (wire w)))].
Qed.

(** Every pass of the Anthropic loop keeps to [passSpec], and its
    accumulator follows the fragments delivered whatever the callbacks. *)
Lemma Anthropic_pass (cb : option (StreamCallbacks St)) (fm : string)
    (w : World St) :
  passSpec true cb fm w (Anthropic.iteration UnmarshalB trimUnicode cb fm w).
Proof.
  unfold passSpec.
  destruct (cut nl (pending (wire w))) as [[raw rest]|] eqn:E.
  - rewrite (Anthropic_iteration_line _ _ _ _ _ E), Anthropic_onLine_classify.
    pose proof (cut_newlines _ _ _ E) as Hnl.
    apply cut_split in E as [Hs _].
    destruct (Anthropic.classify UnmarshalB trimUnicode raw)
      as [| |err|text|] eqn:Ec.
    + slots cb; plumbing; repeat split; pass_case raw (@nil Call).
    + slots cb; plumbing; repeat split;
        try pass_case raw (@nil Call);
        pass_case raw [CallFinish fm].
    + slots cb; plumbing; repeat split;
        try pass_case raw (@nil Call);
        pass_case raw [CallError (Errorf_w "failed to parse JSON: " err)].
    + pose proof (Anthropic_fragment_substantial _ _ _ _ Ec) as Hne.
      slots cb; plumbing; repeat split;
        try pass_case raw (@nil Call);
        pass_case raw [CallContent text].
    + slots cb; plumbing; repeat split; pass_case raw (@nil Call).
  - rewrite (Anthropic_iteration_end _ _ _ _ _ E).
    destruct (isEOF (final (wire w))).
    + slots cb; plumbing; repeat split;
        try pass_case (pending (wire w)) (@nil Call);
        pass_case (pending (wire w)) [CallFinish fm].
    + slots cb; plumbing; repeat split;
        try pass_case (pending (wire w)) (@nil Call);
        pass_case (pending (wire w))
          [CallError (Errorf_w "read failed: " (final (wire w)))].
Qed.

(** A whole run of either loop keeps to [runSpec]. *)
Lemma OpenAI_run (cb : option (StreamCallbacks St)) (fm0 : string)
    (w0 : World St) :
  runSpec false cb fm0 w0
    (OpenAI.processLoop UnmarshalA trimUnicode (passes w0) cb fm0 w0).
Proof.
  unfold OpenAI.processLoop.
  apply (forLoop_runSpec _ false cb
           (OpenAI_iteration_progress UnmarshalA trimUnicode cb)
           (OpenAI_iteration_ends UnmarshalA trimUnicode cb)
           (OpenAI_pass cb)).
Qed.

Lemma Anthropic_run (cb : option (StreamCallbacks St)) (fm0 : string)
    (w0 : World St) :
  runSpec true cb fm0 w0
    (Anthropic.processLoop UnmarshalB trimUnicode (passes w0) cb fm0 w0).
Proof.
  unfold Anthropic.processLoop.
  apply (forLoop_runSpec _ true cb
           (Anthropic_iteration_progress UnmarshalB trimUnicode cb)
           (Anthropic_iteration_ends UnmarshalB trimUnicode cb)
           (Anthropic_pass cb)).
Qed.

End PassFacts.

Lemma terminal_substantial (t : Call) : isTerminal t = true -> substantial t = true.
Proof. destruct t; simpl; [discriminate | reflexivity | reflexivity]. Qed.

Lemma terminal_not_during (t : Call) : isTerminal t = true -> duringStream t = false.
Proof.
  destruct t as [s|s|e]; simpl; [discriminate | reflexivity |].
  destruct e as [|text|msg cause]; try reflexivity.
  intros H. apply String.eqb_eq in H. subst msg. reflexivity.
Qed.

Lemma newlines_le_app (x y : bytes) : newlines x <= newlines (x ++ y).
Proof. rewrite newlines_app. lia. Qed.

Section StreamFacts.

Context {St : Type}.
Variable UnmarshalA : bytes -> error + OpenAI.StreamEvent.
Variable UnmarshalB : bytes -> error + Anthropic.StreamEvent.
Variable trimUnicode : bytes -> bytes.

Lemma runSpec_streamLog (always : bool) (cb : option (StreamCallbacks St))
    (fm0 : string) (w : World St) (run : Result unit * World St) :
  runSpec always cb fm0 w run -> streamLog cb w run.
Proof.
  unfold runSpec, streamLog.
  intros (Hfin & Hsent & Hclosed & consumed & before & last
          & Hpend & Hcalls & Hcaller & Hlen & Hdur & Hsub & Hcase).
  repeat split; auto.
  exists consumed, (before ++ last).
  rewrite length_app, forallb_app, Hsub.
  destruct (fst run) as [[]|reason|].
  - destruct Hcase as (t & -> & Hterm & _). simpl.
    rewrite (terminal_substantial _ Hterm). repeat split; auto. lia.
  - subst last. simpl. repeat split; auto. lia.
  - contradiction.
Qed.

Lemma processStream_streamLog (resp : Response)
    (cb : option (StreamCallbacks St)) (w : World St) :
  streamLog cb w (OpenAI.processStream UnmarshalA trimUnicode resp cb w)
  /\ streamLog cb w (Anthropic.processStream UnmarshalB trimUnicode resp cb w).
Proof.
  unfold OpenAI.processStream, Anthropic.processStream.
  destruct (negb (StatusCode resp =? StatusOK)%Z).
  - unfold streamLog, bind, ReadAll.
    destruct (isEOF (final (wire w))); slots cb; plumbing; repeat split;
      first [ solve [exists (pending (wire w)), (@nil Call); simpl;
                     rewrite ?app_nil_r; repeat split; auto; lia]
            | solve [eexists (pending (wire w)), [_]; simpl;
                     rewrite ?app_nil_r; repeat split; auto; lia] ].
  - split.
    + exact (runSpec_streamLog _ _ _ _ _ (OpenAI_run UnmarshalA trimUnicode cb "" w)).
    + exact (runSpec_streamLog _ _ _ _ _ (Anthropic_run UnmarshalB trimUnicode cb "" w)).
Qed.

End StreamFacts.

(** * The callback protocol of processStream *)

(** On a 200 response, whatever the body and whatever callbacks are there:
    every call but the last is an [onContent] or the report of a payload
    that did not parse; a run that returns has made exactly one more call,
    [onFinish] or the report of a failed read, and made it last; a run that
    panics has made no such call. *)
Theorem processStream_callback_order (St : Type)
    (UnmarshalA : bytes -> error + OpenAI.StreamEvent)
    (UnmarshalB : bytes -> error + Anthropic.StreamEvent)
    (trimUnicode : bytes -> bytes)
    (resp : Response) (cb : option (StreamCallbacks St)) (w : World St) :
  StatusCode resp = StatusOK ->
  let ordered (run : Result unit * World St) :=
    exists before last,
      calls (snd run) = calls w ++ before ++ last
      /\ forallb duringStream before = true
      /\ match fst run with
         | Returned _ => exists t, last = [t] /\ isTerminal t = true
         | Panicked _ => last = []
         | OutOfFuel => False
         end in
  ordered (OpenAI.processStream UnmarshalA trimUnicode resp cb w)
  /\ ordered (Anthropic.processStream UnmarshalB trimUnicode resp cb w).
Proof.
  intros Hok ordered.
  rewrite (OpenAI_processStream_ok _ _ _ _ _ Hok),
          (Anthropic_processStream_ok _ _ _ _ _ Hok).
  split.
  - destruct (OpenAI_run UnmarshalA trimUnicode cb "" w)
      as (_ & _ & _ & consumed & before & last & _ & Hcalls & _ & _ & Hdur & _ & Hcase).
    exists before, last. repeat split; auto.
    destruct (fst _) as [[]|reason|]; auto.
    destruct Hcase as (t & Hl & Ht & _). eauto.
  - destruct (Anthropic_run UnmarshalB trimUnicode cb "" w)
      as (_ & _ & _ & consumed & before & last & _ & Hcalls & _ & _ & Hdur & _ & Hcase).
    exists before, last. repeat split; auto.
    destruct (fst _) as [[]|reason|]; auto.
    destruct Hcase as (t & Hl & Ht & _). eauto.
Qed.

Lemma processStream_callback_order_witness :
  let w := Samples.arriving (Samples.dataLine Samples.A.hi
                             ++ Samples.dataLine Samples.A.garbage)
             (errorString "connection reset") in
  let ordered (run : Result unit * World Samples.Transcript) :=
    exists before last,
      calls (snd run) = calls w ++ before ++ last
      /\ forallb duringStream before = true
      /\ match fst run with
         | Returned _ => exists t, last = [t] /\ isTerminal t = true
         | Panicked _ => last = []
         | OutOfFuel => False
         end in
  ordered (Samples.A.processStream Samples.ok Samples.allCallbacks w)
  /\ ordered (Anthropic.processStream Samples.B.Unmarshal Samples.asciiOnly
                Samples.ok Samples.allCallbacks w).
Proof.
  exact (processStream_callback_order Samples.Transcript
           Samples.A.Unmarshal Samples.B.Unmarshal Samples.asciiOnly
           Samples.ok Samples.allCallbacks
           (Samples.arriving (Samples.dataLine Samples.A.hi
                              ++ Samples.dataLine Samples.A.garbage)
              (errorString "connection reset"))
           eq_refl).
Defined.

(** On a 200 response, whatever the body and however the source ends: an
    [onFinish] carries exactly the fragments that [onContent] was given
    before it, concatenated.  The Anthropic decoder keeps to this for any
    callbacks; the OpenAI decoder when [onContent] was supplied. *)
Theorem processStream_finish_carries_what_was_delivered (St : Type)
    (UnmarshalA : bytes -> error + OpenAI.StreamEvent)
    (UnmarshalB : bytes -> error + Anthropic.StreamEvent)
    (trimUnicode : bytes -> bytes)
    (resp : Response) (cb : option (StreamCallbacks St)) (w : World St) :
  StatusCode resp = StatusOK ->
  (supplied OnContent cb = true ->
   exists log,
     calls (snd (OpenAI.processStream UnmarshalA trimUnicode resp cb w))
     = calls w ++ log
     /\ finishIsConcatenation log)
  /\
  (exists log,
     calls (snd (Anthropic.processStream UnmarshalB trimUnicode resp cb w))
     = calls w ++ log
     /\ finishIsConcatenation log).
Proof.
  intros Hok.
  rewrite (OpenAI_processStream_ok _ _ _ _ _ Hok),
          (Anthropic_processStream_ok _ _ _ _ _ Hok).
  assert (forall always (run : Result unit * World St),
            runSpec always cb "" w run ->
            always || supplied OnContent cb = true ->
            exists log, calls (snd run) = calls w ++ log
                        /\ finishIsConcatenation log) as Hgen.
  { intros always run
           (_ & _ & _ & consumed & before & last & _ & Hcalls & _ & _
            & Hdur & _ & Hcase) Hc.
    exists (before ++ last). split; [exact Hcalls|].
    intros before' s Hlog.
    destruct (fst run) as [[]|reason|].
    - destruct Hcase as (t & -> & _ & Hfin).
      apply app_inj_tail in Hlog as [<- ->]. exact (Hfin Hc s eq_refl).
    - subst last. rewrite app_nil_r in Hlog. subst before.
      rewrite forallb_app in Hdur. simpl in Hdur.
      rewrite andb_false_r in Hdur. discriminate.
    - contradiction. }
  split.
  - intros Hc. apply (Hgen false _ (OpenAI_run UnmarshalA trimUnicode cb "" w)).
    exact Hc.
  - apply (Hgen true _ (Anthropic_run UnmarshalB trimUnicode cb "" w)).
    reflexivity.
Qed.

Lemma processStream_finish_carries_what_was_delivered_witness :
  let w := Samples.arriving (Samples.dataLine Samples.B.hi
                             ++ Samples.dataLine Samples.B.garbage
                             ++ Samples.dataLine Samples.B.there) EOF in
  exists log,
    calls (snd (Samples.B.processStream Samples.ok Samples.noOnContent w))
    = calls w ++ log
    /\ finishIsConcatenation log.
Proof.
  exact (proj2 (processStream_finish_carries_what_was_delivered
                  Samples.Transcript
                  Samples.A.Unmarshal Samples.B.Unmarshal Samples.asciiOnly
                  Samples.ok Samples.noOnContent
                  (Samples.arriving (Samples.dataLine Samples.B.hi
                                     ++ Samples.dataLine Samples.B.garbage
                                     ++ Samples.dataLine Samples.B.there) EOF)
                  eq_refl)).
Defined.

(** [processStream] never hands [onContent] the empty string: on any
    status, body and callbacks, every [onContent] of the run has a non-empty
    argument. *)
Theorem processStream_never_delivers_empty_content (St : Type)
    (UnmarshalA : bytes -> error + OpenAI.StreamEvent)
    (UnmarshalB : bytes -> error + Anthropic.StreamEvent)
    (trimUnicode : bytes -> bytes)
    (resp : Response) (cb : option (StreamCallbacks St)) (w : World St) :
  (exists log,
     calls (snd (OpenAI.processStream UnmarshalA trimUnicode resp cb w))
     = calls w ++ log
     /\ forallb substantial log = true)
  /\
  (exists log,
     calls (snd (Anthropic.processStream UnmarshalB trimUnicode resp cb w))
     = calls w ++ log
     /\ forallb substantial log = true).
Proof.
  destruct (processStream_streamLog UnmarshalA UnmarshalB trimUnicode resp cb w)
    as [(_ & _ & _ & ? & logA & _ & HA & _ & _ & SA)
        (_ & _ & _ & ? & logB & _ & HB & _ & _ & SB)].
  split; [exists logA | exists logB]; auto.
Qed.

(** The caller's state after [processStream] is the state before it with
    the logged calls applied in order, each through the closure in its
    slot: the decoder touches the caller's state through the callbacks and
    in no other way. *)
Theorem processStream_caller_state_is_the_log_replayed (St : Type)
    (UnmarshalA : bytes -> error + OpenAI.StreamEvent)
    (UnmarshalB : bytes -> error + Anthropic.StreamEvent)
    (trimUnicode : bytes -> bytes)
    (resp : Response) (cb : option (StreamCallbacks St)) (w : World St) :
  (exists log,
     let w' := snd (OpenAI.processStream UnmarshalA trimUnicode resp cb w) in
     calls w' = calls w ++ log /\ caller w' = replay cb log (caller w))
  /\
  (exists log,
     let w' := snd (Anthropic.processStream UnmarshalB trimUnicode resp cb w) in
     calls w' = calls w ++ log /\ caller w' = replay cb log (caller w)).
Proof.
  destruct (processStream_streamLog UnmarshalA UnmarshalB trimUnicode resp cb w)
    as [(_ & _ & _ & ? & logA & _ & HA & CA & _)
        (_ & _ & _ & ? & logB & _ & HB & CB & _)].
  split; [exists logA | exists logB]; auto.
Qed.

(** [processStream] only reads forward and does nothing to the connection:
    what is left of the body is a suffix of what was there, the way the
    source ends is unchanged, no request is sent and the body is not
    closed. *)
Theorem processStream_only_reads_forward (St : Type)
    (UnmarshalA : bytes -> error + OpenAI.StreamEvent)
    (UnmarshalB : bytes -> error + Anthropic.StreamEvent)
    (trimUnicode : bytes -> bytes)
    (resp : Response) (cb : option (StreamCallbacks St)) (w : World St) :
  let untouched (w' : World St) :=
    (exists consumed, pending (wire w) = consumed ++ pending (wire w'))
    /\ final (wire w') = final (wire w)
    /\ sent w' = sent w /\ closed w' = closed w in
  untouched (snd (OpenAI.processStream UnmarshalA trimUnicode resp cb w))
  /\ untouched (snd (Anthropic.processStream UnmarshalB trimUnicode resp cb w)).
Proof.
  destruct (processStream_streamLog UnmarshalA UnmarshalB trimUnicode resp cb w)
    as [(FA & SA & CA & consA & ? & PA & _) (FB & SB & CB & consB & ? & PB & _)].
  split; repeat split; auto; [exists consA | exists consB]; auto.
Qed.

(** [processStream] makes at most one call per newline-terminated line of
    the body, and one more at the end. *)
Theorem processStream_at_most_one_call_per_line (St : Type)
    (UnmarshalA : bytes -> error + OpenAI.StreamEvent)
    (UnmarshalB : bytes -> error + Anthropic.StreamEvent)
    (trimUnicode : bytes -> bytes)
    (resp : Response) (cb : option (StreamCallbacks St)) (w : World St) :
  (exists log,
     calls (snd (OpenAI.processStream UnmarshalA trimUnicode resp cb w))
     = calls w ++ log
     /\ List.length log <= newlines (pending (wire w)) + 1)
  /\
  (exists log,
     calls (snd (Anthropic.processStream UnmarshalB trimUnicode resp cb w))
     = calls w ++ log
     /\ List.length log <= newlines (pending (wire w)) + 1).
Proof.
  destruct (processStream_streamLog UnmarshalA UnmarshalB trimUnicode resp cb w)
    as [(_ & _ & _ & consA & logA & PA & HA & _ & LA & _)
        (_ & _ & _ & consB & logB & PB & HB & _ & LB & _)].
  split; [exists logA | exists logB]; split; auto.
  - rewrite PA. pose proof (newlines_le_app consA
      (pending (wire (snd (OpenAI.processStream UnmarshalA trimUnicode resp cb w))))).
    lia.
  - rewrite PB. pose proof (newlines_le_app consB
      (pending (wire (snd (Anthropic.processStream UnmarshalB trimUnicode resp cb w))))).
    lia.
Qed.

(** * Quiet lines *)

Section SameEvents.

Context {St : Type}.
Variable UnmarshalA : bytes -> error + OpenAI.StreamEvent.
Variable UnmarshalB : bytes -> error + Anthropic.StreamEvent.
Variable trimUnicode : bytes -> bytes.
Variable cb : option (StreamCallbacks St).

Lemma OpenAI_same_events (tail1 tail2 : bytes) :
  noNewline tail1 = true -> noNewline tail2 = true ->
  forall (evs : list Line) (lines1 lines2 : list bytes) (fm : string)
         (w1 w2 : World St),
    forallb noNewline lines1 = true -> forallb noNewline lines2 = true ->
    events (OpenAI.classify UnmarshalA trimUnicode) lines1 = evs ->
    events (OpenAI.classify UnmarshalA trimUnicode) lines2 = evs ->
    pending (wire w1) = frame lines1 ++ tail1 ->
    pending (wire w2) = frame lines2 ++ tail2 ->
    final (wire w1) = final (wire w2) ->
    caller w1 = caller w2 -> calls w1 = calls w2 ->
    observable (OpenAI.processLoop UnmarshalA trimUnicode (passes w1) cb fm w1)
    = observable (OpenAI.processLoop UnmarshalA trimUnicode (passes w2) cb fm w2).
Proof.
  intros Ht1 Ht2 evs. induction evs as [|ev evs IH];
    intros lines1 lines2 fm w1 w2 Hn1 Hn2 He1 He2 Hp1 Hp2 Hfin Hc Hl.
  - rewrite (OpenAI_skip_quiet UnmarshalA trimUnicode cb lines1 tail1 Hn1
               (events_nil _ _ He1) fm w1 Hp1).
    rewrite (OpenAI_skip_quiet UnmarshalA trimUnicode cb lines2 tail2 Hn2
               (events_nil _ _ He2) fm w2 Hp2).
    rewrite (OpenAI_processLoop_end UnmarshalA trimUnicode cb fm (advance tail1 w1))
      by (simpl; now apply noNewline_cut).
    rewrite (OpenAI_processLoop_end UnmarshalA trimUnicode cb fm (advance tail2 w2))
      by (simpl; now apply noNewline_cut).
    simpl. rewrite Hfin. destruct (isEOF _); slots cb; plumbing;
      now rewrite ?Hc, ?Hl.
  - destruct (OpenAI_next_event UnmarshalA trimUnicode cb lines1 tail1 Hn1 He1)
      as (raw1 & after1 & Ha1 & Hev1 & Hc1 & Hrun1).
    destruct (OpenAI_next_event UnmarshalA trimUnicode cb lines2 tail2 Hn2 He2)
      as (raw2 & after2 & Ha2 & Hev2 & Hc2 & Hrun2).
    rewrite (Hrun1 fm w1 Hp1), (Hrun2 fm w2 Hp2).
    rewrite (OpenAI_onLine_classify UnmarshalA trimUnicode cb fm raw1), Hc1,
            <- Hc2, <- OpenAI_onLine_classify.
    set (v1 := advance (frame after1 ++ tail1) w1).
    set (v2 := advance (frame after2 ++ tail2) w2).
    destruct (OpenAI_onLine_view UnmarshalA trimUnicode cb fm raw2 v1 v2 Hc Hl)
      as (Hr & Hc' & Hl').
    destruct (OpenAI_onLine_frame UnmarshalA trimUnicode cb fm raw2 v1) as (Hw1 & _).
    destruct (OpenAI_onLine_frame UnmarshalA trimUnicode cb fm raw2 v2) as (Hw2 & _).
    destruct (OpenAI.onLine UnmarshalA trimUnicode cb fm raw2 v1) as [r1 u1].
    destruct (OpenAI.onLine UnmarshalA trimUnicode cb fm raw2 v2) as [r2 u2].
    simpl in Hr, Hc', Hl', Hw1, Hw2. subst r2.
    destruct r1 as [[fm'|]| |]; unfold observable; simpl;
      try (now rewrite Hc', Hl').
    apply (IH after1 after2); try assumption.
    + now rewrite Hw1.
    + now rewrite Hw2.
    + rewrite Hw1, Hw2. exact Hfin.
Qed.

Lemma Anthropic_same_events (tail1 tail2 : bytes) :
  noNewline tail1 = true -> noNewline tail2 = true ->
  forall (evs : list Line) (lines1 lines2 : list bytes) (fm : string)
         (w1 w2 : World St),
    forallb noNewline lines1 = true -> forallb noNewline lines2 = true ->
    events (Anthropic.classify UnmarshalB trimUnicode) lines1 = evs ->
    events (Anthropic.classify UnmarshalB trimUnicode) lines2 = evs ->
    pending (wire w1) = frame lines1 ++ tail1 ->
    pending (wire w2) = frame lines2 ++ tail2 ->
    final (wire w1) = final (wire w2) ->
    caller w1 = caller w2 -> calls w1 = calls w2 ->
    observable (Anthropic.processLoop UnmarshalB trimUnicode (passes w1) cb fm w1)
    = observable (Anthropic.processLoop UnmarshalB trimUnicode (passes w2) cb fm w2).
Proof.
  intros Ht1 Ht2 evs. induction evs as [|ev evs IH];
    intros lines1 lines2 fm w1 w2 Hn1 Hn2 He1 He2 Hp1 Hp2 Hfin Hc Hl.
  - rewrite (Anthropic_skip_quiet UnmarshalB trimUnicode cb lines1 tail1 Hn1
               (events_nil _ _ He1) fm w1 Hp1).
    rewrite (Anthropic_skip_quiet UnmarshalB trimUnicode cb lines2 tail2 Hn2
               (events_nil _ _ He2) fm w2 Hp2).
    rewrite (Anthropic_processLoop_end UnmarshalB trimUnicode cb fm (advance tail1 w1))
      by (simpl; now apply noNewline_cut).
    rewrite (Anthropic_processLoop_end UnmarshalB trimUnicode cb fm (advance tail2 w2))
      by (simpl; now apply noNewline_cut).
    simpl. rewrite Hfin. destruct (isEOF _); slots cb; plumbing;
      now rewrite ?Hc, ?Hl.
  - destruct (Anthropic_next_event UnmarshalB trimUnicode cb lines1 tail1 Hn1 He1)
      as (raw1 & after1 & Ha1 & Hev1 & Hc1 & Hrun1).
    destruct (Anthropic_next_event UnmarshalB trimUnicode cb lines2 tail2 Hn2 He2)
      as (raw2 & after2 & Ha2 & Hev2 & Hc2 & Hrun2).
    rewrite (Hrun1 fm w1 Hp1), (Hrun2 fm w2 Hp2).
    rewrite (Anthropic_onLine_classify UnmarshalB trimUnicode cb fm raw1), Hc1,
            <- Hc2, <- Anthropic_onLine_classify.
    set (v1 := advance (frame after1 ++ tail1) w1).
    set (v2 := advance (frame after2 ++ tail2) w2).
    destruct (Anthropic_onLine_view UnmarshalB trimUnicode cb fm raw2 v1 v2 Hc Hl)
      as (Hr & Hc' & Hl').
    destruct (Anthropic_onLine_frame UnmarshalB trimUnicode cb fm raw2 v1) as (Hw1 & _).
    destruct (Anthropic_onLine_frame UnmarshalB trimUnicode cb fm raw2 v2) as (Hw2 & _).
    destruct (Anthropic.onLine UnmarshalB trimUnicode cb fm raw2 v1) as [r1 u1].
    destruct (Anthropic.onLine UnmarshalB trimUnicode cb fm raw2 v2) as [r2 u2].
    simpl in Hr, Hc', Hl', Hw1, Hw2. subst r2.
    destruct r1 as [[fm'|]| |]; unfold observable; simpl;
      try (now rewrite Hc', Hl').
    apply (IH after1 after2); try assumption.
    + now rewrite Hw1.
    + now rewrite Hw2.
    + rewrite Hw1, Hw2. exact Hfin.
Qed.

End SameEvents.

(** * Whitespace around a line *)

Lemma asciiSpace_ascii (c : byte) :
  asciiSpace c = true -> (RuneSelf <=? Byte.to_N c)%N = false.
Proof. destruct c; intros H; try discriminate H; reflexivity. Qed.

Lemma trimScan_spaces (ws s : bytes) :
  forallb asciiSpace ws = true -> trimScan (ws ++ s) = trimScan s.
Proof.
  induction ws as [|c ws IH]; simpl; [reflexivity|].
  intros H. apply andb_true_iff in H as [Hc Hws].
  now rewrite (asciiSpace_ascii _ Hc), Hc, IH.
Qed.

Lemma trimScan_ascii (s : bytes) :
  isASCII s = true ->
  exists s1, trimScan s = (false, s1)
             /\ forall t, trimScan (s ++ t)
                          = match s1 with
                            | [] => trimScan t
                            | _ :: _ => (false, s1 ++ t)
                            end.
Proof.
  induction s as [|c s IH]; simpl.
  - intros _. exists []. split; reflexivity.
  - intros H. apply andb_true_iff in H as [Hc Hs].
    assert ((RuneSelf <=? Byte.to_N c)%N = false) as E.
    { apply N.leb_gt. now apply N.ltb_lt. }
    rewrite E. destruct (asciiSpace c).
    + exact (IH Hs).
    + exists (c :: s). split; [reflexivity|]. intros t. reflexivity.
Qed.

Lemma forallb_rev {A} (f : A -> bool) (l : list A) :
  forallb f (rev l) = forallb f l.
Proof.
  induction l as [|x l IH]; simpl; [reflexivity|].
  rewrite forallb_app, IH. simpl. rewrite andb_true_r. apply andb_comm.
Qed.

(** [bytes.TrimSpace] of ASCII text is the same with ASCII white space put
    before and after it. *)
Lemma TrimSpace_padded (trimUnicode : bytes -> bytes) (before s after : bytes) :
  isASCII s = true ->
  forallb asciiSpace before = true -> forallb asciiSpace after = true ->
  TrimSpace trimUnicode (before ++ s ++ after) = TrimSpace trimUnicode s.
Proof.
  intros Hs Hb Ha. unfold TrimSpace.
  rewrite (trimScan_spaces before (s ++ after) Hb).
  destruct (trimScan_ascii s Hs) as (s1 & E & Eapp).
  rewrite E, (Eapp after). destruct s1 as [|c s1].
  - rewrite <- (app_nil_r after), (trimScan_spaces after [] Ha). reflexivity.
  - rewrite rev_app_distr.
    rewrite (trimScan_spaces (rev after) (rev (c :: s1)));
      [reflexivity | now rewrite forallb_rev].
Qed.

(** A line of ASCII white space only (a blank line, a keep-alive) is passed
    over by either decoder: no callback, the accumulator as it was. *)
Theorem whitespace_line_is_passed_over (St : Type)
    (UnmarshalA : bytes -> error + OpenAI.StreamEvent)
    (UnmarshalB : bytes -> error + Anthropic.StreamEvent)
    (trimUnicode : bytes -> bytes)
    (cb : option (StreamCallbacks St)) (fm : string) (line : bytes)
    (w : World St) :
  forallb asciiSpace line = true ->
  OpenAI.onLine UnmarshalA trimUnicode cb fm line w = (Returned (Next fm), w)
  /\ Anthropic.onLine UnmarshalB trimUnicode cb fm line w = (Returned (Next fm), w).
Proof.
  intros H.
  assert (TrimSpace trimUnicode line = []) as E.
  { rewrite <- (app_nil_r line).
    change (line ++ []) with (line ++ [] ++ []) at 1.
    rewrite <- (app_nil_r line) in H.
    pose proof (TrimSpace_padded trimUnicode line [] [] eq_refl) as P.
    simpl in P. rewrite app_nil_r in *. rewrite P; auto. }
  unfold OpenAI.onLine, Anthropic.onLine. rewrite E. split; reflexivity.
Qed.

Lemma whitespace_line_is_passed_over_witness :
  let line := b "   " ++ ["013"%byte; "010"%byte] in
  let w := Samples.arriving [] EOF in
  OpenAI.onLine Samples.A.Unmarshal Samples.asciiOnly Samples.allCallbacks
    "so far" line w = (Returned (Next "so far"), w)
  /\ Anthropic.onLine Samples.B.Unmarshal Samples.asciiOnly Samples.allCallbacks
       "so far" line w = (Returned (Next "so far"), w).
Proof.
  exact (whitespace_line_is_passed_over Samples.Transcript
           Samples.A.Unmarshal Samples.B.Unmarshal Samples.asciiOnly
           Samples.allCallbacks "so far"
           (b "   " ++ ["013"%byte; "010"%byte]) (Samples.arriving [] EOF)
           eq_refl).
Defined.

(** ASCII white space around an ASCII line does not matter to either
    decoder: indentation, trailing blanks and a carriage return before the
    newline leave a pass of the loop exactly as it is without them. *)
Theorem surrounding_whitespace_is_ignored (St : Type)
    (UnmarshalA : bytes -> error + OpenAI.StreamEvent)
    (UnmarshalB : bytes -> error + Anthropic.StreamEvent)
    (trimUnicode : bytes -> bytes)
    (cb : option (StreamCallbacks St)) (fm : string)
    (before line after : bytes) (w : World St) :
  isASCII line = true ->
  forallb asciiSpace before = true -> forallb asciiSpace after = true ->
  OpenAI.onLine UnmarshalA trimUnicode cb fm (before ++ line ++ after) w
  = OpenAI.onLine UnmarshalA trimUnicode cb fm line w
  /\ Anthropic.onLine UnmarshalB trimUnicode cb fm (before ++ line ++ after) w
     = Anthropic.onLine UnmarshalB trimUnicode cb fm line w.
Proof.
  intros Hl Hb Ha. unfold OpenAI.onLine, Anthropic.onLine.
  now rewrite (TrimSpace_padded trimUnicode before line after Hl Hb Ha).
Qed.

Lemma surrounding_whitespace_is_ignored_witness :
  let line := b "data: " ++ Samples.A.hi in
  let w := Samples.arriving [] EOF in
  OpenAI.onLine Samples.A.Unmarshal Samples.asciiOnly Samples.allCallbacks ""
    (b "  " ++ line ++ ["013"%byte; "010"%byte]) w
  = OpenAI.onLine Samples.A.Unmarshal Samples.asciiOnly Samples.allCallbacks ""
      line w
  /\ Anthropic.onLine Samples.B.Unmarshal Samples.asciiOnly Samples.allCallbacks ""
       (b "  " ++ line ++ ["013"%byte; "010"%byte]) w
     = Anthropic.onLine Samples.B.Unmarshal Samples.asciiOnly Samples.allCallbacks ""
         line w.
Proof.
  exact (surrounding_whitespace_is_ignored Samples.Transcript
           Samples.A.Unmarshal Samples.B.Unmarshal Samples.asciiOnly
           Samples.allCallbacks "" (b "  ") (b "data: " ++ Samples.A.hi)
           ["013"%byte; "010"%byte] (Samples.arriving [] EOF)
           eq_refl eq_refl eq_refl).
Defined.

(** Lines that are blank, that carry another SSE field, or whose event
    carries nothing, do not matter wherever they stand: two bodies whose
    lines give the same events, read with the same callbacks from the same
    caller state and ending the same way, give the caller the same run. *)
Theorem quiet_lines_do_not_matter (St : Type)
    (UnmarshalA : bytes -> error + OpenAI.StreamEvent)
    (UnmarshalB : bytes -> error + Anthropic.StreamEvent)
    (trimUnicode : bytes -> bytes)
    (resp : Response) (cb : option (StreamCallbacks St))
    (lines1 lines2 : list bytes) (tail1 tail2 : bytes) (w1 w2 : World St) :
  StatusCode resp = StatusOK ->
  forallb noNewline lines1 = true -> forallb noNewline lines2 = true ->
  noNewline tail1 = true -> noNewline tail2 = true ->
  pending (wire w1) = frame lines1 ++ tail1 ->
  pending (wire w2) = frame lines2 ++ tail2 ->
  final (wire w1) = final (wire w2) ->
  caller w1 = caller w2 -> calls w1 = calls w2 ->
  (events (OpenAI.classify UnmarshalA trimUnicode) lines1
   = events (OpenAI.classify UnmarshalA trimUnicode) lines2 ->
   observable (OpenAI.processStream UnmarshalA trimUnicode resp cb w1)
   = observable (OpenAI.processStream UnmarshalA trimUnicode resp cb w2))
  /\
  (events (Anthropic.classify UnmarshalB trimUnicode) lines1
   = events (Anthropic.classify UnmarshalB trimUnicode) lines2 ->
   observable (Anthropic.processStream UnmarshalB trimUnicode resp cb w1)
   = observable (Anthropic.processStream UnmarshalB trimUnicode resp cb w2)).
Proof.
  intros Hok Hn1 Hn2 Ht1 Ht2 Hp1 Hp2 Hfin Hc Hl. split; intros He.
  - rewrite !(OpenAI_processStream_ok _ _ _ _ _ Hok).
    exact (OpenAI_same_events UnmarshalA trimUnicode cb tail1 tail2 Ht1 Ht2
             _ lines1 lines2 "" w1 w2 Hn1 Hn2 He eq_refl Hp1 Hp2 Hfin Hc Hl).
  - rewrite !(Anthropic_processStream_ok _ _ _ _ _ Hok).
    exact (Anthropic_same_events UnmarshalB trimUnicode cb tail1 tail2 Ht1 Ht2
             _ lines1 lines2 "" w1 w2 Hn1 Hn2 He eq_refl Hp1 Hp2 Hfin Hc Hl).
Qed.

Lemma quiet_lines_do_not_matter_witness :
  let hi := b "data: " ++ Samples.B.hi in
  let there := b "data: " ++ Samples.B.there in
  let lines1 := [hi; there] in
  let lines2 := [[]; b "event: content_block_delta"; hi; b "   "; there;
                 b ": keep-alive"] in
  observable (Samples.B.processStream Samples.ok Samples.allCallbacks
                (Samples.arriving (frame lines1 ++ []) EOF))
  = observable (Samples.B.processStream Samples.ok Samples.allCallbacks
                  (Samples.arriving (frame lines2 ++ []) EOF)).
Proof.
  refine (proj2 (quiet_lines_do_not_matter Samples.Transcript
                   Samples.A.Unmarshal Samples.B.Unmarshal Samples.asciiOnly
                   Samples.ok Samples.allCallbacks
                   [b "data: " ++ Samples.B.hi; b "data: " ++ Samples.B.there]
                   [[]; b "event: content_block_delta"; b "data: " ++ Samples.B.hi;
                    b "   "; b "data: " ++ Samples.B.there; b ": keep-alive"]
                   [] []
                   (Samples.arriving _ EOF) (Samples.arriving _ EOF)
                   eq_refl eq_refl eq_refl eq_refl eq_refl eq_refl eq_refl
                   eq_refl eq_refl eq_refl) _).
  vm_compute. reflexivity.
Defined.

(** * A read that fails *)

Section ReadFailure.

Context {St : Type}.
Variable UnmarshalA : bytes -> error + OpenAI.StreamEvent.
Variable UnmarshalB : bytes -> error + Anthropic.StreamEvent.
Variable trimUnicode : bytes -> bytes.
Variable c : StreamCallbacks St.
Variable h : error -> St -> St.
Hypothesis Hh : OnError c = Some h.
Variable tail : bytes.
Hypothesis Htail : noNewline tail = true.

Lemma OpenAI_read_failure (lines : list bytes) :
  forallb noNewline lines = true ->
  forallb (fun l => negb (isTerminator
                            (OpenAI.classify UnmarshalA trimUnicode (terminate l))))
          lines = true ->
  forall fm w,
    pending (wire w) = frame lines ++ tail ->
    isEOF (final (wire w)) = false ->
    exists before w',
      OpenAI.processLoop UnmarshalA trimUnicode (passes w) (Some c) fm w
      = (Returned tt, w')
      /\ calls w' = calls w ++ before
                    ++ [CallError (Errorf_w "read failed: " (final (wire w)))]
      /\ forallb duringStream before = true.
Proof.
  induction lines as [|line lines IH]; intros Hnl Hnt fm w Hw Hfin.
  - simpl in Hw.
    rewrite (OpenAI_processLoop_end UnmarshalA trimUnicode (Some c) fm w)
      by (rewrite Hw; now apply noNewline_cut).
    rewrite Hfin, (invoke_supplied _ _ _ _ _ Hh).
    exists []. eexists. split; [reflexivity|]. simpl. auto.
  - simpl in Hnl, Hnt. apply andb_true_iff in Hnl as [Hl Hnl].
    apply andb_true_iff in Hnt as [Ht Hnt].
    assert (cut nl (pending (wire w)) = Some (terminate line, frame lines ++ tail))
      as E by (rewrite Hw; now apply cut_frame).
    rewrite (OpenAI_processLoop_line _ _ _ _ _ E), OpenAI_onLine_classify.
    set (w1 := advance (frame lines ++ tail) w).
    destruct (OpenAI.classify UnmarshalA trimUnicode (terminate line))
      as [| |err|text|]; try discriminate Ht.
    + destruct (IH Hnl Hnt fm w1 eq_refl Hfin) as (before & w' & H1 & H2 & H3).
      exists before, w'. unfold ret. now rewrite H1, H2.
    + unfold bind. rewrite (invoke_supplied _ _ _ _ _ Hh). cbn [ret].
      destruct (IH Hnl Hnt fm (record (CallError (Errorf_w "failed to parse JSON: " err))
                                 (h (Errorf_w "failed to parse JSON: " err)) w1)
                  eq_refl Hfin) as (before & w' & H1 & H2 & H3).
      exists (CallError (Errorf_w "failed to parse JSON: " err) :: before), w'.
      rewrite H1, H2. simpl. rewrite <- app_assoc, String.eqb_refl. auto.
    + destruct (OnContent c) as [f|] eqn:Ef.
      * unfold bind. rewrite (supplied_Some _ _ Ef), (invoke_supplied _ _ _ _ _ Ef).
        cbn [ret].
        destruct (IH Hnl Hnt (fm ++ text)%string
                    (record (CallContent text) (f text) w1) eq_refl Hfin)
          as (before & w' & H1 & H2 & H3).
        exists (CallContent text :: before), w'.
        rewrite H1, H2. simpl. rewrite <- app_assoc. auto.
      * unfold bind, supplied. rewrite Ef. cbn [ret].
        destruct (IH Hnl Hnt (fm ++ text)%string w1 eq_refl Hfin)
          as (before & w' & H1 & H2 & H3).
        exists before, w'. now rewrite H1, H2.
    + destruct (IH Hnl Hnt fm w1 eq_refl Hfin) as (before & w' & H1 & H2 & H3).
      exists before, w'. unfold ret. now rewrite H1, H2.
Qed.

Lemma Anthropic_read_failure (lines : list bytes) :
  forallb noNewline lines = true ->
  forallb (fun l => negb (isTerminator
                            (Anthropic.classify UnmarshalB trimUnicode (terminate l))))
          lines = true ->
  forall fm w,
    pending (wire w) = frame lines ++ tail ->
    isEOF (final (wire w)) = false ->
    exists before w',
      Anthropic.processLoop UnmarshalB trimUnicode (passes w) (Some c) fm w
      = (Returned tt, w')
      /\ calls w' = calls w ++ before
                    ++ [CallError (Errorf_w "read failed: " (final (wire w)))]
      /\ forallb duringStream before = true.
Proof.
  induction lines as [|line lines IH]; intros Hnl Hnt fm w Hw Hfin.
  - simpl in Hw.
    rewrite (Anthropic_processLoop_end UnmarshalB trimUnicode (Some c) fm w)
      by (rewrite Hw; now apply noNewline_cut).
    rewrite Hfin, (invoke_supplied _ _ _ _ _ Hh).
    exists []. eexists. split; [reflexivity|]. simpl. auto.
  - simpl in Hnl, Hnt. apply andb_true_iff in Hnl as [Hl Hnl].
    apply andb_true_iff in Hnt as [Ht Hnt].
    assert (cut nl (pending (wire w)) = Some (terminate line, frame lines ++ tail))
      as E by (rewrite Hw; now apply cut_frame).
    rewrite (Anthropic_processLoop_line _ _ _ _ _ E), Anthropic_onLine_classify.
    set (w1 := advance (frame lines ++ tail) w).
    destruct (Anthropic.classify UnmarshalB trimUnicode (terminate line))
      as [| |err|text|]; try discriminate Ht.
    + destruct (IH Hnl Hnt fm w1 eq_refl Hfin) as (before & w' & H1 & H2 & H3).
      exists before, w'. unfold ret. now rewrite H1, H2.
    + unfold bind. rewrite (invoke_supplied _ _ _ _ _ Hh). cbn [ret].
      destruct (IH Hnl Hnt fm (record (CallError (Errorf_w "failed to parse JSON: " err))
                                 (h (Errorf_w "failed to parse JSON: " err)) w1)
                  eq_refl Hfin) as (before & w' & H1 & H2 & H3).
      exists (CallError (Errorf_w "failed to parse JSON: " err) :: before), w'.
      rewrite H1, H2. simpl. rewrite <- app_assoc, String.eqb_refl. auto.
    + destruct (OnContent c) as [f|] eqn:Ef.
      * rewrite (supplied_Some _ _ Ef). unfold bind.
        rewrite (invoke_supplied _ _ _ _ _ Ef). cbn [ret].
        destruct (IH Hnl Hnt (fm ++ text)%string
                    (record (CallContent text) (f text) w1) eq_refl Hfin)
          as (before & w' & H1 & H2 & H3).
        exists (CallContent text :: before), w'.
        rewrite H1, H2. simpl. rewrite <- app_assoc. auto.
      * unfold supplied. rewrite Ef. cbn [ret].
        destruct (IH Hnl Hnt fm w1 eq_refl Hfin)
          as (before & w' & H1 & H2 & H3).
        exists before, w'. now rewrite H1, H2.
    + destruct (IH Hnl Hnt fm w1 eq_refl Hfin) as (before & w' & H1 & H2 & H3).
      exists before, w'. unfold ret. now rewrite H1, H2.
Qed.

End ReadFailure.

(** When the body breaks off with a read error before any terminator was
    seen, a caller who supplied [onError] gets the fragments and parse
    reports of the lines that did arrive, then one [onError] that wraps the
    cause as "read failed: ...", and the run returns; [onFinish] is not
    called. *)
Theorem read_failure_ends_the_stream_with_onError (St : Type)
    (UnmarshalA : bytes -> error + OpenAI.StreamEvent)
    (UnmarshalB : bytes -> error + Anthropic.StreamEvent)
    (trimUnicode : bytes -> bytes)
    (resp : Response) (c : StreamCallbacks St) (h : error -> St -> St)
    (lines : list bytes) (tail : bytes) (w : World St) :
  StatusCode resp = StatusOK ->
  OnError c = Some h ->
  forallb noNewline lines = true -> noNewline tail = true ->
  pending (wire w) = frame lines ++ tail ->
  isEOF (final (wire w)) = false ->
  let failure := CallError (Errorf_w "read failed: " (final (wire w))) in
  (forallb (fun l => negb (isTerminator
                             (OpenAI.classify UnmarshalA trimUnicode (terminate l))))
           lines = true ->
   exists before w',
     OpenAI.processStream UnmarshalA trimUnicode resp (Some c) w = (Returned tt, w')
     /\ calls w' = calls w ++ before ++ [failure]
     /\ forallb duringStream before = true)
  /\
  (forallb (fun l => negb (isTerminator
                             (Anthropic.classify UnmarshalB trimUnicode (terminate l))))
           lines = true ->
   exists before w',
     Anthropic.processStream UnmarshalB trimUnicode resp (Some c) w = (Returned tt, w')
     /\ calls w' = calls w ++ before ++ [failure]
     /\ forallb duringStream before = true).
Proof.
  intros Hok Hh Hnl Htail Hw Hfin failure. split; intros Hnt.
  - rewrite (OpenAI_processStream_ok _ _ _ _ _ Hok).
    exact (OpenAI_read_failure UnmarshalA trimUnicode c h Hh tail Htail lines
             Hnl Hnt "" w Hw Hfin).
  - rewrite (Anthropic_processStream_ok _ _ _ _ _ Hok).
    exact (Anthropic_read_failure UnmarshalB trimUnicode c h Hh tail Htail lines
             Hnl Hnt "" w Hw Hfin).
Qed.

Lemma read_failure_ends_the_stream_with_onError_witness :
  let boom := errorString "boom" in
  let w := Samples.arriving (frame [b "data: " ++ Samples.A.hi] ++ b "data: {")
             boom in
  exists before w',
    Samples.A.processStream Samples.ok Samples.allCallbacks w = (Returned tt, w')
    /\ calls w' = calls w ++ before
                  ++ [CallError (Errorf_w "read failed: " boom)]
    /\ forallb duringStream before = true.
Proof.
  exact (proj1 (read_failure_ends_the_stream_with_onError Samples.Transcript
                  Samples.A.Unmarshal Samples.B.Unmarshal Samples.asciiOnly
                  Samples.ok Samples.listener Samples.onError
                  [b "data: " ++ Samples.A.hi] (b "data: {")
                  (Samples.arriving (frame [b "data: " ++ Samples.A.hi] ++ b "data: {")
                     (errorString "boom"))
                  eq_refl eq_refl eq_refl eq_refl eq_refl eq_refl) eq_refl).
Defined.

(** * The request *)

(** [prepareRequest] of the OpenAI client, when the payload encodes and
    the request can be built: a client with no timeout, and the request as
    built for a POST to the completions URL with the encoded payload, now
    carrying [Authorization: Bearer <key>] and
    [Content-Type: application/json]. *)
Theorem OpenAI_prepareRequest_sets_the_headers
    (Marshal : OpenAI.RequestBody -> error + bytes)
    (Context_ : Type)
    (NewRequestWithContext : Context_ -> string -> string -> bytes -> error + Request)
    (ctx : Context_) (payload : OpenAI.RequestBody) (apiKey : string)
    (data : bytes) (built : Request) :
  Marshal payload = inr data ->
  NewRequestWithContext ctx "POST"%string
    "https://api.openai.com/v1/chat/completions"%string data = inr built ->
  exists req,
    OpenAI.prepareRequest Marshal NewRequestWithContext ctx payload apiKey
    = (Some {| Timeout := 0 |}, Some req, None)
    /\ Method req = Method built /\ URL req = URL built
    /\ Payload req = Payload built
    /\ Header_Get req "Authorization" = ("Bearer " ++ apiKey)%string
    /\ Header_Get req "Content-Type" = "application/json"%string.
Proof.
  intros HM HN. unfold OpenAI.prepareRequest, OpenAI.url. rewrite HM, HN.
  cbv zeta. eexists. split; [reflexivity|].
  split; [reflexivity|]. split; [reflexivity|]. split; [reflexivity|].
  repeat split.
Qed.

Lemma OpenAI_prepareRequest_sets_the_headers_witness :
  exists req,
    OpenAI.prepareRequest (@Samples.Marshal OpenAI.RequestBody)
      Samples.NewRequestWithContext tt
      {| OpenAI.RequestModel := OpenAI.ModelGPT4o; OpenAI.Messages := [];
         OpenAI.MaxTokens := 1024; OpenAI.Stream := true |} "sk-test"
    = (Some {| Timeout := 0 |}, Some req, None)
    /\ Method req = "POST"%string
    /\ URL req = "https://api.openai.com/v1/chat/completions"%string
    /\ Payload req = b "{}"
    /\ Header_Get req "Authorization" = "Bearer sk-test"%string
    /\ Header_Get req "Content-Type" = "application/json"%string.
Proof.
  exact (OpenAI_prepareRequest_sets_the_headers
           (@Samples.Marshal OpenAI.RequestBody) unit
           Samples.NewRequestWithContext tt
           {| OpenAI.RequestModel := OpenAI.ModelGPT4o; OpenAI.Messages := [];
              OpenAI.MaxTokens := 1024; OpenAI.Stream := true |} "sk-test"
           (b "{}")
           {| Method := "POST";
              URL := "https://api.openai.com/v1/chat/completions";
              Header := []; Payload := b "{}" |}
           eq_refl eq_refl).
Defined.

(** [prepareRequest] of the Anthropic client, when the payload encodes and
    the request can be built: a client with no timeout, and the request as
    built for a POST to the messages URL, now carrying [x-api-key: <key>],
    [Content-Type: application/json] and [anthropic-version: 2023-06-01]. *)
Theorem Anthropic_prepareRequest_sets_the_headers
    (Marshal : Anthropic.RequestBody -> error + bytes)
    (Context_ : Type)
    (NewRequestWithContext : Context_ -> string -> string -> bytes -> error + Request)
    (ctx : Context_) (payload : Anthropic.RequestBody) (apiKey : string)
    (data : bytes) (built : Request) :
  Marshal payload = inr data ->
  NewRequestWithContext ctx "POST"%string
    "https://api.anthropic.com/v1/messages"%string data = inr built ->
  exists req,
    Anthropic.prepareRequest Marshal NewRequestWithContext ctx payload apiKey
    = (Some {| Timeout := 0 |}, Some req, None)
    /\ Method req = Method built /\ URL req = URL built
    /\ Payload req = Payload built
    /\ Header_Get req "x-api-key" = apiKey
    /\ Header_Get req "Content-Type" = "application/json"%string
    /\ Header_Get req "anthropic-version" = "2023-06-01"%string.
Proof.
  intros HM HN. unfold Anthropic.prepareRequest, Anthropic.url. rewrite HM, HN.
  cbv zeta. eexists. split; [reflexivity|].
  split; [reflexivity|]. split; [reflexivity|]. split; [reflexivity|].
  repeat split.
Qed.

Lemma Anthropic_prepareRequest_sets_the_headers_witness :
  exists req,
    Anthropic.prepareRequest (@Samples.Marshal Anthropic.RequestBody)
      Samples.NewRequestWithContext tt
      {| Anthropic.RequestModel := Anthropic.ModelClaude3Opus;
         Anthropic.Messages := [];
         Anthropic.MaxTokens := 1024; Anthropic.Stream := true |} "key"
    = (Some {| Timeout := 0 |}, Some req, None)
    /\ Method req = "POST"%string
    /\ URL req = "https://api.anthropic.com/v1/messages"%string
    /\ Payload req = b "{}"
    /\ Header_Get req "x-api-key" = "key"%string
    /\ Header_Get req "Content-Type" = "application/json"%string
    /\ Header_Get req "anthropic-version" = "2023-06-01"%string.
Proof.
  exact (Anthropic_prepareRequest_sets_the_headers
           (@Samples.Marshal Anthropic.RequestBody) unit
           Samples.NewRequestWithContext tt
           {| Anthropic.RequestModel := Anthropic.ModelClaude3Opus;
              Anthropic.Messages := [];
              Anthropic.MaxTokens := 1024; Anthropic.Stream := true |} "key"
           (b "{}")
           {| Method := "POST";
              URL := "https://api.anthropic.com/v1/messages";
              Header := []; Payload := b "{}" |}
           eq_refl eq_refl).
Defined.

(** * StreamChat, beyond the key check *)

Section Driver.

Context {St : Type}.
Variable UnmarshalA : bytes -> error + OpenAI.StreamEvent.
Variable UnmarshalB : bytes -> error + Anthropic.StreamEvent.
Variable trimUnicode : bytes -> bytes.
Variable MarshalA : OpenAI.RequestBody -> error + bytes.
Variable MarshalB : Anthropic.RequestBody -> error + bytes.
Variable Context_ : Type.
Variable NewRequestWithContext :
  Context_ -> string -> string -> bytes -> error + Request.
Variable transport : Request -> error + Response.

Notation StreamChatA :=
  (OpenAI.StreamChat UnmarshalA trimUnicode MarshalA NewRequestWithContext transport).
Notation StreamChatB :=
  (Anthropic.StreamChat UnmarshalB trimUnicode MarshalB NewRequestWithContext transport).
Notation prepareA := (OpenAI.prepareRequest MarshalA NewRequestWithContext).
Notation prepareB := (Anthropic.prepareRequest MarshalB NewRequestWithContext).

(** [prepareRequest] hands back either an error and neither client nor
    request, or a client and a request and no error: the client-or-request
    check that [streamOpenAI] and [streamAnthropic] make after it never
    fires. *)
Theorem prepareRequest_all_or_nothing (ctx : Context_) (apiKey : string)
    (pA : OpenAI.RequestBody) (pB : Anthropic.RequestBody) :
  let allOrNothing (r : option Client * option Request * option error) :=
    match r with
    | (client, req, Some _) => client = None /\ req = None
    | (client, req, None) => client <> None /\ req <> None
    end in
  allOrNothing (prepareA ctx pA apiKey) /\ allOrNothing (prepareB ctx pB apiKey).
Proof.
  unfold OpenAI.prepareRequest, Anthropic.prepareRequest. split.
  - destruct (MarshalA pA) as [e|data]; [now split|].
    destruct (NewRequestWithContext ctx _ _ data) as [e|built]; [now split|].
    cbv zeta. split; discriminate.
  - destruct (MarshalB pB) as [e|data]; [now split|].
    destruct (NewRequestWithContext ctx _ _ data) as [e|built]; [now split|].
    cbv zeta. split; discriminate.
Qed.

(** With a key, when the request cannot be prepared (the payload does not
    encode, or the request cannot be built), [StreamChat] reports that
    error through [onError] once and does nothing else: no request is
    sent, the body is neither read nor closed. *)
Theorem StreamChat_reports_a_request_that_cannot_be_prepared
    (sA : OpenAI.OpenAIStreamer) (sB : Anthropic.AnthropicStreamer)
    (ctx : Context_) (messages : list Message)
    (c : StreamCallbacks St) (h : error -> St -> St) (w : World St) :
  OnError c = Some h ->
  (forall client req e,
     (OpenAI.ApiKey sA =? "")%string = false ->
     prepareA ctx (payloadA sA messages) (OpenAI.ApiKey sA)
       = (client, req, Some e) ->
     exists w',
       StreamChatA sA ctx messages (Some c) w = (Returned tt, w')
       /\ calls w' = calls w ++ [CallError e]
       /\ caller w' = h e (caller w)
       /\ sent w' = sent w /\ wire w' = wire w /\ closed w' = closed w)
  /\
  (forall client req e,
     (Anthropic.ApiKey sB =? "")%string = false ->
     prepareB ctx (payloadB sB messages) (Anthropic.ApiKey sB)
       = (client, req, Some e) ->
     exists w',
       StreamChatB sB ctx messages (Some c) w = (Returned tt, w')
       /\ calls w' = calls w ++ [CallError e]
       /\ caller w' = h e (caller w)
       /\ sent w' = sent w /\ wire w' = wire w /\ closed w' = closed w).
Proof.
  intros Hh. split; intros client req e Hkey Hprep.
  - unfold OpenAI.StreamChat, OpenAI.streamOpenAI. rewrite Hkey.
    cbv zeta. unfold payloadA in Hprep. rewrite Hprep.
    unfold bind, ret. rewrite (supplied_Some _ _ Hh), (invoke_supplied _ _ _ _ _ Hh).
    eexists. split; [reflexivity|]. simpl. auto.
  - unfold Anthropic.StreamChat, Anthropic.streamAnthropic. rewrite Hkey.
    cbv zeta. unfold payloadB in Hprep. rewrite Hprep.
    unfold bind, ret. rewrite (supplied_Some _ _ Hh), (invoke_supplied _ _ _ _ _ Hh).
    eexists. split; [reflexivity|]. simpl. auto.
Qed.


(** With a key, a request prepared and a response received, [StreamChat]
    is [processStream] on that response and nothing more: the same
    outcome (a panic included), the same callbacks in the same order, the
    same bytes read; exactly one request was sent, and the body is closed
    however the decoding ended. *)
Theorem StreamChat_is_processStream_on_the_response
    (sA : OpenAI.OpenAIStreamer) (sB : Anthropic.AnthropicStreamer)
    (ctx : Context_) (messages : list Message)
    (cb : option (StreamCallbacks St)) (w : World St) :
  let same (req : Request) (out run : Result unit * World St) :=
    fst out = fst run
    /\ calls (snd out) = calls (snd run)
    /\ caller (snd out) = caller (snd run)
    /\ wire (snd out) = wire (snd run)
    /\ sent (snd out) = sent w ++ [req]
    /\ closed (snd out) = true in
  (forall client req resp,
     (OpenAI.ApiKey sA =? "")%string = false ->
     prepareA ctx (payloadA sA messages) (OpenAI.ApiKey sA)
       = (Some client, Some req, None) ->
     transport req = inr resp ->
     same req (StreamChatA sA ctx messages cb w)
       (OpenAI.processStream UnmarshalA trimUnicode resp cb (dispatched req w)))
  /\
  (forall client req resp,
     (Anthropic.ApiKey sB =? "")%string = false ->
     prepareB ctx (payloadB sB messages) (Anthropic.ApiKey sB)
       = (Some client, Some req, None) ->
     transport req = inr resp ->
     same req (StreamChatB sB ctx messages cb w)
       (Anthropic.processStream UnmarshalB trimUnicode resp cb (dispatched req w))).
Proof.
  intros same. split; intros client req resp Hkey Hprep Hdo.
  - destruct (processStream_streamLog UnmarshalA UnmarshalB trimUnicode resp cb
                (dispatched req w)) as [(_ & Hsent & _) _].
    unfold OpenAI.StreamChat, OpenAI.streamOpenAI. rewrite Hkey.
    cbv zeta. unfold payloadA in Hprep. rewrite Hprep.
    unfold bind, ret, Do, deferClose. rewrite Hdo.
    fold (dispatched req w).
    destruct (OpenAI.processStream UnmarshalA trimUnicode resp cb (dispatched req w))
      as [[[]|reason|] w'] eqn:E; simpl in Hsent |- *;
      unfold same; simpl; repeat split; auto.
  - destruct (processStream_streamLog UnmarshalA UnmarshalB trimUnicode resp cb
                (dispatched req w)) as [_ (_ & Hsent & _)].
    unfold Anthropic.StreamChat, Anthropic.streamAnthropic. rewrite Hkey.
    cbv zeta. unfold payloadB in Hprep. rewrite Hprep.
    unfold bind, ret, Do, deferClose. rewrite Hdo.
    fold (dispatched req w).
    destruct (Anthropic.processStream UnmarshalB trimUnicode resp cb (dispatched req w))
      as [[[]|reason|] w'] eqn:E; simpl in Hsent |- *;
      unfold same; simpl; repeat split; auto.
Qed.

End Driver.

Lemma StreamChat_reports_a_request_that_cannot_be_prepared_witness :
  let unsupported := errorString "json: unsupported type" in
  let w := Samples.arriving (Samples.dataLine Samples.A.hi) EOF in
  (exists w',
     OpenAI.StreamChat Samples.A.Unmarshal Samples.asciiOnly
       (fun _ => inl unsupported) Samples.NewRequestWithContext
       (Samples.answering 200) (OpenAI.New "sk-test" "") tt []
       Samples.allCallbacks w = (Returned tt, w')
     /\ calls w' = [] ++ [CallError unsupported]
     /\ caller w' = Samples.onError unsupported Samples.blank
     /\ sent w' = [] /\ wire w' = wire w /\ closed w' = false)
  /\
  (exists w',
     Anthropic.StreamChat Samples.B.Unmarshal Samples.asciiOnly
       (fun _ => inl unsupported) Samples.NewRequestWithContext
       (Samples.answering 200) (Anthropic.New "sk-ant-test" "") tt []
       Samples.allCallbacks w = (Returned tt, w')
     /\ calls w' = [] ++ [CallError unsupported]
     /\ caller w' = Samples.onError unsupported Samples.blank
     /\ sent w' = [] /\ wire w' = wire w /\ closed w' = false).
Proof.
  intros unsupported w.
  pose proof (@StreamChat_reports_a_request_that_cannot_be_prepared
                Samples.Transcript Samples.A.Unmarshal Samples.B.Unmarshal
                Samples.asciiOnly (fun _ => inl unsupported)
                (fun _ => inl unsupported) unit Samples.NewRequestWithContext
                (Samples.answering 200) (OpenAI.New "sk-test" "")
                (Anthropic.New "sk-ant-test" "") tt []
                Samples.listener Samples.onError w eq_refl) as [HA HB].
  split.
  - exact (HA None None unsupported eq_refl eq_refl).
  - exact (HB None None unsupported eq_refl eq_refl).
Defined.


Lemma StreamChat_is_processStream_on_the_response_witness :
  let w := Samples.arriving (Samples.dataLine Samples.A.hi
                             ++ Samples.dataLine Samples.A.done) EOF in
  (exists req,
     let out := Samples.A.StreamChat 200 Samples.allCallbacks w in
     let run := Samples.A.processStream Samples.ok Samples.allCallbacks
                  (dispatched req w) in
     fst out = fst run
     /\ calls (snd out) = calls (snd run)
     /\ caller (snd out) = caller (snd run)
     /\ wire (snd out) = wire (snd run)
     /\ sent (snd out) = [] ++ [req]
     /\ closed (snd out) = true)
  /\
  (exists req,
     let out := Samples.B.StreamChat 200 Samples.allCallbacks w in
     let run := Samples.B.processStream Samples.ok Samples.allCallbacks
                  (dispatched req w) in
     fst out = fst run
     /\ calls (snd out) = calls (snd run)
     /\ caller (snd out) = caller (snd run)
     /\ wire (snd out) = wire (snd run)
     /\ sent (snd out) = [] ++ [req]
     /\ closed (snd out) = true).
Proof.
  intros w.
  pose proof (@StreamChat_is_processStream_on_the_response
                Samples.Transcript Samples.A.Unmarshal Samples.B.Unmarshal
                Samples.asciiOnly (@Samples.Marshal OpenAI.RequestBody)
                (@Samples.Marshal Anthropic.RequestBody) unit
                Samples.NewRequestWithContext (Samples.answering 200)
                (OpenAI.New "sk-test" "") (Anthropic.New "sk-test" "") tt []
                Samples.allCallbacks w) as H.
  cbv zeta in H. destruct H as [HA HB].
  split.
  - eexists. cbv zeta. eapply (HA _ _ Samples.ok); reflexivity.
  - eexists. cbv zeta. eapply (HB _ _ Samples.ok); reflexivity.
Defined.

(** * The end-of-stream marker *)

Section Terminated.

Context {St : Type}.
Variable UnmarshalA : bytes -> error + OpenAI.StreamEvent.
Variable UnmarshalB : bytes -> error + Anthropic.StreamEvent.
Variable trimUnicode : bytes -> bytes.
Variable c : StreamCallbacks St.
Variable g : string -> St -> St.
Variable h : error -> St -> St.
Hypothesis Hg : OnFinish c = Some g.
Hypothesis Hh : OnError c = Some h.
Variable marker rest : bytes.
Hypothesis Hmarker : noNewline marker = true.




End Terminated.





(** * Runs that cannot panic *)

Section Returns.

Context {St : Type}.
Variable UnmarshalA : bytes -> error + OpenAI.StreamEvent.
Variable UnmarshalB : bytes -> error + Anthropic.StreamEvent.
Variable trimUnicode : bytes -> bytes.
Variable c : StreamCallbacks St.
Variable g : string -> St -> St.
Variable h : error -> St -> St.
Hypothesis Hg : OnFinish c = Some g.
Hypothesis Hh : OnError c = Some h.

Lemma OpenAI_pass_returns (fm : string) (w : World St) :
  exists flow w',
    OpenAI.iteration UnmarshalA trimUnicode (Some c) fm w = (Returned flow, w').
Proof.
  destruct c as [oc ofin oerr]. simpl in Hg, Hh. subst ofin oerr.
  destruct (cut nl (pending (wire w))) as [[raw rest]|] eqn:E.
  - rewrite (OpenAI_iteration_line _ _ _ _ _ E), OpenAI_onLine_classify.
    destruct (OpenAI.classify UnmarshalA trimUnicode raw);
      destruct oc; plumbing; eauto.
  - rewrite (OpenAI_iteration_end _ _ _ _ _ E).
    destruct (isEOF (final (wire w))); plumbing; eauto.
Qed.

Lemma Anthropic_pass_returns (fm : string) (w : World St) :
  exists flow w',
    Anthropic.iteration UnmarshalB trimUnicode (Some c) fm w = (Returned flow, w').
Proof.
  destruct c as [oc ofin oerr]. simpl in Hg, Hh. subst ofin oerr.
  destruct (cut nl (pending (wire w))) as [[raw rest]|] eqn:E.
  - rewrite (Anthropic_iteration_line _ _ _ _ _ E), Anthropic_onLine_classify.
    destruct (Anthropic.classify UnmarshalB trimUnicode raw);
      destruct oc; plumbing; eauto.
  - rewrite (Anthropic_iteration_end _ _ _ _ _ E).
    destruct (isEOF (final (wire w))); plumbing; eauto.
Qed.

Lemma processStream_returns (resp : Response) (w : World St) :
  fst (OpenAI.processStream UnmarshalA trimUnicode resp (Some c) w) = Returned tt
  /\ fst (Anthropic.processStream UnmarshalB trimUnicode resp (Some c) w)
     = Returned tt.
Proof.
  unfold OpenAI.processStream, Anthropic.processStream.
  destruct (negb (StatusCode resp =? StatusOK)%Z).
  - unfold bind, ReadAll.
    destruct (isEOF (final (wire w)));
      rewrite !(invoke_supplied _ _ _ _ _ Hh); now split.
  - split.
    + apply (forLoop_rule _
               (OpenAI_iteration_progress UnmarshalA trimUnicode (Some c))
               (OpenAI_iteration_ends UnmarshalA trimUnicode (Some c))
               (fun _ _ => True) (fun r _ => r = Returned tt));
        [| exact I | unfold passes; lia].
      intros fm w0 _.
      destruct (OpenAI_pass_returns fm w0) as ([fm'|] & w1 & ->); auto.
    + apply (forLoop_rule _
               (Anthropic_iteration_progress UnmarshalB trimUnicode (Some c))
               (Anthropic_iteration_ends UnmarshalB trimUnicode (Some c))
               (fun _ _ => True) (fun r _ => r = Returned tt));
        [| exact I | unfold passes; lia].
      intros fm w0 _.
      destruct (Anthropic_pass_returns fm w0) as ([fm'|] & w1 & ->); auto.
Qed.

End Returns.

(** With [onFinish] and [onError] supplied ([onContent] may be missing),
    [StreamChat] returns and never panics: whatever the key, the encoder,
    the transport, the status of the response and the bytes of its body. *)
Theorem StreamChat_returns_when_onFinish_and_onError_are_supplied (St : Type)
    (UnmarshalA : bytes -> error + OpenAI.StreamEvent)
    (UnmarshalB : bytes -> error + Anthropic.StreamEvent)
    (trimUnicode : bytes -> bytes)
    (MarshalA : OpenAI.RequestBody -> error + bytes)
    (MarshalB : Anthropic.RequestBody -> error + bytes)
    (Context_ : Type)
    (NewRequestWithContext : Context_ -> string -> string -> bytes -> error + Request)
    (transport : Request -> error + Response)
    (sA : OpenAI.OpenAIStreamer) (sB : Anthropic.AnthropicStreamer)
    (ctx : Context_) (messages : list Message)
    (c : StreamCallbacks St) (g : string -> St -> St) (h : error -> St -> St)
    (w : World St) :
  OnFinish c = Some g -> OnError c = Some h ->
  fst (OpenAI.StreamChat UnmarshalA trimUnicode MarshalA NewRequestWithContext
         transport sA ctx messages (Some c) w) = Returned tt
  /\ fst (Anthropic.StreamChat UnmarshalB trimUnicode MarshalB NewRequestWithContext
            transport sB ctx messages (Some c) w) = Returned tt.
Proof.
  intros Hg Hh. split.
  - unfold OpenAI.StreamChat, OpenAI.streamOpenAI.
    rewrite (supplied_Some _ _ Hh).
    destruct (OpenAI.ApiKey sA =? "")%string;
      [now rewrite (invoke_supplied _ _ _ _ _ Hh)|].
    cbv zeta.
    destruct (OpenAI.prepareRequest _ _ _ _ _) as [[client req] [e|]];
      [unfold bind, ret; now rewrite (invoke_supplied _ _ _ _ _ Hh)|].
    destruct client as [client|], req as [req|];
      try (unfold bind, ret; now rewrite (invoke_supplied _ _ _ _ _ Hh)).
    unfold bind at 1 2. unfold Do.
    destruct (transport req) as [e|resp];
      [unfold ret; now rewrite (invoke_supplied _ _ _ _ _ Hh)|].
    unfold bind, deferClose, ret.
    pose proof (proj1 (processStream_returns UnmarshalA UnmarshalB trimUnicode
                         c g h Hg Hh resp (dispatched req w))) as H.
    unfold dispatched in H.
    destruct (OpenAI.processStream _ _ _ _ _) as [r w1]. simpl in H. now subst r.
  - unfold Anthropic.StreamChat, Anthropic.streamAnthropic.
    rewrite (supplied_Some _ _ Hh).
    destruct (Anthropic.ApiKey sB =? "")%string;
      [now rewrite (invoke_supplied _ _ _ _ _ Hh)|].
    cbv zeta.
    destruct (Anthropic.prepareRequest _ _ _ _ _) as [[client req] [e|]];
      [unfold bind, ret; now rewrite (invoke_supplied _ _ _ _ _ Hh)|].
    destruct client as [client|], req as [req|];
      try (unfold bind, ret; now rewrite (invoke_supplied _ _ _ _ _ Hh)).
    unfold bind at 1 2. unfold Do.
    destruct (transport req) as [e|resp];
      [unfold ret; now rewrite (invoke_supplied _ _ _ _ _ Hh)|].
    unfold bind, deferClose, ret.
    pose proof (proj2 (processStream_returns UnmarshalA UnmarshalB trimUnicode
                         c g h Hg Hh resp (dispatched req w))) as H.
    unfold dispatched in H.
    destruct (Anthropic.processStream _ _ _ _ _) as [r w1]. simpl in H. now subst r.
Qed.

Lemma StreamChat_returns_when_onFinish_and_onError_are_supplied_witness :
  let w := Samples.arriving (Samples.dataLine Samples.A.hi
                             ++ Samples.dataLine Samples.A.garbage) EOF in
  fst (Samples.A.StreamChat 200 Samples.noOnContent w) = Returned tt
  /\ fst (Samples.B.StreamChat 200 Samples.noOnContent w) = Returned tt.
Proof.
  exact (StreamChat_returns_when_onFinish_and_onError_are_supplied
           Samples.Transcript Samples.A.Unmarshal Samples.B.Unmarshal
           Samples.asciiOnly (@Samples.Marshal OpenAI.RequestBody)
           (@Samples.Marshal Anthropic.RequestBody) unit
           Samples.NewRequestWithContext (Samples.answering 200)
           (OpenAI.New "sk-test" "") (Anthropic.New "sk-test" "") tt []
           {| OnContent := None; OnFinish := Some Samples.onFinish;
              OnError := Some Samples.onError |}
           Samples.onFinish Samples.onError
           (Samples.arriving (Samples.dataLine Samples.A.hi
                              ++ Samples.dataLine Samples.A.garbage) EOF)
           eq_refl eq_refl).
Defined.
